(** * token-counter-cli: counting dispatch and budget analysis

    A shallow embedding of [token_counter_cli/counting.py] and
    [token_counter_cli/budget.py] (with the records of [models.py], [input.py]
    and [cli.py] they use), followed by the properties of the specification
    that were checked against it.

    Python [int] is [Z]; Python [float] is IEEE binary64, taken from the
    standard library's [SpecFloat] (round to nearest, ties to even); [str] is
    [string]; a raised exception is the [Raise] case of [result]. *)

From Stdlib Require Import ZArith QArith Qround String Ascii List Bool Lia.
From Stdlib Require Import SpecFloat.
From Stdlib Require Import DecimalString.
Import ListNotations.

Local Open Scope string_scope.
Local Open Scope list_scope.
Local Open Scope Z_scope.

(** ** Exceptions *)

Inductive exc_kind : Type :=
| OverflowError
| ValueError
| ZeroDivisionError
| OtherError.

(** An exception object: its class and [str(e)]. *)
Record exception : Type := mkExc { exc_class : exc_kind; exc_str : string }.

Inductive result (A : Type) : Type :=
| Return (a : A)
| Raise (e : exception).

Arguments Return {A} a.
Arguments Raise {A} e.

Definition bind {A B : Type} (c : result A) (k : A -> result B) : result B :=
  match c with
  | Return a => k a
  | Raise e => Raise e
  end.

Notation "x <- c ;; k" := (bind c (fun x => k))
  (at level 61, c at next level, right associativity).

(** [try: body  except Exception as e: return handler(e)], for handlers that
    only build a value. *)
Definition try_except {A : Type} (body : result A) (handler : exception -> A) : A :=
  match body with
  | Return a => a
  | Raise e => handler e
  end.

(** Truthiness of a [str] and of an [Optional[str]], as tested by [if x:]. *)
Definition str_truthy (s : string) : bool :=
  match s with
  | EmptyString => false
  | String _ _ => true
  end.

Definition opt_str_truthy (o : option string) : bool :=
  match o with
  | None => false
  | Some s => str_truthy s
  end.

(** ** Python floats (binary64) *)

Module PyFloat.

Definition prec : Z := 53.
Definition emax : Z := 1024.

Definition float : Type := spec_float.

Definition is_finite (x : float) : bool :=
  match x with
  | S754_zero _ | S754_finite _ _ _ => true
  | S754_infinity _ | S754_nan => false
  end.

(** The binary64 nearest to the rational [(-1)^s * n / d] (ties to even):
    what a correctly rounded conversion or division produces. *)
Definition nearest_ratio (s : bool) (n d : positive) : float :=
  let '(q, e, l) := SFdiv_core_binary prec emax (Zpos n) 0 (Zpos d) 0 in
  binary_round_aux prec emax s q e l.

(** A decimal literal [n / d] of the source text, e.g. [0.95] is
    [literal 95 100]. *)
Definition literal (n d : positive) : float := nearest_ratio false n d.

Definition zero : float := S754_zero false.

(** [float(n)] for an [int] [n] (the conversion done by [int * float]):
    correctly rounded, [OverflowError] when out of range. *)
Definition of_int (n : Z) : result float :=
  match binary_normalize prec emax n 0 false with
  | S754_infinity _ =>
      Raise (mkExc OverflowError "int too large to convert to float")
  | f => Return f
  end.

Definition mul (x y : float) : float := SFmul prec emax x y.

(** [n * x] for an [int] [n] and a [float] [x]. *)
Definition int_mul (n : Z) (x : float) : result float :=
  f <- of_int n ;; Return (mul f x).

(** [a / b] for two [int]s: the correctly rounded quotient. *)
Definition int_truediv (a b : Z) : result float :=
  match a, b with
  | _, Z0 => Raise (mkExc ZeroDivisionError "division by zero")
  | Z0, _ => Return (S754_zero (b <? 0))
  | _, _ =>
      match nearest_ratio (xorb (a <? 0) (b <? 0)) (Z.to_pos (Z.abs a)) (Z.to_pos (Z.abs b)) with
      | S754_infinity _ =>
          Raise (mkExc OverflowError "integer division result too large for a float")
      | f => Return f
      end
  end.

(** [int(x)]: truncation toward zero. *)
Definition to_int (x : float) : result Z :=
  match x with
  | S754_nan => Raise (mkExc ValueError "cannot convert float NaN to integer")
  | S754_infinity _ =>
      Raise (mkExc OverflowError "cannot convert float infinity to integer")
  | S754_zero _ => Return 0
  | S754_finite s m e => Return (cond_Zopp s (Z.shiftl (Zpos m) e))
  end.

(** The integer nearest to [n / d], ties to the even one ([0 < d]). *)
Definition div_half_even (n d : Z) : Z :=
  let q := n / d in
  let r := n mod d in
  match 2 * r ?= d with
  | Lt => q
  | Gt => q + 1
  | Eq => if Z.even q then q else q + 1
  end.

(** [round(x, ndigits)] for [0 <= ndigits]: the exact binary value of [x]
    is rounded to [ndigits] decimals (ties to even), and the decimal
    obtained is converted back to the nearest float. *)
Definition round (x : float) (ndigits : N) : float :=
  match x with
  | S754_finite s m e =>
      let scale := Z.pow 10 (Z.of_N ndigits) in
      let k :=
        match e with
        | Zneg p => div_half_even (Zpos m * scale) (Z.pow 2 (Zpos p))
        | _ => Zpos m * scale * Z.pow 2 e
        end in
      match k with
      | Zpos p => nearest_ratio s p (Z.to_pos scale)
      | _ => S754_zero s
      end
  | _ => x
  end.

(** The sign bit of a float ([false] for NaN). *)
Definition sign_bit (x : float) : bool :=
  match x with
  | S754_zero s | S754_infinity s | S754_finite s _ _ => s
  | S754_nan => false
  end.

(** [x >= y] and [x <= y]. *)
Definition geb (x y : float) : bool := SFleb y x.
Definition leb (x y : float) : bool := SFleb x y.

(** The exact rational value of a finite float (0 for the others). *)
Definition to_Q (x : float) : Q :=
  match x with
  | S754_finite s m e =>
      match e with
      | Zneg p => Qmake (cond_Zopp s (Zpos m)) (Pos.pow 2 p)
      | _ => inject_Z (cond_Zopp s (Zpos m * Z.pow 2 e))
      end
  | _ => 0%Q
  end.

(** [x] is a zero or a finite float with exponent in range whose magnitude
    is below [2^k]. *)
Definition magnitude_below (k : Z) (x : float) : Prop :=
  match x with
  | S754_zero _ => True
  | S754_finite _ m e => e <= 971 /\ Z.pos (digits2_pos m) + e <= k
  | _ => False
  end.

End PyFloat.

(** ** Strings *)

(** [sep.join(parts)]. *)
Fixpoint join (sep : string) (parts : list string) : string :=
  match parts with
  | [] => EmptyString
  | [s] => s
  | s :: rest => (s ++ sep ++ join sep rest)%string
  end.

(** The two-character string of two line feeds. *)
Definition double_newline : string :=
  String (ascii_of_nat 10) (String (ascii_of_nat 10) EmptyString).

(** [str(n)] for an [int] and for a loop index. *)
Definition str_of_int (n : Z) : string := NilZero.string_of_int (Z.to_int n).
Definition str_of_nat (n : nat) : string := NilZero.string_of_uint (Nat.to_uint n).

(** A string of [n] spaces, and [s.ljust(width)]. *)
Fixpoint spaces (n : nat) : string :=
  match n with
  | O => EmptyString
  | S k => String " " (spaces k)
  end.

Definition ljust (s : string) (width : nat) : string :=
  (s ++ spaces (width - String.length s))%string.

(** ** models.py *)

Module models.

Record ModelDefinition : Type := mkModelDefinition {
  name : string;
  context_limit : Z;
  tokenizer_type : string
}.

(** [ModelRegistry._models]: the hard-coded definitions, in the order the
    dict literal lists them. *)
Definition _models : list (string * ModelDefinition) :=
  [ ("gpt-4o", mkModelDefinition "gpt-4o" 128000 "local");
    ("claude-3-5-sonnet", mkModelDefinition "claude-3-5-sonnet" 200000 "provider") ].

(** A raised [KeyError], with the argument it was built from. *)
Inductive KeyError : Type := mkKeyError (arg : string).

Fixpoint registry_lookup (entries : list (string * ModelDefinition)) (key : string)
  : option ModelDefinition :=
  match entries with
  | [] => None
  | (k, v) :: rest => if String.eqb k key then Some v else registry_lookup rest key
  end.

Definition get_model (model_name : string) : KeyError + ModelDefinition :=
  match registry_lookup _models model_name with
  | None => inl (mkKeyError ("Unknown model: " ++ model_name)%string)
  | Some m => inr m
  end.

Definition get_available_models : list string := map fst _models.

End models.

(** ** input.py *)

Module input.

(** A value decoded from JSON: what [Message.content] and the items of a
    content array can hold. A [dict] keeps its entries in order; lookup
    takes the first entry of a key. *)
#[warnings="-register-all"] Inductive pyobj : Type :=
| PyNone
| PyBool (b : bool)
| PyInt (n : Z)
| PyFloatObj (x : PyFloat.float)
| PyStr (s : string)
| PyList (items : list pyobj)
| PyDict (entries : list (string * pyobj)).

(** [d.get(key)] on the entries of a dict: [None] when [key not in d]. *)
Fixpoint dict_get (entries : list (string * pyobj)) (key : string) : option pyobj :=
  match entries with
  | [] => None
  | (k, v) :: rest => if String.eqb k key then Some v else dict_get rest key
  end.

Record Message : Type := mkMessage {
  role : string;
  content : pyobj
}.

(** The roles [Message.__post_init__] accepts. *)
Definition valid_role (r : string) : bool :=
  String.eqb r "system" || String.eqb r "user"
  || String.eqb r "assistant" || String.eqb r "tool".

(** The field [content] of [InputData] is [input_content] here, the name
    [content] being taken by [Message]. *)
Record InputData : Type := mkInputData {
  input_content : string;
  messages : option (list Message);
  source : string
}.

(** [type(v).__name__]. *)
Definition type_name (v : pyobj) : string :=
  match v with
  | PyNone => "NoneType"
  | PyBool _ => "bool"
  | PyInt _ => "int"
  | PyFloatObj _ => "float"
  | PyStr _ => "str"
  | PyList _ => "list"
  | PyDict _ => "dict"
  end.

Section MessageParsing.

(** [repr] of a float, which formats a float role in an error message. *)
Variable float_repr : PyFloat.float -> string.

(** [Message(role=role, content=content)] with [__post_init__]: the role
    is looked up in the set of valid roles, which raises [TypeError] (here
    [OtherError]) for an unhashable value and finds only the four strings. *)
Definition new_Message (role_value content_value : pyobj) : result Message :=
  let invalid (shown : string) :=
    Raise (mkExc ValueError
             ("Invalid message role: " ++ shown
              ++ ". Valid roles: assistant, system, tool, user")%string) in
  match role_value with
  | PyStr r => if valid_role r then Return (mkMessage r content_value) else invalid r
  | PyList _ => Raise (mkExc OtherError "unhashable type: 'list'")
  | PyDict _ => Raise (mkExc OtherError "unhashable type: 'dict'")
  | PyNone => invalid "None"
  | PyBool b => invalid (if b then "True" else "False")
  | PyInt n => invalid (str_of_int n)
  | PyFloatObj x => invalid (float_repr x)
  end.

(** The body of the loop of [parse_messages] for the item at index [i]. *)
Definition parse_item (source_name : string) (i : nat) (item : pyobj) : result Message :=
  match item with
  | PyDict entries =>
      match dict_get entries "role" with
      | None =>
          Raise (mkExc ValueError
                   ("Message " ++ str_of_nat i ++ " missing required field 'role' in "
                    ++ source_name)%string)
      | Some role_value =>
          match dict_get entries "content" with
          | None =>
              Raise (mkExc ValueError
                       ("Message " ++ str_of_nat i
                        ++ " missing required field 'content' in " ++ source_name)%string)
          | Some content_value =>
              match new_Message role_value content_value with
              | Return message => Return message
              | Raise e =>
                  match exc_class e with
                  | ValueError =>
                      Raise (mkExc ValueError
                               ("Message " ++ str_of_nat i ++ " in " ++ source_name
                                ++ ": " ++ exc_str e)%string)
                  | _ => Raise e
                  end
              end
          end
      end
  | _ =>
      Raise (mkExc ValueError
               ("Message " ++ str_of_nat i ++ " must be an object in " ++ source_name
                ++ ", got " ++ type_name item)%string)
  end.

(** The loop of [parse_messages] from index [i] on, [parsed] being the list
    [messages] built so far. *)
Fixpoint parse_items (source_name : string) (i : nat) (items : list pyobj)
  (parsed : list Message) : result (list Message) :=
  match items with
  | [] => Return parsed
  | item :: rest =>
      message <- parse_item source_name i item ;;
      parse_items source_name (S i) rest (parsed ++ [message])
  end.

Definition parse_messages (data : pyobj) (source_name : string) : result (list Message) :=
  match data with
  | PyList [] =>
      Raise (mkExc ValueError ("Messages array cannot be empty in " ++ source_name)%string)
  | PyList items => parse_items source_name 0 items []
  | _ =>
      Raise (mkExc ValueError
               ("Messages must be an array of objects in " ++ source_name ++ ", got "
                ++ type_name data)%string)
  end.

End MessageParsing.

(** One iteration of the loop of [InputHandler._extract_text_from_content_array]. *)
Definition extract_step (text_parts : list string) (item : pyobj) : list string :=
  match item with
  | PyStr s => text_parts ++ [s]
  | PyDict entries =>
      match dict_get entries "text" with
      | Some (PyStr s) => text_parts ++ [s]
      | _ => text_parts
      end
  | _ => text_parts
  end.

Definition _extract_text_from_content_array (content_array : list pyobj) : string :=
  join " " (fold_left extract_step content_array []).

(** One iteration of the loop of [_messages_to_text]. *)
Definition text_step (text_parts : list string) (message : Message) : list string :=
  match content message with
  | PyStr s => text_parts ++ [s]
  | PyList items =>
      let content_text := _extract_text_from_content_array items in
      if str_truthy content_text then text_parts ++ [content_text] else text_parts
  | _ => text_parts
  end.

Definition _messages_to_text (msgs : list Message) : string :=
  join double_newline (fold_left text_step msgs []).

End input.

(** ** cli.py *)

Module cli.

Inductive InputSource : Type := STDIN | FILE | MESSAGES.

Record CLIConfig : Type := mkCLIConfig {
  models : list string;
  input_source : InputSource;
  input_path : option string;
  max_tokens : option Z;
  reserve : option Z;
  reserve_pct : PyFloat.float;
  json_output : bool
}.

(** [CLIConfig._validate_reserve_values] passes (raises nothing). *)
Definition reserve_values_ok (c : CLIConfig) : bool :=
  negb (match reserve c with Some r => r <? 0 | None => false end)
  && (PyFloat.leb PyFloat.zero (reserve_pct c)
      && PyFloat.leb (reserve_pct c) (PyFloat.literal 1 1)).

Definition _validate_reserve_values (c : CLIConfig) : result unit :=
  if match reserve c with Some r => r <? 0 | None => false end then
    Raise (mkExc ValueError "--reserve must be non-negative")
  else if negb (PyFloat.leb PyFloat.zero (reserve_pct c)
                && PyFloat.leb (reserve_pct c) (PyFloat.literal 1 1)) then
    Raise (mkExc ValueError "--reserve-pct must be in range [0.0, 1.0]")
  else Return tt.

(** [model in valid_models] for the set of [_validate_models]. *)
Definition valid_model (m : string) : bool :=
  String.eqb m "gpt-4o" || String.eqb m "claude-3-5-sonnet".

(** The loop of [_validate_models]. *)
Fixpoint validate_model_names (names : list string) : result unit :=
  match names with
  | [] => Return tt
  | m :: rest =>
      if negb (valid_model m) then
        Raise (mkExc ValueError
                 ("Unknown model: " ++ m
                  ++ ". Valid models: claude-3-5-sonnet, gpt-4o")%string)
      else validate_model_names rest
  end.

Definition _validate_models (c : CLIConfig) : result unit :=
  validate_model_names (models c).

Definition __post_init__ (c : CLIConfig) : result unit :=
  checked <- _validate_reserve_values c ;;
  _validate_models c.

(** [CLIConfig(...)]: the record, once [__post_init__] has passed. *)
Definition new_CLIConfig (models : list string) (input_source : InputSource)
  (input_path : option string) (max_tokens reserve : option Z)
  (reserve_pct : PyFloat.float) (json_output : bool) : result CLIConfig :=
  let c := mkCLIConfig models input_source input_path max_tokens reserve reserve_pct
             json_output in
  checked <- __post_init__ c ;;
  Return c.

(** The [argparse.Namespace] the parser produces: [messages] and [file] are
    paths or [None], [models] is [None] when [--model] was not given. *)
Record Namespace : Type := mkNamespace {
  arg_messages : option string;
  arg_file : option string;
  arg_models : option (list string);
  arg_json : bool;
  arg_max_tokens : option Z;
  arg_reserve : option Z;
  arg_reserve_pct : PyFloat.float
}.

Definition _build_config (args : Namespace) : result CLIConfig :=
  let '(input_source, input_path) :=
    match arg_messages args with
    | Some path => (MESSAGES, Some path)
    | None =>
        match arg_file args with
        | Some path => (FILE, Some path)
        | None => (STDIN, None)
        end
    end in
  let models :=
    match arg_models args with
    | Some (m :: rest) => m :: rest
    | _ => ["gpt-4o"; "claude-3-5-sonnet"]
    end in
  if match arg_max_tokens args with Some mt => mt <=? 0 | None => false end then
    Raise (mkExc ValueError "--max-tokens must be positive")
  else
    new_CLIConfig models input_source input_path (arg_max_tokens args)
      (arg_reserve args) (arg_reserve_pct args) (arg_json args).

End cli.

(** ** counting.py *)

Module counting.
Import models input.

Record CountingResult : Type := mkCountingResult {
  model : string;
  input_tokens : Z;
  error : option string;
  is_approximate : bool
}.

(** A tiktoken encoding object: only its [encode] method is used, which
    returns the token identifiers of a text or raises. *)
Record Encoding : Type := mkEncoding {
  encode : string -> result (list Z)
}.

(** [len(xs)] as an [int]. *)
Definition len {A : Type} (xs : list A) : Z := Z.of_nat (List.length xs).

(** One iteration of the loop of [_extract_text_from_content_array]. *)
Definition extract_step (text_parts : list string) (item : pyobj) : list string :=
  match item with
  | PyStr s => text_parts ++ [s]
  | PyDict entries =>
      match dict_get entries "text" with
      | Some (PyStr s) => text_parts ++ [s]
      | _ => text_parts
      end
  | _ => text_parts
  end.

Definition _extract_text_from_content_array (content_array : list pyobj) : string :=
  let text_parts := fold_left extract_step content_array [] in
  join " " text_parts.

(** One iteration of the loop of [_count_messages_approximate]. *)
Definition message_step (text_parts : list string) (message : Message) : list string :=
  let role_text := ("<" ++ role message ++ ">")%string in
  let text_parts := text_parts ++ [role_text] in
  match content message with
  | PyStr s => text_parts ++ [s]
  | PyList items =>
      let content_text := _extract_text_from_content_array items in
      if str_truthy content_text then text_parts ++ [content_text] else text_parts
  | _ => text_parts
  end.

(** The list [text_parts] when the loop over the messages ends, and the
    string [full_text] joined from it. *)
Definition approximate_text_parts (msgs : list Message) : list string :=
  fold_left message_step msgs [].

Definition approximate_full_text (msgs : list Message) : string :=
  join double_newline (approximate_text_parts msgs).

Definition _count_messages_approximate (msgs : list Message) (encoding : Encoding)
  : result Z :=
  let full_text := approximate_full_text msgs in
  tokens <- encode encoding full_text ;;
  Return (len tokens).

Section TokenCounter.

(** [tiktoken.encoding_for_model]: the encoding of a model name, or an
    exception. *)
Variable encoding_for_model : string -> result Encoding.

Definition _count_provider_tokens (input_data : InputData) (m : ModelDefinition)
  : CountingResult :=
  mkCountingResult (name m) 0 (Some "Provider token counting not yet implemented") false.

Definition _count_gpt4o_tokens (input_data : InputData) : CountingResult :=
  match encoding_for_model "gpt-4o" with
  | Raise e =>
      mkCountingResult "gpt-4o" 0
        (Some ("Failed to load tiktoken encoding: " ++ exc_str e)%string) false
  | Return encoding =>
      try_except
        (match messages input_data with
         | Some msgs =>
             token_count <- _count_messages_approximate msgs encoding ;;
             Return (mkCountingResult "gpt-4o" token_count None true)
         | None =>
             tokens <- encode encoding (input_content input_data) ;;
             Return (mkCountingResult "gpt-4o" (len tokens) None false)
         end)
        (fun e =>
           mkCountingResult "gpt-4o" 0
             (Some ("Token encoding failed: " ++ exc_str e)%string) false)
  end.

Definition _count_local_tokens (input_data : InputData) (m : ModelDefinition)
  : CountingResult :=
  if String.eqb (name m) "gpt-4o" then _count_gpt4o_tokens input_data
  else
    mkCountingResult (name m) 0
      (Some ("Local counting not supported for model: " ++ name m)%string) false.

(** [TokenCounter.count_tokens]. The three helpers handle their own
    exceptions, so the body of the outer [try] always returns. *)
Definition count_tokens (input_data : InputData) (m : ModelDefinition)
  : CountingResult :=
  try_except
    (if String.eqb (tokenizer_type m) "local" then
       Return (_count_local_tokens input_data m)
     else if String.eqb (tokenizer_type m) "provider" then
       Return (_count_provider_tokens input_data m)
     else
       Return (mkCountingResult (name m) 0
                 (Some ("Unknown tokenizer type: " ++ tokenizer_type m)%string) false))
    (fun e =>
       mkCountingResult (name m) 0
         (Some ("Token counting failed: " ++ exc_str e)%string) false).

End TokenCounter.

End counting.

(** ** budget.py *)

Module budget.
Import models cli.

Record BudgetResult : Type := mkBudgetResult {
  model : string;
  input_tokens : Z;
  context_limit : Z;
  effective_limit : Z;
  reserve : Z;
  remaining_tokens : Z;
  pct_used : PyFloat.float;
  warning : option string;
  error : option string;
  is_approximate : bool
}.

(** [min(a, b)] of two [int]s. *)
Definition py_min (a b : Z) : Z := if b <? a then b else a.

Definition _calculate_effective_limit (m : ModelDefinition) (config : CLIConfig) : Z :=
  match max_tokens config with
  | Some mt => py_min (models.context_limit m) mt
  | None => models.context_limit m
  end.

Definition _calculate_reserve (effective_limit : Z) (config : CLIConfig) : result Z :=
  match cli.reserve config with
  | Some r => Return r
  | None =>
      product <- PyFloat.int_mul effective_limit (reserve_pct config) ;;
      PyFloat.to_int product
  end.

Definition _check_thresholds (pct_used : PyFloat.float) (remaining_tokens : Z)
  : option string * option string :=
  if PyFloat.geb pct_used (PyFloat.literal 95 100) || (remaining_tokens <? 0) then
    (None, Some "error: exceeds budget")
  else if PyFloat.geb pct_used (PyFloat.literal 80 100) then
    (Some "warning: near limit", None)
  else
    (None, None).

Definition analyze_budget (counting_result : counting.CountingResult)
  (m : ModelDefinition) (config : CLIConfig) : result BudgetResult :=
  if opt_str_truthy (counting.error counting_result) then
    Return (mkBudgetResult (name m) 0 (models.context_limit m) (models.context_limit m)
              0 0 PyFloat.zero None (counting.error counting_result)
              (counting.is_approximate counting_result))
  else
    let effective_limit := _calculate_effective_limit m config in
    reserve <- _calculate_reserve effective_limit config ;;
    let remaining_tokens :=
      effective_limit - reserve - counting.input_tokens counting_result in
    pct_used <-
      (if effective_limit =? 0 then
         Return (if counting.input_tokens counting_result =? 0
                 then PyFloat.zero else PyFloat.literal 99999 100)
       else
         ratio <- PyFloat.int_truediv (counting.input_tokens counting_result)
                    effective_limit ;;
         Return (PyFloat.round ratio 2)) ;;
    let '(warning, error) := _check_thresholds pct_used remaining_tokens in
    Return (mkBudgetResult (name m) (counting.input_tokens counting_result)
              (models.context_limit m) effective_limit reserve remaining_tokens
              pct_used warning error (counting.is_approximate counting_result)).

(** The value [analyze_budget] assigns to its local [pct_used], as a
    function of the token count and the effective limit. *)
Definition pct_used_of (tokens effective_limit : Z) : result PyFloat.float :=
  if effective_limit =? 0 then
    Return (if tokens =? 0 then PyFloat.zero else PyFloat.literal 99999 100)
  else
    ratio <- PyFloat.int_truediv tokens effective_limit ;;
    Return (PyFloat.round ratio 2).

End budget.

(** ** output.py *)

Module output.
Import budget.

(** The escape character, and the entries of [color_codes]. *)
Definition esc : string := String (ascii_of_nat 27) EmptyString.

Definition color_codes : list (string * string) :=
  [ ("red", (esc ++ "[31m")%string);
    ("yellow", (esc ++ "[33m")%string);
    ("reset", (esc ++ "[0m")%string) ].

Fixpoint color_lookup (entries : list (string * string)) (key : string) : option string :=
  match entries with
  | [] => None
  | (k, v) :: rest => if String.eqb k key then Some v else color_lookup rest key
  end.

(** [OutputFormatter._colorize], for a formatter whose [_colors_enabled] is
    [colors_enabled]. *)
Definition _colorize (colors_enabled : bool) (text color : string) : string :=
  if negb colors_enabled then text
  else
    match color_lookup color_codes color with
    | None => text
    | Some code => (code ++ text ++ esc ++ "[0m")%string
    end.

(** Two decimal digits of [n < 100]. *)
Definition two_digits (n : Z) : string :=
  ((if (n <? 10)%Z then "0" else "") ++ str_of_int n)%string.

(** [f"{x:.2f}"]: the exact value of [x] rounded to two decimals (ties to
    even), printed with its sign. *)
Definition format_2f (x : PyFloat.float) : string :=
  match x with
  | S754_nan => "nan"
  | S754_infinity s => if s then "-inf" else "inf"
  | S754_zero s => ((if s then "-" else "") ++ "0.00")%string
  | S754_finite s m e =>
      let k :=
        match e with
        | Zneg p => PyFloat.div_half_even (Zpos m * 100) (Z.pow 2 (Zpos p))
        | _ => Zpos m * 100 * Z.pow 2 e
        end in
      ((if s then "-" else "") ++ str_of_int (k / 100)%Z ++ "."
       ++ two_digits (k mod 100)%Z)%string
  end.

Definition headers : list string :=
  ["model"; "input_tokens"; "context_limit"; "pct_used"; "remaining_tokens"; "warnings"].

(** The text of the warnings column: the error when there is one, else the
    warning, else nothing. *)
Definition warnings_str (result : BudgetResult) : string :=
  if opt_str_truthy (error result) then
    match error result with Some e => e | None => EmptyString end
  else if opt_str_truthy (warning result) then
    match warning result with Some w => w | None => EmptyString end
  else EmptyString.

(** The list [row] built for one result. *)
Definition make_row (result : BudgetResult) : list string :=
  [ model result;
    str_of_int (input_tokens result);
    str_of_int (context_limit result);
    (format_2f (pct_used result) ++ "%")%string;
    str_of_int (remaining_tokens result);
    warnings_str result ].

(** [col_widths[i]]: the longest of the header and the cells of column [i]. *)
Definition col_width (rows : list (list string)) (i : nat) (header : string) : nat :=
  fold_left (fun max_width row => Nat.max max_width (String.length (nth i row EmptyString)))
    rows (String.length header).

(** [f(0, x0), f(1, x1), ...] for an [enumerate] loop that appends. *)
Fixpoint map_indexed {A B : Type} (f : nat -> A -> B) (i : nat) (xs : list A) : list B :=
  match xs with
  | [] => []
  | x :: rest => f i x :: map_indexed f (S i) rest
  end.

Definition col_widths (rows : list (list string)) : list nat :=
  map_indexed (col_width rows) 0 headers.

Definition header_line (widths : list nat) : string :=
  join "  " (map_indexed (fun i header => ljust header (nth i widths O)) 0 headers).

(** The cell of column [j] of a data line. *)
Definition format_cell (colors_enabled : bool) (widths : list nat) (result : BudgetResult)
  (j : nat) (cell : string) : string :=
  let formatted_cell := ljust cell (nth j widths O) in
  if Nat.eqb j (List.length headers - 1) && str_truthy cell then
    if opt_str_truthy (error result) then _colorize colors_enabled formatted_cell "red"
    else if opt_str_truthy (warning result) then
      _colorize colors_enabled formatted_cell "yellow"
    else formatted_cell
  else formatted_cell.

Definition data_line (colors_enabled : bool) (widths : list nat) (result : BudgetResult)
  : string :=
  join "  " (map_indexed (format_cell colors_enabled widths result) 0 (make_row result)).

(** The list [lines] of [format_human_readable] for a non-empty [results]. *)
Definition table_lines (colors_enabled : bool) (results : list BudgetResult) : list string :=
  let rows := map make_row results in
  let widths := col_widths rows in
  header_line widths :: map (data_line colors_enabled widths) results.

Definition line_feed : string := String (ascii_of_nat 10) EmptyString.

Definition format_human_readable (colors_enabled : bool) (results : list BudgetResult)
  : string :=
  match results with
  | [] => EmptyString
  | _ => join line_feed (table_lines colors_enabled results)
  end.

End output.

(** ** The approximate message text, as the specification words it

    Each message contributes its role marker and then at most one text
    segment; the segments of all messages, in order, are joined with a blank
    line. These definitions follow the specification, not the loops of
    [counting.py]; they are compared with the loops below. *)

Module spec.
Import input.

Definition role_marker (m : Message) : string := ("<" ++ role m ++ ">")%string.

(** The text an item of a content sequence contributes: itself when it is
    a string, its ["text"] field when that is a string, nothing otherwise. *)
Definition item_fragments (item : pyobj) : list string :=
  match item with
  | PyStr s => [s]
  | PyDict entries =>
      match dict_get entries "text" with
      | Some (PyStr s) => [s]
      | _ => []
      end
  | _ => []
  end.

Definition extracted_text (items : list pyobj) : string :=
  join " " (flat_map item_fragments items).

(** The text segment of a message: the string itself, or the non-empty
    extraction of a sequence. *)
Definition text_segment (m : Message) : list string :=
  match content m with
  | PyStr s => [s]
  | PyList items =>
      match extracted_text items with
      | EmptyString => []
      | t => [t]
      end
  | _ => []
  end.

Definition segments (msgs : list Message) : list string :=
  flat_map (fun m => role_marker m :: text_segment m) msgs.

Definition flat_text (msgs : list Message) : string :=
  join double_newline (segments msgs).

(** Round half up to hundredths: the integer [k] with [k / 100] the
    specification's value of [t / e] at two decimals ([0 < e]). *)
Definition half_up_hundredths (t e : Z) : Z := (2 * 100 * t + e) / (2 * e).

(** The float written [k / 100]. *)
Definition hundredths (k : Z) : PyFloat.float :=
  match k with
  | Z0 => PyFloat.zero
  | Zpos p => PyFloat.nearest_ratio false p 100
  | Zneg p => PyFloat.nearest_ratio true p 100
  end.

Definition percent_used (t e : Z) : PyFloat.float :=
  hundredths (half_up_hundredths t e).

(** Truncation of a rational toward zero. *)
Definition Qtrunc (q : Q) : Z :=
  if Qle_bool 0 q then Qfloor q else Qceiling q.

End spec.

(** ** Notions used to state further properties *)

Module notions.
Import input.

(** An item of a content array that carries text: a string, or a dict
    whose ["text"] entry is a string. *)
Definition carries_text (item : pyobj) : bool :=
  match item with
  | PyStr _ => true
  | PyDict entries =>
      match dict_get entries "text" with
      | Some (PyStr _) => true
      | _ => false
      end
  | _ => false
  end.

(** A message without the items of its content array that carry no text. *)
Definition text_only (m : Message) : Message :=
  match content m with
  | PyList items => mkMessage (role m) (PyList (filter carries_text items))
  | _ => m
  end.

Definition text_only_input (input_data : InputData) : InputData :=
  mkInputData (input_content input_data)
    (option_map (map text_only) (messages input_data)) (source input_data).

(** The item [{"role": r, "content": c}] a message is parsed from. *)
Definition is_message_item (item : pyobj) (m : Message) : Prop :=
  exists entries,
    item = PyDict entries /\
    dict_get entries "role" = Some (PyStr (role m)) /\
    dict_get entries "content" = Some (content m) /\
    valid_role (role m) = true.

(** The decimal numeral of [k] hundredths, with two decimals. *)
Definition decimal_2 (k : Z) : string :=
  (str_of_int (k / 100) ++ "." ++ output.two_digits (k mod 100))%string.

(** For [k] hundredths: the display is the numeral, and the float compares
    with the two thresholds as [k] does with 95 and 80. *)
Definition hundredths_ok (k : Z) : bool :=
  String.eqb (output.format_2f (spec.hundredths k)) (decimal_2 k)
  && Bool.eqb (PyFloat.geb (spec.hundredths k) (PyFloat.literal 95 100)) (95 <=? k)
  && Bool.eqb (PyFloat.geb (spec.hundredths k) (PyFloat.literal 80 100)) (80 <=? k).

(** [P k && P (k + 1) && ...] over [n] consecutive integers. *)
Fixpoint all_from (P : Z -> bool) (k : Z) (n : nat) : bool :=
  match n with
  | O => true
  | S n' => P k && all_from P (k + 1) n'
  end.

(** [s] holds a line feed. *)
Fixpoint has_line_feed (s : string) : bool :=
  match s with
  | EmptyString => false
  | String c rest => Ascii.eqb c (ascii_of_nat 10) || has_line_feed rest
  end.

(** [s.split("\n")]: the lines of [s], read the way the tests read the
    table. *)
Fixpoint split_lines (s : string) : list string :=
  match s with
  | EmptyString => [EmptyString]
  | String c rest =>
      if Ascii.eqb c (ascii_of_nat 10) then EmptyString :: split_lines rest
      else
        match split_lines rest with
        | [] => [String c EmptyString]
        | line :: lines => String c line :: lines
        end
  end.

End notions.

(** ** Examples used to instantiate the statements *)

Module examples.
Import models input cli counting budget.

Definition gpt4o : ModelDefinition := mkModelDefinition "gpt-4o" 128000 "local".
Definition claude : ModelDefinition :=
  mkModelDefinition "claude-3-5-sonnet" 200000 "provider".
Definition test_model : ModelDefinition := mkModelDefinition "gpt-4o" 1000 "local".
Definition zero_model : ModelDefinition := mkModelDefinition "gpt-4o" 0 "local".
Definition other_local : ModelDefinition :=
  mkModelDefinition "unsupported-local" 1000 "local".
Definition unknown_model : ModelDefinition :=
  mkModelDefinition "unknown-model" 1000 "unknown".

(** Models with a context limit of 100 and of 10. *)
Definition model_of_100 : ModelDefinition := mkModelDefinition "gpt-4o" 100 "local".
Definition model_of_10 : ModelDefinition := mkModelDefinition "gpt-4o" 10 "local".

Definition config (mt r : option Z) (pct : PyFloat.float) : CLIConfig :=
  mkCLIConfig ["gpt-4o"] STDIN None mt r pct false.

(** The default configuration: [reserve_pct = 0.2]. *)
Definition default_config : CLIConfig := config None None (PyFloat.literal 2 10).

Definition counted (n : Z) : CountingResult := mkCountingResult "gpt-4o" n None false.

(** An outcome whose error message is present but empty. *)
Definition empty_error : CountingResult := mkCountingResult "gpt-4o" 100 (Some "") false.

Definition failed : CountingResult :=
  mkCountingResult "gpt-4o" 0 (Some "Token encoding failed: boom") true.

(** A stand-in tokenizer: one token per character. *)
Definition char_encoding : Encoding :=
  mkEncoding (fun s =>
    Return (map (fun a => Z.of_nat (nat_of_ascii a)) (list_ascii_of_string s))).

Definition char_tokenizer (model_name : string) : result Encoding :=
  Return char_encoding.

Definition conversation : list Message :=
  [ mkMessage "system" (PyStr "Be brief.");
    mkMessage "user"
      (PyList [ PyDict [("type", PyStr "text"); ("text", PyStr "What is this?")];
                PyDict [("type", PyStr "image"); ("url", PyStr "data:")] ]);
    mkMessage "tool" (PyStr "") ].

(** The records [analyze_budget] returns for 800 tokens of 1000 without
    reserve, for 100 tokens under an override of 800, and for no tokens on a
    limit of 0. *)
Definition near_limit_record : BudgetResult :=
  mkBudgetResult "gpt-4o" 800 1000 1000 0 200 (PyFloat.literal 80 100)
    (Some "warning: near limit") None false.

Definition overridden_record : BudgetResult :=
  mkBudgetResult "gpt-4o" 100 1000 800 160 540 (PyFloat.literal 12 100) None None false.

Definition zero_record : BudgetResult :=
  mkBudgetResult "gpt-4o" 0 0 0 0 0 PyFloat.zero None None false.

Definition image_item : pyobj :=
  PyDict [("type", PyStr "image"); ("url", PyStr "data:")].

Definition text_input : InputData := mkInputData "Hello, world!" None "test".
Definition messages_input : InputData := mkInputData "" (Some conversation) "test".

(** A tokenizer that cannot be loaded, and one whose encoding raises. *)
Definition failing_tokenizer (model_name : string) : result Encoding :=
  Raise (mkExc OtherError "no network").

Definition failing_encoding : Encoding :=
  mkEncoding (fun s => Raise (mkExc OtherError "boom")).

Definition broken_tokenizer (model_name : string) : result Encoding :=
  Return failing_encoding.

(** A stand-in for [repr] of a float. *)
Definition repr_stub (x : PyFloat.float) : string := "1.0".

(** The parsed JSON of a messages file with one message. *)
Definition messages_json : pyobj :=
  PyList [PyDict [("role", PyStr "user"); ("content", PyStr "hi")]].

(** The arguments of a run without options, and of one with
    [--max-tokens 0]. *)
Definition default_args : Namespace :=
  mkNamespace None None None false None None (PyFloat.literal 2 10).

Definition zero_override_args : Namespace :=
  mkNamespace None None None false (Some 0) None (PyFloat.literal 2 10).

Definition default_built_config : CLIConfig :=
  mkCLIConfig ["gpt-4o"; "claude-3-5-sonnet"] STDIN None None None
    (PyFloat.literal 2 10) false.

End examples.

(** * Properties *)

(** ** Lists of text parts *)

Section JoinFacts.
Variable sep : string.

Lemma join_cons_nonempty (s : string) (rest : list string) :
  rest <> [] -> join sep (s :: rest) = (s ++ sep ++ join sep rest)%string.
Proof.
  destruct rest as [|t rest]; [congruence | reflexivity].
Qed.

Lemma string_app_empty_r (s : string) : (s ++ "")%string = s.
Proof.
  induction s as [|c s IH]; simpl; [reflexivity | now rewrite IH].
Qed.

Lemma string_app_assoc (a b c : string) :
  ((a ++ b) ++ c)%string = (a ++ b ++ c)%string.
Proof.
  induction a as [|x a IH]; simpl; [reflexivity | now rewrite IH].
Qed.

(** Appending an empty part to a non-empty list appends one separator. *)
Lemma join_snoc_empty (parts : list string) :
  parts <> [] -> join sep (parts ++ [EmptyString]) = (join sep parts ++ sep)%string.
Proof.
  induction parts as [|s rest IH]; [congruence|]; intros _.
  destruct rest as [|t rest].
  - simpl. now rewrite string_app_empty_r.
  - change ((s :: t :: rest) ++ [EmptyString]) with (s :: ((t :: rest) ++ [EmptyString])).
    rewrite join_cons_nonempty by (simpl; congruence).
    rewrite IH by congruence.
    rewrite (join_cons_nonempty s (t :: rest)) by congruence.
    now rewrite !string_app_assoc.
Qed.
End JoinFacts.

Lemma fold_left_append {A B : Type} (step : list B -> A -> list B) (g : A -> list B) :
  (forall acc a, step acc a = acc ++ g a) ->
  forall xs acc, fold_left step xs acc = acc ++ flat_map g xs.
Proof.
  intros Hstep xs; induction xs as [|x xs IH]; intros acc; simpl.
  - now rewrite app_nil_r.
  - rewrite IH, Hstep. now rewrite <- app_assoc.
Qed.

Lemma str_truthy_false (s : string) : str_truthy s = false <-> s = EmptyString.
Proof.
  destruct s; simpl; split; congruence.
Qed.

Lemma opt_str_truthy_true (o : option string) :
  opt_str_truthy o = true <-> exists s, o = Some s /\ s <> EmptyString.
Proof.
  destruct o as [[|c s]|]; simpl; split; try congruence.
  - intros (s & Hs & Hne). congruence.
  - intros _. eexists; split; [reflexivity | congruence].
  - intros (s & Hs & _). congruence.
Qed.

(** ** The loops of [counting.py] against the specification's wording *)

Section CountingLoops.
Import input counting.

Lemma extract_step_spec (acc : list string) (item : pyobj) :
  extract_step acc item = acc ++ spec.item_fragments item.
Proof.
  destruct item as [| | | | s | items | entries]; simpl;
    try (now rewrite app_nil_r); try reflexivity.
  destruct (dict_get entries "text") as [[| | | | s | |]|]; simpl;
    try (now rewrite app_nil_r); reflexivity.
Qed.

Lemma extract_text_spec (items : list pyobj) :
  _extract_text_from_content_array items = spec.extracted_text items.
Proof.
  unfold _extract_text_from_content_array, spec.extracted_text.
  now rewrite (fold_left_append extract_step spec.item_fragments extract_step_spec).
Qed.

Lemma message_step_spec (acc : list string) (m : Message) :
  message_step acc m = acc ++ (spec.role_marker m :: spec.text_segment m).
Proof.
  unfold message_step, spec.text_segment, spec.role_marker.
  destruct (content m) as [| | | | s | items | entries];
    try reflexivity; try (now rewrite <- app_assoc).
  rewrite extract_text_spec.
  destruct (spec.extracted_text items); simpl; [reflexivity | now rewrite <- app_assoc].
Qed.

Lemma approximate_text_parts_spec (msgs : list Message) :
  approximate_text_parts msgs = spec.segments msgs.
Proof.
  unfold approximate_text_parts, spec.segments.
  now rewrite (fold_left_append message_step _ message_step_spec).
Qed.

Lemma approximate_text_parts_app (msgs : list Message) (m : Message) :
  approximate_text_parts (msgs ++ [m])
  = message_step (approximate_text_parts msgs) m.
Proof.
  unfold approximate_text_parts. now rewrite fold_left_app.
Qed.

Lemma approximate_full_text_spec (msgs : list Message) :
  approximate_full_text msgs = spec.flat_text msgs.
Proof.
  unfold approximate_full_text, spec.flat_text.
  now rewrite approximate_text_parts_spec.
Qed.
End CountingLoops.

(** ** The counting engine *)

Section CountingClaims.
Import models input counting.

Variable encoding_for_model : string -> result Encoding.

Ltac unfold_count :=
  unfold count_tokens, _count_local_tokens, _count_provider_tokens,
    _count_gpt4o_tokens, _count_messages_approximate, try_except, bind.

(** C3. Under the local strategy and the supported model name, a message
    list is counted as the length of the encoding of one flat string: per
    message, in order, the marker [<role>] and then the message's text
    segment (a string verbatim; for a list, the string items and string
    ["text"] fields joined with single spaces, nothing when that is empty),
    all joined with a blank line; the outcome carries the approximation
    flag. *)
Theorem C3_approximate_message_count (input_data : InputData) (m : ModelDefinition)
  (msgs : list Message) (encoding : Encoding) :
  tokenizer_type m = "local" ->
  name m = "gpt-4o" ->
  messages input_data = Some msgs ->
  encoding_for_model "gpt-4o" = Return encoding ->
  approximate_full_text msgs = spec.flat_text msgs /\
  _count_messages_approximate msgs encoding
  = (tokens <- encode encoding (spec.flat_text msgs) ;; Return (len tokens)) /\
  (forall tokens,
      encode encoding (spec.flat_text msgs) = Return tokens ->
      count_tokens encoding_for_model input_data m
      = mkCountingResult "gpt-4o" (len tokens) None true).
Proof.
  intros Htype Hname Hmsgs Henc.
  pose proof (approximate_full_text_spec msgs) as Htext.
  split; [exact Htext|]. split.
  - unfold _count_messages_approximate. now rewrite Htext.
  - intros tokens Htokens. unfold_count.
    rewrite Htype, Hname, Henc, Hmsgs, Htext, Htokens. reflexivity.
Qed.

(** C8. The dispatch errors: a tokenizer type that is neither local nor
    provider, the provider type, and the local type with a model name other
    than the supported one each give a zero count and their own message. *)
Theorem C8_dispatch_errors (input_data : InputData) (m : ModelDefinition) :
  (tokenizer_type m <> "local" ->
   tokenizer_type m <> "provider" ->
   count_tokens encoding_for_model input_data m
   = mkCountingResult (name m) 0
       (Some ("Unknown tokenizer type: " ++ tokenizer_type m)%string) false) /\
  (tokenizer_type m = "provider" ->
   count_tokens encoding_for_model input_data m
   = mkCountingResult (name m) 0
       (Some "Provider token counting not yet implemented") false) /\
  (tokenizer_type m = "local" ->
   name m <> "gpt-4o" ->
   count_tokens encoding_for_model input_data m
   = mkCountingResult (name m) 0
       (Some ("Local counting not supported for model: " ++ name m)%string) false).
Proof.
  repeat split.
  - intros Hl Hp. unfold_count.
    apply String.eqb_neq in Hl, Hp. now rewrite Hl, Hp.
  - intros Hp. unfold_count. now rewrite Hp.
  - intros Hl Hn. unfold_count.
    apply String.eqb_neq in Hn. now rewrite Hl, Hn.
Qed.

(** C9. An outcome of [count_tokens] that carries an error message reports
    a count of 0, whichever path produced it. *)
Theorem C9_error_implies_zero_count (input_data : InputData) (m : ModelDefinition) :
  error (count_tokens encoding_for_model input_data m) <> None ->
  input_tokens (count_tokens encoding_for_model input_data m) = 0.
Proof.
  unfold_count.
  destruct (String.eqb (tokenizer_type m) "local").
  - destruct (String.eqb (name m) "gpt-4o"); [|reflexivity].
    destruct (encoding_for_model "gpt-4o") as [encoding|e]; [|reflexivity].
    destruct (messages input_data) as [msgs|].
    + destruct (encode encoding (approximate_full_text msgs)); simpl;
        [congruence | reflexivity].
    + destruct (encode encoding (input_content input_data)); simpl;
        [congruence | reflexivity].
  - destruct (String.eqb (tokenizer_type m) "provider"); reflexivity.
Qed.

End CountingClaims.

Section MessageSegments.
Import input counting.

(** C10. After its role marker, a message whose content is the empty
    string still adds an (empty) text part, which costs one more blank-line
    separator in the joined text; a message whose content is a list with no
    extractable text, or is neither a string nor a list, adds the marker
    alone. *)
Theorem C10_empty_string_still_a_segment (parts : list string) (r : string) :
  message_step parts (mkMessage r (PyStr ""))
  = parts ++ [("<" ++ r ++ ">")%string; EmptyString] /\
  (forall items,
      Forall (fun item => spec.item_fragments item = []) items ->
      _extract_text_from_content_array items = EmptyString) /\
  (forall items,
      _extract_text_from_content_array items = EmptyString ->
      message_step parts (mkMessage r (PyList items))
      = parts ++ [("<" ++ r ++ ">")%string]) /\
  (forall c,
      (forall s, c <> PyStr s) ->
      (forall items, c <> PyList items) ->
      message_step parts (mkMessage r c) = parts ++ [("<" ++ r ++ ">")%string]) /\
  (forall msgs items,
      _extract_text_from_content_array items = EmptyString ->
      approximate_full_text (msgs ++ [mkMessage r (PyStr "")])
      = (approximate_full_text (msgs ++ [mkMessage r (PyList items)])
         ++ double_newline)%string).
Proof.
  assert (Hlist : forall acc items,
             _extract_text_from_content_array items = EmptyString ->
             message_step acc (mkMessage r (PyList items))
             = acc ++ [("<" ++ r ++ ">")%string]).
  { intros acc items Hempty. unfold message_step; simpl. now rewrite Hempty. }
  split; [|split; [|split; [|split]]].
  - unfold message_step; simpl. now rewrite <- app_assoc.
  - intros items Hnone. rewrite extract_text_spec. unfold spec.extracted_text.
    induction Hnone as [|item items Hitem _ IH]; simpl; [reflexivity|].
    now rewrite Hitem.
  - apply Hlist.
  - intros c Hstr Hlst. unfold message_step; simpl.
    destruct c; try reflexivity; [now destruct (Hstr s) | now destruct (Hlst items)].
  - intros msgs items Hempty. unfold approximate_full_text.
    rewrite !approximate_text_parts_app, Hlist by exact Hempty.
    unfold message_step; simpl.
    rewrite <- join_snoc_empty by (intros Hnil; apply app_eq_nil in Hnil; destruct Hnil; discriminate).
    now rewrite <- app_assoc.
Qed.

End MessageSegments.

(** ** Floats: truncation and signs *)

Section FloatFacts.
Import PyFloat.

(** [div_half_even n d] is a nearest integer to [n / d], the even one of
    the two when [n / d] lies halfway. *)
Lemma div_half_even_nearest (n d : Z) :
  0 < d ->
  2 * Z.abs (div_half_even n d * d - n) <= d /\
  (2 * Z.abs (div_half_even n d * d - n) = d -> Z.even (div_half_even n d) = true).
Proof.
  intros Hd. unfold div_half_even.
  pose proof (Z.div_mod n d ltac:(lia)) as Hdm.
  pose proof (Z.mod_pos_bound n d Hd) as Hr.
  destruct (Z.compare_spec (2 * (n mod d)) d) as [Heq|Hlt|Hgt].
  - destruct (Z.even (n / d)) eqn:Hev.
    + split; [nia | intros _; exact Hev].
    + split; [nia|]. intros _. rewrite Z.even_add, Hev. reflexivity.
  - split; nia.
  - split; nia.
Qed.

Lemma Qtrunc_inject_Z (z : Z) : spec.Qtrunc (inject_Z z) = z.
Proof.
  unfold spec.Qtrunc.
  destruct (Qle_bool 0 (inject_Z z)); [apply Qfloor_Z | apply Qceiling_Z].
Qed.

(** [int(x)] is the exact value of [x] truncated toward zero. *)
Lemma to_int_trunc (x : float) :
  is_finite x = true -> to_int x = Return (spec.Qtrunc (to_Q x)).
Proof.
  destruct x as [s | s | | s m e]; simpl; try discriminate; intros _.
  - reflexivity.
  - f_equal. destruct e as [|p|p].
    + rewrite Qtrunc_inject_Z. simpl. now rewrite Pos.mul_1_r.
    + rewrite Qtrunc_inject_Z. now rewrite Z.shiftl_mul_pow2 by lia.
    + change (Z.shiftl (Z.pos m) (Z.neg p)) with (Z.shiftr (Z.pos m) (Z.pos p)).
      rewrite Z.shiftr_div_pow2 by lia.
      unfold spec.Qtrunc, Qle_bool, Qceiling, Qfloor.
      destruct s; simpl; now rewrite Pos2Z.inj_pow.
Qed.

Lemma to_int_returns (x : float) (n : Z) :
  to_int x = Return n -> is_finite x = true.
Proof.
  destruct x; simpl; congruence.
Qed.

Lemma to_Q_nonneg (x : float) : sign_bit x = false -> (0 <= to_Q x)%Q.
Proof.
  destruct x as [s | s | | s m e]; cbn [sign_bit to_Q]; intros Hs; try apply Qle_refl.
  subst s. unfold Qle.
  assert (0 <= 2 ^ e) by (apply Z.pow_nonneg; lia).
  destruct e as [|p|p]; cbn [cond_Zopp inject_Z Qnum Qden]; nia.
Qed.

Lemma binary_round_aux_sign (s : bool) (mx ex : Z) (lx : location) :
  sign_bit (binary_round_aux prec emax s mx ex lx) = s \/
  binary_round_aux prec emax s mx ex lx = S754_nan.
Proof.
  unfold binary_round_aux.
  destruct (shr_fexp prec emax mx ex lx) as [mrs' e'].
  destruct (shr_fexp prec emax _ e' loc_Exact) as [mrs'' e''].
  destruct (shr_m mrs''); [left; reflexivity | | right; reflexivity].
  destruct (e'' <=? emax - prec); left; reflexivity.
Qed.

Lemma of_int_nonneg (n : Z) (f : float) :
  0 <= n -> of_int n = Return f -> sign_bit f = false.
Proof.
  intros Hn. unfold of_int, binary_normalize.
  destruct n as [|p|p]; [| |lia].
  - now intros [= <-].
  - unfold binary_round.
    destruct (shl_align p 0 _) as [mz ez].
    destruct (binary_round_aux_sign false (Z.pos mz) ez loc_Exact) as [Hs|Hnan].
    + destruct (binary_round_aux prec emax false (Z.pos mz) ez loc_Exact);
        intros [= <-]; try exact Hs; reflexivity.
    + rewrite Hnan. now intros [= <-].
Qed.

Lemma mul_nonneg (x y : float) :
  sign_bit x = false -> leb zero y = true -> (0 <= to_Q (mul x y))%Q.
Proof.
  intros Hx Hy.
  destruct x as [sx | sx | | sx mx ex]; cbn [sign_bit] in Hx; try subst sx;
    destruct y as [sy | [|] | | [|] my ey]; try discriminate Hy;
    try (apply Qle_refl).
  unfold mul, SFmul; simpl xorb.
  destruct (binary_round_aux_sign false (Z.pos (mx * my)) (ex + ey) loc_Exact) as [Hs|Hnan].
  - now apply to_Q_nonneg.
  - rewrite Hnan. apply Qle_refl.
Qed.

End FloatFacts.

(** ** Floats: rounding stays in range *)

Section Rounding.
Import PyFloat.

Lemma digits2_pos_size (p : positive) : digits2_pos p = Pos.size p.
Proof.
  induction p as [p IH | p IH |]; simpl; congruence.
Qed.

Lemma Zdigits2_log2 (x : Z) : 0 < x -> Zdigits2 x = Z.log2 x + 1.
Proof.
  destruct x as [|p|p]; try lia; intros _.
  unfold Zdigits2. rewrite digits2_pos_size.
  destruct p as [p|p|]; simpl; try rewrite Pos2Z.inj_succ; lia.
Qed.

Lemma Zdigits2_nonneg (x : Z) : 0 <= Zdigits2 x.
Proof.
  destruct x; simpl; lia.
Qed.

(** A number below [2^k] has at most [k] binary digits. *)
Lemma Zdigits2_le (x k : Z) : 0 <= x -> 0 <= k -> x < 2 ^ k -> Zdigits2 x <= k.
Proof.
  intros Hx Hk Hlt.
  destruct (Z.eq_dec x 0) as [->|Hne]; [simpl; lia|].
  rewrite Zdigits2_log2 by lia.
  assert (Z.log2 x < k) by (apply Z.log2_lt_pow2; lia). lia.
Qed.

Lemma Zdigits2_bound (x : Z) : 0 <= x -> x < 2 ^ Zdigits2 x.
Proof.
  intros Hx.
  destruct (Z.eq_dec x 0) as [->|Hne]; [simpl; lia|].
  rewrite Zdigits2_log2 by lia.
  apply Z.log2_spec. lia.
Qed.

Lemma Zdigits2_mono (x y : Z) : 0 <= x <= y -> Zdigits2 x <= Zdigits2 y.
Proof.
  intros Hxy. apply Zdigits2_le; try lia.
  - apply Zdigits2_nonneg.
  - pose proof (Zdigits2_bound y). lia.
Qed.

Lemma Zdigits2_succ (x : Z) : 0 <= x -> Zdigits2 (x + 1) <= Zdigits2 x + 1.
Proof.
  intros Hx. pose proof (Zdigits2_nonneg x). pose proof (Zdigits2_bound x Hx).
  apply Zdigits2_le; try lia.
  rewrite Z.pow_add_r by lia. lia.
Qed.

Lemma Zdigits2_mul (x y : Z) :
  0 <= x -> 0 <= y -> Zdigits2 (x * y) <= Zdigits2 x + Zdigits2 y.
Proof.
  intros Hx Hy.
  pose proof (Zdigits2_nonneg x). pose proof (Zdigits2_nonneg y).
  pose proof (Zdigits2_bound x Hx). pose proof (Zdigits2_bound y Hy).
  apply Zdigits2_le; try nia.
  rewrite Z.pow_add_r by lia. nia.
Qed.

Lemma Zdigits2_shiftl (x n : Z) :
  0 <= x -> 0 <= n -> Zdigits2 (Z.shiftl x n) <= Zdigits2 x + n.
Proof.
  intros Hx Hn. pose proof (Zdigits2_nonneg x). pose proof (Zdigits2_bound x Hx).
  rewrite Z.shiftl_mul_pow2 by lia.
  assert (0 < 2 ^ n) by (apply Z.pow_pos_nonneg; lia).
  apply Zdigits2_le; try nia.
  rewrite Z.pow_add_r by lia. nia.
Qed.

Lemma Zdigits2_shiftr (x n : Z) :
  0 <= x -> 0 <= n -> Zdigits2 (Z.shiftr x n) + n <= Z.max (Zdigits2 x) n.
Proof.
  intros Hx Hn. pose proof (Zdigits2_nonneg x). pose proof (Zdigits2_bound x Hx).
  assert (Hs : 0 <= Z.shiftr x n) by (apply Z.shiftr_nonneg; lia).
  assert (0 < 2 ^ n) by (apply Z.pow_pos_nonneg; lia).
  destruct (Z_lt_le_dec (Zdigits2 x) n) as [Hsmall|Hbig].
  - assert (Z.shiftr x n = 0) as ->.
    { rewrite Z.shiftr_div_pow2 by lia. apply Z.div_small. split; [lia|].
      apply Z.lt_le_trans with (2 ^ Zdigits2 x); [lia|].
      apply Z.pow_le_mono_r; lia. }
    simpl. lia.
  - assert (Zdigits2 (Z.shiftr x n) <= Zdigits2 x - n); [|lia].
    apply Zdigits2_le; try lia.
    rewrite Z.shiftr_div_pow2 by lia.
    apply Z.div_lt_upper_bound; [lia|].
    rewrite <- Z.pow_add_r by lia. replace (n + (Zdigits2 x - n)) with (Zdigits2 x) by lia.
    lia.
Qed.

Lemma shr_1_m (mrs : shr_record) :
  0 <= shr_m mrs -> shr_m (shr_1 mrs) = Z.shiftr (shr_m mrs) 1.
Proof.
  destruct mrs as [m r s]; simpl. destruct m as [|[p|p|]|p]; try lia; reflexivity.
Qed.

Lemma iter_shr_1_m (p : positive) :
  forall mrs, 0 <= shr_m mrs ->
    shr_m (iter_pos shr_1 p mrs) = Z.shiftr (shr_m mrs) (Z.pos p).
Proof.
  induction p as [p IH | p IH |]; intros mrs Hm; simpl iter_pos.
  - assert (H1 : 0 <= shr_m (shr_1 mrs)).
    { rewrite shr_1_m by lia. apply Z.shiftr_nonneg; lia. }
    assert (H2 : 0 <= shr_m (iter_pos shr_1 p (shr_1 mrs))).
    { rewrite IH by lia. apply Z.shiftr_nonneg; lia. }
    rewrite IH, IH, shr_1_m by lia.
    rewrite !Z.shiftr_shiftr by lia. f_equal. lia.
  - assert (H2 : 0 <= shr_m (iter_pos shr_1 p mrs)).
    { rewrite IH by lia. apply Z.shiftr_nonneg; lia. }
    rewrite IH, IH by lia.
    rewrite !Z.shiftr_shiftr by lia. f_equal. lia.
  - apply shr_1_m; lia.
Qed.

Lemma shr_record_of_loc_m (m : Z) (l : location) : shr_m (shr_record_of_loc m l) = m.
Proof.
  destruct l as [|[| |]]; reflexivity.
Qed.

(** The first component of [shr_fexp]: the mantissa shifted to the exponent
    the format asks for. *)
Lemma shr_fexp_spec (m e : Z) (l : location) :
  0 <= m ->
  0 <= shr_m (fst (shr_fexp prec emax m e l)) /\
  snd (shr_fexp prec emax m e l) = Z.max e (fexp prec emax (Zdigits2 m + e)) /\
  Zdigits2 (shr_m (fst (shr_fexp prec emax m e l))) + snd (shr_fexp prec emax m e l)
  <= Z.max (Zdigits2 m + e) (snd (shr_fexp prec emax m e l)).
Proof.
  intros Hm. unfold shr_fexp, shr.
  pose proof (Zdigits2_nonneg m) as Hd.
  destruct (fexp prec emax (Zdigits2 m + e) - e) as [|n|n] eqn:Hn; cbn [fst snd];
    rewrite ?shr_record_of_loc_m.
  - repeat split; lia.
  - rewrite iter_shr_1_m by (rewrite shr_record_of_loc_m; lia).
    rewrite shr_record_of_loc_m.
    pose proof (Zdigits2_shiftr m (Z.pos n) Hm ltac:(lia)).
    repeat split; try lia. apply Z.shiftr_nonneg; lia.
  - repeat split; lia.
Qed.

Lemma fexp_le (x : Z) : x <= 1024 -> fexp prec emax x <= 971.
Proof.
  unfold fexp, emin, prec, emax. lia.
Qed.

(** Rounding a non-negative mantissa whose magnitude is below [2^1023], at
    an exponent in range, gives a zero or a finite float, of magnitude below
    twice the bound. *)
Lemma binary_round_aux_finite (s : bool) (m e : Z) (l : location) (k : Z) :
  0 <= m -> e <= 971 -> Zdigits2 m + e <= k -> -1074 <= k <= 1023 ->
  match binary_round_aux prec emax s m e l with
  | S754_zero s' => s' = s
  | S754_finite s' m' e' => s' = s /\ e' <= 971 /\ Z.pos (digits2_pos m') + e' <= k + 1
  | _ => False
  end.
Proof.
  intros Hm He Hk Hk'. unfold binary_round_aux.
  destruct (shr_fexp_spec m e l Hm) as (H1 & H2 & H3).
  destruct (shr_fexp prec emax m e l) as [mrs' e']. cbn [fst snd] in *.
  set (m1 := round_nearest_even (shr_m mrs') (loc_of_shr_record mrs')).
  assert (Hm1 : 0 <= m1 /\ Zdigits2 m1 <= Zdigits2 (shr_m mrs') + 1).
  { unfold m1, round_nearest_even.
    pose proof (Zdigits2_succ _ H1).
    destruct (loc_of_shr_record mrs') as [|[| |]]; try destruct (Z.even _); split; lia. }
  destruct Hm1 as [Hm1 Hd1].
  destruct (shr_fexp_spec m1 e' loc_Exact Hm1) as (H4 & H5 & H6).
  destruct (shr_fexp prec emax m1 e' loc_Exact) as [mrs'' e'']. cbn [fst snd] in *.
  assert (He' : e' <= 971).
  { rewrite H2. pose proof (fexp_le (Zdigits2 m + e)). lia. }
  assert (He'' : e'' <= 971).
  { rewrite H5. pose proof (fexp_le (Zdigits2 m1 + e')). lia. }
  destruct (shr_m mrs'') as [|m''|m''] eqn:Hm''; [reflexivity| |lia].
  replace (e'' <=? emax - prec) with true by (symmetry; apply Z.leb_le; unfold emax, prec; lia).
  cbn [Zdigits2] in H6. pose proof (Zdigits2_nonneg m).
  assert (e' <= k) by (rewrite H2; unfold fexp, emin, prec, emax; lia).
  repeat split; lia.
Qed.


Lemma digits2_pos_iter_xO (m d : positive) :
  digits2_pos (Pos.iter xO m d) = (digits2_pos m + d)%positive.
Proof.
  induction d as [|d IH] using Pos.peano_ind.
  - simpl. lia.
  - rewrite Pos.iter_succ. simpl. rewrite IH. lia.
Qed.

Lemma shl_align_spec (mx : positive) (ex ex' : Z) :
  snd (shl_align mx ex ex') <= ex /\
  Z.pos (digits2_pos (fst (shl_align mx ex ex'))) + snd (shl_align mx ex ex')
  = Z.pos (digits2_pos mx) + ex.
Proof.
  unfold shl_align. destruct (ex' - ex) as [|d|d] eqn:Hd; cbn [fst snd]; try lia.
  rewrite digits2_pos_iter_xO. lia.
Qed.

(** [float(n)] does not overflow below [2^1000]. *)
Lemma of_int_finite (n : Z) :
  Z.abs n < 2 ^ 1000 ->
  exists f, of_int n = Return f /\ magnitude_below 1001 f.
Proof.
  intros Hn. unfold of_int, binary_normalize.
  destruct n as [|p|p]; [exists (S754_zero false); split; reflexivity| |];
    unfold binary_round;
    pose proof (shl_align_spec p 0 (fexp prec emax (Z.pos (digits2_pos p) + 0))) as [Hez Hdig];
    destruct (shl_align p 0 _) as [mz ez]; cbn [fst snd] in *;
    assert (Hp : Zdigits2 (Z.pos p) <= 1000)
      by (apply Zdigits2_le; simpl in Hn; lia);
    cbn [Zdigits2] in Hp.
  - pose proof (binary_round_aux_finite false (Z.pos mz) ez loc_Exact 1000) as H.
    cbn [Zdigits2] in H. specialize (H ltac:(lia) ltac:(lia) ltac:(lia) ltac:(lia)).
    destruct (binary_round_aux prec emax false (Z.pos mz) ez loc_Exact) as [s'|s'| |s' m' e'];
      try contradiction; eexists; split; try reflexivity; simpl; tauto.
  - pose proof (binary_round_aux_finite true (Z.pos mz) ez loc_Exact 1000) as H.
    cbn [Zdigits2] in H. specialize (H ltac:(lia) ltac:(lia) ltac:(lia) ltac:(lia)).
    destruct (binary_round_aux prec emax true (Z.pos mz) ez loc_Exact) as [s'|s'| |s' m' e'];
      try contradiction; eexists; split; try reflexivity; simpl; tauto.
Qed.

(** A valid binary64 between 0.0 and 1.0. *)
Lemma unit_fraction_cases (y : float) :
  valid_binary prec emax y = true ->
  leb zero y = true -> leb y (literal 1 1) = true ->
  (exists s, y = S754_zero s) \/
  (exists m e, y = S754_finite false m e /\ e <= -52 /\ Z.pos (digits2_pos m) <= 53).
Proof.
  intros Hvalid H0 H1.
  destruct y as [s | s | | s m e]; try discriminate.
  - left. now exists s.
  - destruct s; [discriminate|]. vm_compute in H1. discriminate.
  - destruct s; [discriminate|]. right. exists m, e. split; [reflexivity|].
    change (literal 1 1) with (S754_finite false 4503599627370496 (-52)) in H1.
    unfold leb, SFleb, SFcompare in H1.
    cbn [valid_binary] in Hvalid. unfold bounded, canonical_mantissa in Hvalid.
    apply andb_prop in Hvalid as [Hcanon _]. apply Z.eqb_eq in Hcanon.
    unfold fexp, emin, prec, emax in Hcanon.
    destruct (Z.compare_spec e (-52)); try discriminate; lia.
Qed.

(** The product of a float below [2^1001] with a fraction of [[0, 1]] is
    finite. *)
Lemma mul_unit_fraction_finite (x y : float) :
  magnitude_below 1001 x ->
  valid_binary prec emax y = true ->
  leb zero y = true -> leb y (literal 1 1) = true ->
  is_finite (mul x y) = true.
Proof.
  intros Hx Hvalid H0 H1.
  destruct (unit_fraction_cases y Hvalid H0 H1) as [[sy ->]|(my & ey & -> & Hey & Hmy)];
    destruct x as [sx | sx | | sx mx ex]; try contradiction; try reflexivity.
  cbn [magnitude_below] in Hx. unfold mul, SFmul.
  pose proof (binary_round_aux_finite (xorb sx false) (Z.pos (mx * my)) (ex + ey)
                loc_Exact 1002) as H.
  pose proof (Zdigits2_mul (Z.pos mx) (Z.pos my) ltac:(lia) ltac:(lia)) as Hmul.
  cbn [Zdigits2 Z.mul] in H, Hmul.
  specialize (H ltac:(lia) ltac:(lia) ltac:(lia) ltac:(lia)).
  destruct (binary_round_aux prec emax _ _ _ _); try contradiction; reflexivity.
Qed.

(** The quotient of two integers, the first below [2^1000], does not
    overflow. *)
Lemma nearest_ratio_finite (s : bool) (a b : positive) :
  Z.pos a < 2 ^ 1000 -> is_finite (nearest_ratio s a b) = true.
Proof.
  intros Ha. unfold nearest_ratio, SFdiv_core_binary.
  set (e' := Z.min _ _).
  assert (He' : e' <= 0) by (unfold e'; lia).
  set (m' := match 0 - 0 - e' with Z.pos _ => _ | 0 => _ | Z.neg _ => _ end).
  assert (Hda : Zdigits2 (Z.pos a) <= 1000) by (apply Zdigits2_le; lia).
  assert (Hm' : 0 <= m' /\ Zdigits2 m' + e' <= 1000).
  { unfold m'. destruct (0 - 0 - e') as [|sh|sh] eqn:Hsh.
    - split; [lia|]. lia.
    - rewrite <- Hsh.
      pose proof (Zdigits2_shiftl (Z.pos a) (0 - 0 - e') ltac:(lia) ltac:(lia)).
      split; [apply Z.shiftl_nonneg; lia | lia].
    - lia. }
  destruct Hm' as [Hm'0 Hm'd].
  destruct (Z.div_eucl m' (Z.pos b)) as [q r] eqn:Hdiv.
  assert (Hq : q = m' / Z.pos b) by (unfold Z.div; now rewrite Hdiv).
  assert (Hq0 : 0 <= q) by (subst q; apply Z.div_pos; lia).
  assert (Hqm : q <= m').
  { subst q. apply Z.div_le_upper_bound; nia. }
  pose proof (Zdigits2_mono q m' ltac:(lia)) as Hdq.
  pose proof (Zdigits2_nonneg q) as Hdq0.
  destruct (Z_le_gt_dec (-1074) (Zdigits2 q + e')) as [Hbig|Hsmall].
  - pose proof (binary_round_aux_finite s q e' (new_location (Z.pos b) r)
                  (Zdigits2 q + e') ltac:(lia) ltac:(lia) ltac:(lia) ltac:(lia)) as H.
    destruct (binary_round_aux prec emax s q e' _); try contradiction; reflexivity.
  - pose proof (binary_round_aux_finite s q e' (new_location (Z.pos b) r)
                  (-1074) ltac:(lia) ltac:(lia) ltac:(lia) ltac:(lia)) as H.
    destruct (binary_round_aux prec emax s q e' _); try contradiction; reflexivity.
Qed.

Lemma int_truediv_returns (a b : Z) :
  Z.abs a < 2 ^ 1000 -> b <> 0 -> exists f, int_truediv a b = Return f.
Proof.
  intros Ha Hb. unfold int_truediv.
  destruct b as [|pb|pb]; [congruence| |];
    (destruct a as [|pa|pa]; [eexists; reflexivity| |]);
    match goal with
    | |- context [nearest_ratio ?s ?x ?y] =>
        pose proof (nearest_ratio_finite s x y) as H;
        destruct (nearest_ratio s x y); try (eexists; reflexivity);
        simpl in H, Ha; specialize (H ltac:(lia)); discriminate
    end.
Qed.

End Rounding.

(** ** The budget analyzer *)

Section BudgetFacts.
Import models cli budget.

Lemma py_min_spec (a b : Z) : py_min a b = Z.min a b.
Proof.
  unfold py_min. destruct (Z.ltb_spec b a); lia.
Qed.

Lemma check_thresholds_cases (pct : PyFloat.float) (remaining : Z) :
  _check_thresholds pct remaining =
  if PyFloat.geb pct (PyFloat.literal 95 100) || (remaining <? 0) then
    (None, Some "error: exceeds budget")
  else if PyFloat.geb pct (PyFloat.literal 80 100) then
    (Some "warning: near limit", None)
  else (None, None).
Proof. reflexivity. Qed.

(** What a returned record of the main path is made of. *)
Lemma analyze_budget_inv (cr : counting.CountingResult) (m : ModelDefinition)
  (config : CLIConfig) (r : BudgetResult) :
  opt_str_truthy (counting.error cr) = false ->
  analyze_budget cr m config = Return r ->
  exists res pct,
    _calculate_reserve (_calculate_effective_limit m config) config = Return res /\
    pct_used_of (counting.input_tokens cr) (_calculate_effective_limit m config)
    = Return pct /\
    r = mkBudgetResult (name m) (counting.input_tokens cr) (models.context_limit m)
          (_calculate_effective_limit m config) res
          (_calculate_effective_limit m config - res - counting.input_tokens cr) pct
          (fst (_check_thresholds pct
                  (_calculate_effective_limit m config - res - counting.input_tokens cr)))
          (snd (_check_thresholds pct
                  (_calculate_effective_limit m config - res - counting.input_tokens cr)))
          (counting.is_approximate cr).
Proof.
  intros Hfalsy. unfold analyze_budget. rewrite Hfalsy.
  destruct (_calculate_reserve _ config) as [res|e]; [|discriminate].
  cbn [bind]. fold (pct_used_of (counting.input_tokens cr) (_calculate_effective_limit m config)).
  destruct (pct_used_of _ _) as [pct|e]; [|discriminate].
  cbn [bind].
  destruct (_check_thresholds pct _) as [w err] eqn:Hchk.
  intros [= <-]. exists res, pct. rewrite Hchk. repeat split; reflexivity.
Qed.

Lemma analyze_budget_returns (cr : counting.CountingResult) (m : ModelDefinition)
  (config : CLIConfig) (res : Z) (pct : PyFloat.float) :
  opt_str_truthy (counting.error cr) = false ->
  _calculate_reserve (_calculate_effective_limit m config) config = Return res ->
  pct_used_of (counting.input_tokens cr) (_calculate_effective_limit m config)
  = Return pct ->
  exists r, analyze_budget cr m config = Return r.
Proof.
  intros Hfalsy Hres Hpct. unfold analyze_budget. rewrite Hfalsy, Hres.
  cbn [bind]. fold (pct_used_of (counting.input_tokens cr) (_calculate_effective_limit m config)).
  rewrite Hpct. cbn [bind].
  destruct (_check_thresholds pct _) as [w err]. eexists; reflexivity.
Qed.
(** The reserve truncates the float product, which is itself rounded: for
    10 tokens and a fraction of 0.3 the product is 3.0, although the exact
    product with the float 0.3 is just below 3. *)
Lemma reserve_is_of_the_float_product :
  _calculate_reserve 10 (examples.config None None (PyFloat.literal 3 10)) = Return 3 /\
  Qfloor (10 * PyFloat.to_Q (PyFloat.literal 3 10)) = 2.
Proof.
  split; vm_compute; reflexivity.
Qed.

(** [analyze_budget] raises nothing on integers below [2^1000] and a valid
    configuration. *)
Lemma analyze_budget_total (cr : counting.CountingResult) (m : ModelDefinition)
  (config : CLIConfig) :
  Z.abs (models.context_limit m) < 2 ^ 1000 ->
  (forall mt, max_tokens config = Some mt -> Z.abs mt < 2 ^ 1000) ->
  Z.abs (counting.input_tokens cr) < 2 ^ 1000 ->
  valid_binary PyFloat.prec PyFloat.emax (reserve_pct config) = true ->
  reserve_values_ok config = true ->
  exists r, analyze_budget cr m config = Return r.
Proof.
  intros Hlimit Hmt Htokens Hvalid Hok.
  destruct (opt_str_truthy (counting.error cr)) eqn:Herr.
  { unfold analyze_budget. rewrite Herr. eexists; reflexivity. }
  assert (Heff : Z.abs (_calculate_effective_limit m config) < 2 ^ 1000).
  { unfold _calculate_effective_limit.
    destruct (max_tokens config) as [mt|] eqn:Hmax; [|exact Hlimit].
    specialize (Hmt mt eq_refl). rewrite py_min_spec. lia. }
  assert (Hres : exists res,
             _calculate_reserve (_calculate_effective_limit m config) config = Return res).
  { unfold _calculate_reserve. destruct (cli.reserve config) as [res|]; [eexists; reflexivity|].
    unfold reserve_values_ok in Hok.
    apply andb_prop in Hok as [_ Hpct]. apply andb_prop in Hpct as [H0 H1].
    destruct (of_int_finite _ Heff) as (f & Hf & Hbelow).
    unfold PyFloat.int_mul. rewrite Hf. cbn [bind].
    pose proof (mul_unit_fraction_finite f (reserve_pct config) Hbelow Hvalid H0 H1) as Hfin.
    rewrite (to_int_trunc _ Hfin). eexists; reflexivity. }
  assert (Hpct : exists pct,
             pct_used_of (counting.input_tokens cr) (_calculate_effective_limit m config)
             = Return pct).
  { unfold pct_used_of.
    destruct (Z.eqb_spec (_calculate_effective_limit m config) 0) as [_|Hne];
      [eexists; reflexivity|].
    destruct (int_truediv_returns _ _ Htokens Hne) as (ratio & ->).
    eexists; reflexivity. }
  destruct Hres as (res & Hres). destruct Hpct as (pct & Hpct).
  exact (analyze_budget_returns cr m config res pct Herr Hres Hpct).
Qed.

End BudgetFacts.

Section BudgetClaims.
Import models cli budget.

(** C2. In a record returned for an error-free outcome, the error is set
    (to "error: exceeds budget") exactly when the percentage is at least
    0.95 or the remaining tokens are negative; otherwise the warning is set
    (to "warning: near limit") exactly when the percentage is at least
    0.80; and no returned record has both. *)
Theorem C2_threshold_classification (cr : counting.CountingResult)
  (m : ModelDefinition) (config : CLIConfig) (r : BudgetResult) :
  opt_str_truthy (counting.error cr) = false ->
  analyze_budget cr m config = Return r ->
  let exceeded :=
    PyFloat.geb (pct_used r) (PyFloat.literal 95 100) = true \/ remaining_tokens r < 0 in
  let near := PyFloat.geb (pct_used r) (PyFloat.literal 80 100) = true in
  (error r = Some "error: exceeds budget" <-> exceeded) /\
  (error r = None <-> ~ exceeded) /\
  (exceeded -> warning r = None) /\
  (~ exceeded -> (warning r = Some "warning: near limit" <-> near)) /\
  (~ exceeded -> (warning r = None <-> ~ near)) /\
  (forall cr' m' config' r',
      analyze_budget cr' m' config' = Return r' ->
      warning r' = None \/ error r' = None).
Proof.
  intros Hfalsy Hret.
  assert (Hboth : forall cr' m' config' r',
             analyze_budget cr' m' config' = Return r' ->
             warning r' = None \/ error r' = None).
  { intros cr' m' config' r' Hret'.
    destruct (opt_str_truthy (counting.error cr')) eqn:Herr.
    - unfold analyze_budget in Hret'. rewrite Herr in Hret'.
      injection Hret' as <-. left; reflexivity.
    - destruct (analyze_budget_inv _ _ _ _ Herr Hret') as (res & pct & _ & _ & ->).
      cbn [warning error]. rewrite check_thresholds_cases.
      destruct (_ || _); [left; reflexivity|].
      destruct (PyFloat.geb pct _); right; reflexivity. }
  destruct (analyze_budget_inv _ _ _ _ Hfalsy Hret) as (res & pct & _ & _ & ->).
  cbn [warning error pct_used remaining_tokens]. rewrite check_thresholds_cases.
  set (rem := _calculate_effective_limit m config - res - counting.input_tokens cr).
  destruct (PyFloat.geb pct (PyFloat.literal 95 100)) eqn:H95;
    destruct (Z.ltb_spec rem 0) as [Hneg|Hnonneg]; cbn [orb fst snd];
    try (destruct (PyFloat.geb pct (PyFloat.literal 80 100)) eqn:H80; cbn [fst snd]);
    repeat split; try exact Hboth; intros; try tauto; try congruence; try lia;
    try (intros [?|?]; (congruence || lia)).
Qed.

(** C4 (amended). When the counting outcome carries a non-empty error
    message, [analyze_budget] returns the short-circuit record: count 0,
    effective limit equal to the context limit, reserve 0, remaining 0,
    percentage 0.0, the counting error verbatim, no warning, and the
    approximation flag of the outcome; the thresholds are not consulted. *)
Theorem C4_counting_error_short_circuit (cr : counting.CountingResult)
  (m : ModelDefinition) (config : CLIConfig) (e : string) :
  counting.error cr = Some e ->
  e <> EmptyString ->
  analyze_budget cr m config
  = Return (mkBudgetResult (name m) 0 (models.context_limit m) (models.context_limit m)
              0 0 PyFloat.zero None (Some e) (counting.is_approximate cr)).
Proof.
  intros He Hne. unfold analyze_budget.
  replace (opt_str_truthy (counting.error cr)) with true.
  - now rewrite He.
  - symmetry. apply opt_str_truthy_true. now exists e.
Qed.

(** C4 as stated fails when the error message is present but empty: the
    test [if counting_result.error] is false for it, and the analysis
    proceeds as for a successful count. *)
Lemma C4_counterexample_empty_error_string :
  counting.error examples.empty_error = Some EmptyString /\
  analyze_budget examples.empty_error examples.test_model examples.default_config
  = Return (mkBudgetResult "gpt-4o" 100 1000 1000 200 700 (PyFloat.literal 10 100)
              None None false).
Proof.
  split; vm_compute; reflexivity.
Qed.

(** C7. The effective limit is the context limit without an override and
    the smaller of the context limit and the override with one; it never
    exceeds the context limit, in any record [analyze_budget] returns. *)
Theorem C7_effective_limit (m : ModelDefinition) (config : CLIConfig) :
  (max_tokens config = None ->
   _calculate_effective_limit m config = models.context_limit m) /\
  (forall override,
      max_tokens config = Some override ->
      _calculate_effective_limit m config = Z.min (models.context_limit m) override) /\
  _calculate_effective_limit m config <= models.context_limit m /\
  (forall cr r,
      analyze_budget cr m config = Return r ->
      effective_limit r <= models.context_limit m /\
      (opt_str_truthy (counting.error cr) = false ->
       effective_limit r = _calculate_effective_limit m config)).
Proof.
  assert (Hle : _calculate_effective_limit m config <= models.context_limit m).
  { unfold _calculate_effective_limit.
    destruct (max_tokens config) as [override|]; [rewrite py_min_spec|]; lia. }
  split; [|split; [|split]].
  - intros Hnone. unfold _calculate_effective_limit. now rewrite Hnone.
  - intros override Hsome. unfold _calculate_effective_limit.
    rewrite Hsome. apply py_min_spec.
  - exact Hle.
  - intros cr r Hret.
    destruct (opt_str_truthy (counting.error cr)) eqn:Herr.
    + unfold analyze_budget in Hret. rewrite Herr in Hret. injection Hret as <-.
      cbn [effective_limit]. split; [lia | discriminate].
    + destruct (analyze_budget_inv _ _ _ _ Herr Hret) as (res & pct & _ & _ & ->).
      cbn [effective_limit]. split; [exact Hle | reflexivity].
Qed.

(** C5 (amended). The reserve of a returned record is the absolute reserve
    when the configuration has one; otherwise it is the float product of the
    effective limit and the reserve fraction truncated toward zero, which
    is its floor when limit and fraction are not negative. A fraction of
    1.0 on a limit of 1000 reserves exactly 1000, and 0.2 on 999 reserves
    199 (from 199.8), not 200. *)
Theorem C5_reserve_size (cr : counting.CountingResult) (m : ModelDefinition)
  (config : CLIConfig) (r : BudgetResult) :
  opt_str_truthy (counting.error cr) = false ->
  analyze_budget cr m config = Return r ->
  (forall absolute, cli.reserve config = Some absolute -> reserve r = absolute) /\
  (cli.reserve config = None ->
   exists limit,
     PyFloat.of_int (effective_limit r) = Return limit /\
     PyFloat.is_finite (PyFloat.mul limit (reserve_pct config)) = true /\
     reserve r = spec.Qtrunc (PyFloat.to_Q (PyFloat.mul limit (reserve_pct config))) /\
     (0 <= effective_limit r ->
      PyFloat.leb PyFloat.zero (reserve_pct config) = true ->
      reserve r = Qfloor (PyFloat.to_Q (PyFloat.mul limit (reserve_pct config))))) /\
  _calculate_reserve 1000 (examples.config None None (PyFloat.literal 1 1)) = Return 1000 /\
  _calculate_reserve 999 (examples.config None None (PyFloat.literal 2 10)) = Return 199.
Proof.
  intros Hfalsy Hret.
  destruct (analyze_budget_inv _ _ _ _ Hfalsy Hret) as (res & pct & Hres & _ & ->).
  cbn [reserve effective_limit]. unfold _calculate_reserve in Hres.
  split; [|split; [|split; vm_compute; reflexivity]].
  - intros absolute Habs. rewrite Habs in Hres. congruence.
  - intros Hnone. rewrite Hnone in Hres. unfold PyFloat.int_mul in Hres.
    destruct (PyFloat.of_int (_calculate_effective_limit m config)) as [limit|e] eqn:Hlimit;
      [|discriminate].
    cbn [bind] in Hres. exists limit.
    pose proof (to_int_returns _ _ Hres) as Hfin.
    rewrite (to_int_trunc _ Hfin) in Hres. injection Hres as <-.
    repeat split; try assumption.
    intros Hlim Hpct. unfold spec.Qtrunc.
    replace (Qle_bool 0 _) with true; [reflexivity|].
    symmetry. apply Qle_bool_iff. apply mul_nonneg; [|exact Hpct].
    exact (of_int_nonneg _ _ Hlim Hlimit).
Qed.

(** C6 (amended). With an effective limit of 0: a count of 0 gives
    percentage 0.0 and no warning, and the error is set exactly when the
    reserve is positive (never with a percentage reserve, which is 0 here);
    a positive count gives the sentinel 999.99 and the error. *)
Theorem C6_zero_effective_limit (cr : counting.CountingResult) (m : ModelDefinition)
  (config : CLIConfig) (r : BudgetResult) :
  opt_str_truthy (counting.error cr) = false ->
  analyze_budget cr m config = Return r ->
  effective_limit r = 0 ->
  (counting.input_tokens cr = 0 ->
   pct_used r = PyFloat.zero /\ warning r = None /\
   (error r = Some "error: exceeds budget" <-> 0 < reserve r) /\
   (error r = None <-> reserve r <= 0) /\
   (cli.reserve config = None -> reserve r = 0 /\ error r = None)) /\
  (0 < counting.input_tokens cr ->
   pct_used r = PyFloat.literal 99999 100 /\
   error r = Some "error: exceeds budget" /\ warning r = None).
Proof.
  intros Hfalsy Hret.
  destruct (analyze_budget_inv _ _ _ _ Hfalsy Hret) as (res & pct & Hres & Hpct & ->).
  cbn [effective_limit pct_used warning error reserve]. intros Hzero.
  rewrite Hzero in *. unfold pct_used_of in Hpct. cbn [Z.eqb] in Hpct.
  rewrite check_thresholds_cases. split.
  - intros Htok. rewrite Htok in *. cbn [Z.eqb] in Hpct. injection Hpct as <-.
    assert (Hnone : cli.reserve config = None -> res = 0).
    { intros Hn. unfold _calculate_reserve in Hres. rewrite Hn in Hres.
      unfold PyFloat.int_mul in Hres. cbn in Hres.
      destruct (reserve_pct config) as [s | s | | s mp ep]; cbn in Hres; congruence. }
    change (PyFloat.geb PyFloat.zero (PyFloat.literal 95 100)) with false.
    change (PyFloat.geb PyFloat.zero (PyFloat.literal 80 100)) with false.
    cbn [orb]. destruct (Z.ltb_spec (0 - res - 0) 0) as [Hneg|Hnonneg]; cbn [fst snd];
      repeat split; intros; try congruence; try lia.
    + apply Hnone; assumption.
    + specialize (Hnone ltac:(assumption)). lia.
    + apply Hnone; assumption.
  - intros Htok.
    destruct (Z.eqb_spec (counting.input_tokens cr) 0) as [Heq|_]; [lia|].
    injection Hpct as <-.
    change (PyFloat.geb (PyFloat.literal 99999 100) (PyFloat.literal 95 100)) with true.
    cbn [orb fst snd]. repeat split.
Qed.

(** C6 as stated fails with an absolute reserve: limit 0, count 0 and
    reserve 100 leave -100 tokens, which sets the error. *)
Lemma C6_counterexample_absolute_reserve :
  counting.error (examples.counted 0) = None /\
  counting.input_tokens (examples.counted 0) = 0 /\
  _calculate_effective_limit examples.zero_model
    (examples.config None (Some 100) (PyFloat.literal 2 10)) = 0 /\
  analyze_budget (examples.counted 0) examples.zero_model
    (examples.config None (Some 100) (PyFloat.literal 2 10))
  = Return (mkBudgetResult "gpt-4o" 0 0 0 100 (-100) PyFloat.zero
              None (Some "error: exceeds budget") false).
Proof.
  repeat split; vm_compute; reflexivity.
Qed.

(** C1 as stated fails: rounding is not half up. 100 tokens under an
    override of 800 (the exact tie 0.125, a scenario of the specification
    and of the test suite) give 0.12 where half up gives 0.13; so do 16000
    tokens of 128000; and 15 of 1000, whose float lies just below 0.015,
    give 0.01 where half up gives 0.02. *)
Lemma C1_counterexample_half_up :
  counting.error (examples.counted 100) = None /\
  _calculate_effective_limit examples.test_model
    (examples.config (Some 800) None (PyFloat.literal 2 10)) = 800 /\
  analyze_budget (examples.counted 100) examples.test_model
    (examples.config (Some 800) None (PyFloat.literal 2 10))
  = Return (mkBudgetResult "gpt-4o" 100 1000 800 160 540
              (PyFloat.literal 12 100) None None false) /\
  spec.percent_used 100 800 = PyFloat.literal 13 100 /\
  analyze_budget (examples.counted 16000) examples.gpt4o examples.default_config
  = Return (mkBudgetResult "gpt-4o" 16000 128000 128000 25600 86400
              (PyFloat.literal 12 100) None None false) /\
  spec.percent_used 16000 128000 = PyFloat.literal 13 100 /\
  analyze_budget (examples.counted 15) examples.test_model examples.default_config
  = Return (mkBudgetResult "gpt-4o" 15 1000 1000 200 785
              (PyFloat.literal 1 100) None None false) /\
  spec.percent_used 15 1000 = PyFloat.literal 2 100 /\
  PyFloat.literal 12 100 <> PyFloat.literal 13 100 /\
  PyFloat.literal 1 100 <> PyFloat.literal 2 100.
Proof.
  repeat split; try (vm_compute; reflexivity); vm_compute; discriminate.
Qed.

(** C5 as stated fails: the reserve is not the floor of the product of the
    limit and the fraction. For a limit of 100 and a fraction of 0.29 the
    reserve is 28 where the floor of 100 * 29/100 is 29; for a limit of 10
    and a fraction of 0.3 the reserve is 3 where the exact product with the
    float 0.3, which lies below 3, has floor 2. *)
Lemma C5_counterexample_rounded_product :
  analyze_budget (examples.counted 10) examples.model_of_100
    (examples.config None None (PyFloat.literal 29 100))
  = Return (mkBudgetResult "gpt-4o" 10 100 100 28 62
              (PyFloat.literal 10 100) None None false) /\
  Qfloor (100 * (29 # 100)) = 29 /\
  Qfloor (100 * PyFloat.to_Q (PyFloat.literal 29 100)) = 28 /\
  analyze_budget (examples.counted 1) examples.model_of_10
    (examples.config None None (PyFloat.literal 3 10))
  = Return (mkBudgetResult "gpt-4o" 1 10 10 3 6
              (PyFloat.literal 10 100) None None false) /\
  Qfloor (10 * (3 # 10)) = 3 /\
  Qfloor (10 * PyFloat.to_Q (PyFloat.literal 3 10)) = 2.
Proof.
  repeat split; vm_compute; reflexivity.
Qed.
End BudgetClaims.

(** ** The statements at concrete inputs *)

Section Instances.
Import models input cli counting budget examples.

Lemma C2_witness :
  error near_limit_record = None <->
  ~ (PyFloat.geb (pct_used near_limit_record) (PyFloat.literal 95 100) = true \/
     remaining_tokens near_limit_record < 0).
Proof.
  pose proof (C2_threshold_classification (counted 800) test_model
                (config None None PyFloat.zero) near_limit_record) as H.
  cbv zeta in H. apply H; vm_compute; reflexivity.
Defined.

Lemma C3_witness :
  count_tokens char_tokenizer messages_input gpt4o
  = mkCountingResult "gpt-4o" 52 None true.
Proof.
  destruct (C3_approximate_message_count char_tokenizer messages_input gpt4o
              conversation char_encoding eq_refl eq_refl eq_refl eq_refl) as (_ & _ & H).
  apply (H (map (fun a => Z.of_nat (nat_of_ascii a))
              (list_ascii_of_string (spec.flat_text conversation)))).
  reflexivity.
Defined.

Lemma C4_witness :
  analyze_budget failed test_model default_config
  = Return (mkBudgetResult "gpt-4o" 0 1000 1000 0 0 PyFloat.zero None
              (Some "Token encoding failed: boom") true).
Proof.
  apply (C4_counting_error_short_circuit failed test_model default_config
           "Token encoding failed: boom"); [reflexivity | discriminate].
Defined.

Lemma C5_witness :
  exists limit,
    PyFloat.of_int 800 = Return limit /\
    reserve overridden_record
    = Qfloor (PyFloat.to_Q (PyFloat.mul limit (PyFloat.literal 2 10))).
Proof.
  assert (Hret : analyze_budget (counted 100) test_model
                   (config (Some 800) None (PyFloat.literal 2 10))
                 = Return overridden_record) by (vm_compute; reflexivity).
  destruct (C5_reserve_size (counted 100) test_model
              (config (Some 800) None (PyFloat.literal 2 10)) overridden_record
              eq_refl Hret) as (_ & H & _).
  destruct (H eq_refl) as (limit & Hlimit & _ & _ & Hfloor).
  exists limit. split; [exact Hlimit|].
  apply Hfloor; [simpl; lia | vm_compute; reflexivity].
Defined.

Lemma C6_witness :
  pct_used zero_record = PyFloat.zero /\ warning zero_record = None /\
  error zero_record = None.
Proof.
  assert (Hret : analyze_budget (counted 0) zero_model default_config
                 = Return zero_record) by (vm_compute; reflexivity).
  destruct (C6_zero_effective_limit (counted 0) zero_model default_config zero_record
              eq_refl Hret eq_refl) as (H & _).
  destruct (H eq_refl) as (Hpct & Hwarn & _ & _ & Hnone).
  destruct (Hnone eq_refl) as (_ & Herr).
  repeat split; assumption.
Defined.

Lemma C7_witness :
  _calculate_effective_limit test_model (config (Some 800) None (PyFloat.literal 2 10))
  = Z.min 1000 800.
Proof.
  apply (C7_effective_limit test_model (config (Some 800) None (PyFloat.literal 2 10))).
  reflexivity.
Defined.

Lemma C8_witness :
  count_tokens char_tokenizer text_input unknown_model
  = mkCountingResult "unknown-model" 0 (Some "Unknown tokenizer type: unknown") false /\
  count_tokens char_tokenizer text_input claude
  = mkCountingResult "claude-3-5-sonnet" 0
      (Some "Provider token counting not yet implemented") false /\
  count_tokens char_tokenizer text_input other_local
  = mkCountingResult "unsupported-local" 0
      (Some "Local counting not supported for model: unsupported-local") false.
Proof.
  split; [|split].
  - apply (C8_dispatch_errors char_tokenizer text_input unknown_model); discriminate.
  - apply (C8_dispatch_errors char_tokenizer text_input claude); reflexivity.
  - apply (C8_dispatch_errors char_tokenizer text_input other_local);
      [reflexivity | discriminate].
Defined.

Lemma C9_witness :
  counting.input_tokens (count_tokens char_tokenizer text_input claude) = 0.
Proof.
  apply (C9_error_implies_zero_count char_tokenizer text_input claude).
  simpl. discriminate.
Defined.

Lemma C10_witness :
  approximate_full_text
    ([mkMessage "user" (PyStr "hi")] ++ [mkMessage "tool" (PyStr "")])
  = (approximate_full_text
       ([mkMessage "user" (PyStr "hi")] ++ [mkMessage "tool" (PyList [image_item])])
     ++ double_newline)%string.
Proof.
  apply (C10_empty_string_still_a_segment [] "tool"). reflexivity.
Defined.

End Instances.

(** * Further properties of the counting engine *)

Section CountingPaths.
Import models input counting.

Variable encoding_for_model : string -> result Encoding.

Ltac unfold_paths :=
  unfold count_tokens, _count_local_tokens, _count_provider_tokens,
    _count_gpt4o_tokens, _count_messages_approximate, try_except, bind.

(** The text handed to the tokenizer for an input: the approximate text of
    its messages when it has messages, its raw content otherwise. *)
Lemma dispatch_local_gpt4o (input_data : InputData) (m : ModelDefinition) :
  tokenizer_type m = "local" -> name m = "gpt-4o" ->
  count_tokens encoding_for_model input_data m
  = _count_gpt4o_tokens encoding_for_model input_data.
Proof.
  intros Htype Hname. unfold count_tokens, _count_local_tokens, try_except.
  now rewrite Htype, Hname.
Qed.

(** X1. Plain text (no message list) under the local strategy and the
    supported model is counted exactly: the count is the length of the
    encoding of the raw content, with no error and no approximation flag. *)
Theorem X1_plain_text_counted_exactly (input_data : InputData) (m : ModelDefinition)
  (encoding : Encoding) (tokens : list Z) :
  tokenizer_type m = "local" ->
  name m = "gpt-4o" ->
  messages input_data = None ->
  encoding_for_model "gpt-4o" = Return encoding ->
  encode encoding (input_content input_data) = Return tokens ->
  count_tokens encoding_for_model input_data m
  = mkCountingResult "gpt-4o" (len tokens) None false.
Proof.
  intros Htype Hname Hmsgs Henc Htokens.
  rewrite dispatch_local_gpt4o by assumption.
  unfold _count_gpt4o_tokens, try_except, bind.
  now rewrite Henc, Hmsgs, Htokens.
Qed.

(** X2. When the encoding cannot be loaded, the outcome is the loading
    error with a zero count, whatever the input holds; nothing is encoded. *)
Theorem X2_encoding_load_failure (input_data : InputData) (m : ModelDefinition)
  (e : exception) :
  tokenizer_type m = "local" ->
  name m = "gpt-4o" ->
  encoding_for_model "gpt-4o" = Raise e ->
  count_tokens encoding_for_model input_data m
  = mkCountingResult "gpt-4o" 0
      (Some ("Failed to load tiktoken encoding: " ++ exc_str e)%string) false.
Proof.
  intros Htype Hname Henc.
  rewrite dispatch_local_gpt4o by assumption.
  unfold _count_gpt4o_tokens. now rewrite Henc.
Qed.

(** X3. When encoding raises, the outcome is the encoding error with a zero
    count, and the approximation flag is off even for a message list. *)
Theorem X3_encoding_failure (input_data : InputData) (m : ModelDefinition)
  (encoding : Encoding) (e : exception) :
  tokenizer_type m = "local" ->
  name m = "gpt-4o" ->
  encoding_for_model "gpt-4o" = Return encoding ->
  encode encoding
    (match messages input_data with
     | Some msgs => approximate_full_text msgs
     | None => input_content input_data
     end) = Raise e ->
  count_tokens encoding_for_model input_data m
  = mkCountingResult "gpt-4o" 0
      (Some ("Token encoding failed: " ++ exc_str e)%string) false.
Proof.
  intros Htype Hname Henc Hfail.
  rewrite dispatch_local_gpt4o by assumption.
  unfold _count_gpt4o_tokens, _count_messages_approximate, try_except, bind.
  rewrite Henc. destruct (messages input_data) as [msgs|]; now rewrite Hfail.
Qed.

(** X4. Every outcome carries the name of the model it was asked for and a
    count that is not negative; the approximation flag is set only on a
    successful count of a message list; and a count succeeds only under the
    local strategy, for the supported model, with a loaded encoding. *)
Theorem X4_outcome_invariants (input_data : InputData) (m : ModelDefinition) :
  model (count_tokens encoding_for_model input_data m) = name m /\
  0 <= input_tokens (count_tokens encoding_for_model input_data m) /\
  (is_approximate (count_tokens encoding_for_model input_data m) = true ->
   error (count_tokens encoding_for_model input_data m) = None /\
   messages input_data <> None) /\
  (error (count_tokens encoding_for_model input_data m) = None ->
   tokenizer_type m = "local" /\ name m = "gpt-4o" /\
   (exists encoding, encoding_for_model "gpt-4o" = Return encoding) /\
   (is_approximate (count_tokens encoding_for_model input_data m) = true <->
    messages input_data <> None)).
Proof.
  unfold_paths.
  destruct (String.eqb_spec (tokenizer_type m) "local") as [Htype|Htype].
  - destruct (String.eqb_spec (name m) "gpt-4o") as [Hname|Hname].
    + destruct (encoding_for_model "gpt-4o") as [encoding|e].
      * destruct (messages input_data) as [msgs|].
        -- destruct (encode encoding (approximate_full_text msgs)) as [tokens|e];
             cbn [model input_tokens error is_approximate]; unfold len;
             repeat split; intros; try congruence; try lia; eauto.
        -- destruct (encode encoding (input_content input_data)) as [tokens|e];
             cbn [model input_tokens error is_approximate]; unfold len;
             repeat split; intros; try congruence; try lia; eauto.
      * cbn [model input_tokens error is_approximate].
        repeat split; intros; try congruence; try lia.
    + cbn [model input_tokens error is_approximate].
      repeat split; intros; try congruence; try lia.
  - destruct (String.eqb (tokenizer_type m) "provider");
      cbn [model input_tokens error is_approximate];
      repeat split; intros; try congruence; try lia.
Qed.

(** X5. The outcome depends on the input only through its message list,
    or through its raw content when it has no message list: the raw content
    of an input with messages and the source label are never used. *)
Theorem X5_messages_are_authoritative (input1 input2 : InputData) (m : ModelDefinition) :
  messages input1 = messages input2 ->
  (messages input1 = None -> input_content input1 = input_content input2) ->
  count_tokens encoding_for_model input1 m = count_tokens encoding_for_model input2 m.
Proof.
  intros Hmsgs Hcontent. unfold_paths. rewrite <- Hmsgs.
  destruct (messages input1) as [msgs|]; [reflexivity|].
  now rewrite (Hcontent eq_refl).
Qed.

End CountingPaths.

Section ApproximateText.
Import input counting.

Lemma join_app (sep : string) (xs ys : list string) :
  xs <> [] -> ys <> [] ->
  join sep (xs ++ ys) = (join sep xs ++ sep ++ join sep ys)%string.
Proof.
  intros Hxs Hys. induction xs as [|x xs IH]; [congruence|].
  destruct xs as [|x' xs].
  - simpl app. now rewrite join_cons_nonempty.
  - change ((x :: x' :: xs) ++ ys) with (x :: ((x' :: xs) ++ ys)).
    rewrite join_cons_nonempty by (simpl; congruence).
    rewrite IH by congruence.
    rewrite (join_cons_nonempty sep x (x' :: xs)) by congruence.
    now rewrite !string_app_assoc.
Qed.

Lemma approximate_text_parts_nonempty (msgs : list Message) :
  msgs <> [] -> approximate_text_parts msgs <> [].
Proof.
  rewrite approximate_text_parts_spec. destruct msgs as [|m msgs]; [congruence|].
  intros _. simpl. discriminate.
Qed.

(** X6. Counting is compositional in the message list: the text parts of a
    concatenation are the parts of the two lists one after the other, so the
    flat text of two non-empty lists is their flat texts joined by a blank
    line; and [n] messages give between [n] and [2 n] parts. *)
Theorem X6_message_lists_concatenate (msgs1 msgs2 : list Message) :
  approximate_text_parts (msgs1 ++ msgs2)
  = approximate_text_parts msgs1 ++ approximate_text_parts msgs2 /\
  (msgs1 <> [] -> msgs2 <> [] ->
   approximate_full_text (msgs1 ++ msgs2)
   = (approximate_full_text msgs1 ++ double_newline
      ++ approximate_full_text msgs2)%string) /\
  (List.length msgs1 <= List.length (approximate_text_parts msgs1)
   <= 2 * List.length msgs1)%nat.
Proof.
  assert (Happ : approximate_text_parts (msgs1 ++ msgs2)
                 = approximate_text_parts msgs1 ++ approximate_text_parts msgs2).
  { rewrite !approximate_text_parts_spec. unfold spec.segments. apply flat_map_app. }
  split; [exact Happ|split].
  - intros H1 H2. unfold approximate_full_text. rewrite Happ.
    apply join_app; now apply approximate_text_parts_nonempty.
  - rewrite approximate_text_parts_spec. unfold spec.segments.
    clear Happ. induction msgs1 as [|m msgs IH]; [simpl; lia|].
    cbn [flat_map List.length app]. rewrite length_app.
    assert (List.length (spec.text_segment m) <= 1)%nat.
    { unfold spec.text_segment. destruct (content m); simpl; try lia.
      destruct (spec.extracted_text items); simpl; lia. }
    lia.
Qed.

Lemma item_fragments_carries_text (item : pyobj) :
  notions.carries_text item = false -> spec.item_fragments item = [].
Proof.
  destruct item as [| | | | s | items | entries]; simpl; try reflexivity; try discriminate.
  destruct (dict_get entries "text") as [[| | | | s | |]|]; simpl;
    try reflexivity; discriminate.
Qed.

Lemma flat_map_fragments_filter (items : list pyobj) :
  flat_map spec.item_fragments (filter notions.carries_text items)
  = flat_map spec.item_fragments items.
Proof.
  induction items as [|item items IH]; simpl; [reflexivity|].
  destruct (notions.carries_text item) eqn:Hitem; simpl.
  - now rewrite IH.
  - now rewrite (item_fragments_carries_text item Hitem), IH.
Qed.

Lemma text_segment_text_only (m : Message) :
  spec.role_marker (notions.text_only m) = spec.role_marker m /\
  spec.text_segment (notions.text_only m) = spec.text_segment m.
Proof.
  unfold notions.text_only, spec.text_segment, spec.role_marker.
  destruct (content m) as [| | | | s | items | entries] eqn:Hc; rewrite ?Hc;
    try (split; reflexivity).
  cbn [content role]. unfold spec.extracted_text.
  now rewrite flat_map_fragments_filter.
Qed.

(** X7. Items that carry no text (images and the like) never change a
    count: removing them from every content array leaves the extracted
    text, the flat text and the outcome of [count_tokens] unchanged. *)
Theorem X7_non_text_items_are_ignored :
  (forall items,
      _extract_text_from_content_array (filter notions.carries_text items)
      = _extract_text_from_content_array items) /\
  (forall msgs,
      approximate_full_text (map notions.text_only msgs) = approximate_full_text msgs) /\
  (forall encoding_for_model input_data m,
      count_tokens encoding_for_model (notions.text_only_input input_data) m
      = count_tokens encoding_for_model input_data m).
Proof.
  assert (Htext : forall msgs,
             approximate_full_text (map notions.text_only msgs)
             = approximate_full_text msgs).
  { intros msgs. rewrite !approximate_full_text_spec.
    unfold spec.flat_text, spec.segments. f_equal.
    induction msgs as [|m msgs IH]; simpl; [reflexivity|].
    destruct (text_segment_text_only m) as [-> ->]. now rewrite IH. }
  split; [|split; [exact Htext|]].
  - intros items. rewrite !extract_text_spec. unfold spec.extracted_text.
    now rewrite flat_map_fragments_filter.
  - intros encoding_for_model input_data m.
    unfold count_tokens, _count_local_tokens, _count_provider_tokens,
      _count_gpt4o_tokens, _count_messages_approximate, try_except, bind.
    unfold notions.text_only_input; cbn [messages input_content].
    destruct (messages input_data) as [msgs|]; cbn [option_map]; [|reflexivity].
    now rewrite Htext.
Qed.

End ApproximateText.

(** * Properties of message parsing *)

Section MessageParsingFacts.
Import input.

Variable float_repr : PyFloat.float -> string.

Lemma parse_item_returns (source_name : string) (i : nat) (item : pyobj) (m : Message) :
  parse_item float_repr source_name i item = Return m <-> notions.is_message_item item m.
Proof.
  unfold notions.is_message_item, parse_item. split.
  - destruct item as [| | | | s | items | entries]; try discriminate.
    destruct (dict_get entries "role") as [role_value|] eqn:Hrole; [|discriminate].
    destruct (dict_get entries "content") as [content_value|] eqn:Hcontent; [|discriminate].
    unfold new_Message.
    destruct role_value as [| b | n | x | r | l | d]; try discriminate.
    destruct (valid_role r) eqn:Hvalid; [|discriminate].
    intros [= <-]. exists entries. cbn [role content]. repeat split; assumption.
  - intros (entries & -> & Hrole & Hcontent & Hvalid).
    rewrite Hrole, Hcontent. unfold new_Message. rewrite Hvalid.
    now destruct m.
Qed.

Lemma parse_items_returns (source_name : string) (items : list pyobj) :
  forall (i : nat) (parsed out : list Message),
    parse_items float_repr source_name i items parsed = Return out <->
    exists msgs, out = parsed ++ msgs /\ Forall2 notions.is_message_item items msgs.
Proof.
  induction items as [|item items IH]; intros i parsed out; cbn [parse_items].
  - split.
    + intros [= <-]. exists []. split; [now rewrite app_nil_r | constructor].
    + intros (msgs & -> & Hall). inversion Hall. now rewrite app_nil_r.
  - unfold bind. split.
    + destruct (parse_item float_repr source_name i item) as [m|e] eqn:Hitem; [|discriminate].
      intros Hrest. apply IH in Hrest as (msgs & -> & Hall).
      exists (m :: msgs). split; [now rewrite <- app_assoc|].
      constructor; [now apply (parse_item_returns source_name i)|exact Hall].
    + intros (msgs & -> & Hall). inversion Hall as [|? m ? msgs' Hm Hrest]; subst.
      apply (parse_item_returns source_name i) in Hm. rewrite Hm.
      apply IH. exists msgs'. split; [now rewrite <- app_assoc | exact Hrest].
Qed.

Lemma parse_items_first_failure (source_name : string) (good : list pyobj) :
  forall (i : nat) (parsed msgs : list Message) (bad : pyobj) (rest : list pyobj)
         (e : exception),
    Forall2 notions.is_message_item good msgs ->
    parse_item float_repr source_name (i + List.length good) bad = Raise e ->
    parse_items float_repr source_name i (good ++ bad :: rest) parsed = Raise e.
Proof.
  induction good as [|item good IH]; intros i parsed msgs bad rest e Hgood Hbad.
  - cbn [app parse_items List.length] in *. rewrite Nat.add_0_r in Hbad.
    now rewrite Hbad.
  - inversion Hgood as [|? m ? msgs' Hm Hrest]; subst.
    apply (parse_item_returns source_name i) in Hm.
    cbn [app parse_items]. rewrite Hm. cbn [bind].
    apply (IH (S i) _ msgs'); [exact Hrest|].
    cbn [List.length] in Hbad. now rewrite Nat.add_succ_comm.
Qed.

(** X9. [parse_messages] returns a list exactly for a non-empty array whose
    items are all objects with a content field and a role that is one of
    the four role strings; the list then has one message per item, in order,
    with that role and the content unchanged, and is never empty. *)
Theorem X9_parse_messages_success (data : pyobj) (source_name : string)
  (msgs : list Message) :
  parse_messages float_repr data source_name = Return msgs <->
  exists items,
    data = PyList items /\ items <> [] /\ Forall2 notions.is_message_item items msgs.
Proof.
  unfold parse_messages. split.
  - destruct data as [| | | | s | items | entries]; try discriminate.
    destruct items as [|item items]; [discriminate|].
    intros Hparse. apply parse_items_returns in Hparse as (out & -> & Hall).
    exists (item :: items). repeat split; [discriminate | exact Hall].
  - intros (items & -> & Hne & Hall).
    destruct items as [|item items]; [congruence|].
    apply parse_items_returns. now exists msgs.
Qed.

(** X10. What [parse_messages] rejects: a value that is not an array and
    an empty array, each with its own [ValueError]; and in an array, the
    first item that does not parse decides the exception, the items after
    it not being looked at. An item that is not an object is such an item. *)
Theorem X10_parse_messages_errors (source_name : string) :
  (forall data,
      (forall items, data <> PyList items) ->
      parse_messages float_repr data source_name
      = Raise (mkExc ValueError
                 ("Messages must be an array of objects in " ++ source_name ++ ", got "
                  ++ type_name data)%string)) /\
  parse_messages float_repr (PyList []) source_name
  = Raise (mkExc ValueError ("Messages array cannot be empty in " ++ source_name)%string) /\
  (forall good msgs bad rest e,
      Forall2 notions.is_message_item good msgs ->
      parse_item float_repr source_name (List.length good) bad = Raise e ->
      parse_messages float_repr (PyList (good ++ bad :: rest)) source_name = Raise e) /\
  (forall i item,
      (forall entries, item <> PyDict entries) ->
      parse_item float_repr source_name i item
      = Raise (mkExc ValueError
                 ("Message " ++ str_of_nat i ++ " must be an object in " ++ source_name
                  ++ ", got " ++ type_name item)%string)).
Proof.
  split; [|split; [reflexivity|split]].
  - intros data Hnot. destruct data; try reflexivity. now destruct (Hnot items).
  - intros good msgs bad rest e Hgood Hbad. unfold parse_messages.
    destruct (good ++ bad :: rest) as [|x xs] eqn:Hitems.
    + now destruct good.
    + rewrite <- Hitems. now apply (parse_items_first_failure source_name good 0 [] msgs).
  - intros i item Hnot. destruct item; try reflexivity. now destruct (Hnot entries).
Qed.

End MessageParsingFacts.

Section DerivedText.
Import input.

Lemma input_extract_step_spec (acc : list string) (item : pyobj) :
  input.extract_step acc item = acc ++ spec.item_fragments item.
Proof.
  destruct item as [| | | | s | items | entries]; simpl;
    try (now rewrite app_nil_r); try reflexivity.
  destruct (dict_get entries "text") as [[| | | | s | |]|]; simpl;
    try (now rewrite app_nil_r); reflexivity.
Qed.

Lemma input_extract_text_spec (items : list pyobj) :
  input._extract_text_from_content_array items = spec.extracted_text items.
Proof.
  unfold input._extract_text_from_content_array, spec.extracted_text.
  now rewrite (fold_left_append input.extract_step spec.item_fragments input_extract_step_spec).
Qed.

Lemma text_step_spec (acc : list string) (m : Message) :
  text_step acc m = acc ++ spec.text_segment m.
Proof.
  unfold text_step, spec.text_segment.
  destruct (content m) as [| | | | s | items | entries];
    try (now rewrite app_nil_r); try reflexivity.
  rewrite input_extract_text_spec.
  destruct (spec.extracted_text items); simpl; [now rewrite app_nil_r | reflexivity].
Qed.

(** X8. The two copies of the content-array extractor agree, and the raw
    text derived from a message list is made of exactly the text segments
    that the approximate count uses, in the same order, without the role
    markers. *)
Theorem X8_derived_text_is_the_segments_without_markers (msgs : list Message) :
  (forall items,
      input._extract_text_from_content_array items
      = counting._extract_text_from_content_array items) /\
  _messages_to_text msgs = join double_newline (flat_map spec.text_segment msgs) /\
  counting.approximate_full_text msgs
  = join double_newline
      (flat_map (fun m => ("<" ++ role m ++ ">")%string :: spec.text_segment m) msgs).
Proof.
  split; [|split].
  - intros items. now rewrite input_extract_text_spec, extract_text_spec.
  - unfold _messages_to_text.
    now rewrite (fold_left_append text_step spec.text_segment text_step_spec).
  - apply approximate_full_text_spec.
Qed.

End DerivedText.

(** * Properties of the registry and of the configuration *)

Section RegistryAndConfig.
Import models cli.

(** X11. The model names the configuration accepts are exactly the names
    the registry resolves; a resolved model carries the name it was looked
    up by, is listed among the available models and has a positive context
    limit; any other name raises [KeyError] with the name in its message. *)
Theorem X11_registry_matches_validation (n : string) :
  (valid_model n = true <-> exists m, get_model n = inr m) /\
  (forall m,
      get_model n = inr m ->
      name m = n /\ In n get_available_models /\ 0 < context_limit m /\
      (tokenizer_type m = "local" \/ tokenizer_type m = "provider")) /\
  (valid_model n = false ->
   get_model n = inl (mkKeyError ("Unknown model: " ++ n)%string)).
Proof.
  unfold valid_model, get_model, get_available_models, _models.
  cbn [registry_lookup map fst].
  rewrite (String.eqb_sym "gpt-4o" n), (String.eqb_sym "claude-3-5-sonnet" n).
  destruct (String.eqb_spec n "gpt-4o") as [->|H1];
    [|destruct (String.eqb_spec n "claude-3-5-sonnet") as [->|H2]]; cbn [orb].
  - split; [|split].
    + split; [intros _; eexists; reflexivity | reflexivity].
    + intros m [= <-]. cbn. repeat split; auto; lia.
    + discriminate.
  - split; [|split].
    + split; [intros _; eexists; reflexivity | reflexivity].
    + intros m [= <-]. cbn. repeat split; auto; lia.
    + discriminate.
  - split; [|split].
    + split; [discriminate | intros (m & Hm); discriminate].
    + discriminate.
    + reflexivity.
Qed.

Lemma valid_model_resolves (n : string) :
  valid_model n = true -> exists m, get_model n = inr m /\ name m = n.
Proof.
  unfold valid_model, get_model, _models. cbn [registry_lookup].
  rewrite (String.eqb_sym "gpt-4o" n), (String.eqb_sym "claude-3-5-sonnet" n).
  destruct (String.eqb_spec n "gpt-4o") as [->|H1];
    [|destruct (String.eqb_spec n "claude-3-5-sonnet") as [->|H2]]; cbn [orb];
    try discriminate; intros _; eexists; split; reflexivity.
Qed.

Lemma validate_model_names_returns (names : list string) :
  validate_model_names names = Return tt <-> Forall (fun m => valid_model m = true) names.
Proof.
  induction names as [|m names IH]; cbn [validate_model_names].
  - split; [constructor | reflexivity].
  - destruct (valid_model m) eqn:Hm; cbn [negb].
    + rewrite IH. split; [now constructor | now inversion 1].
    + split; [discriminate | inversion 1; congruence].
Qed.

Lemma validate_model_names_first_invalid (good : list string) (bad : string)
  (rest : list string) :
  Forall (fun m => valid_model m = true) good ->
  valid_model bad = false ->
  validate_model_names (good ++ bad :: rest)
  = Raise (mkExc ValueError
             ("Unknown model: " ++ bad ++ ". Valid models: claude-3-5-sonnet, gpt-4o")%string).
Proof.
  intros Hgood Hbad. induction Hgood as [|m good Hm _ IH]; cbn [app validate_model_names].
  - now rewrite Hbad.
  - now rewrite Hm.
Qed.

Lemma validate_reserve_values_returns (c : CLIConfig) :
  _validate_reserve_values c = Return tt <-> reserve_values_ok c = true.
Proof.
  unfold _validate_reserve_values, reserve_values_ok.
  destruct (match reserve c with Some r => r <? 0 | None => false end); cbn [negb andb].
  - split; discriminate.
  - destruct (PyFloat.leb PyFloat.zero (reserve_pct c)
              && PyFloat.leb (reserve_pct c) (PyFloat.literal 1 1)); cbn [negb];
      split; congruence.
Qed.

Lemma post_init_returns (c : CLIConfig) :
  __post_init__ c = Return tt <->
  reserve_values_ok c = true /\ Forall (fun m => valid_model m = true) (models c).
Proof.
  unfold __post_init__, _validate_models, bind.
  rewrite <- validate_reserve_values_returns, <- validate_model_names_returns.
  destruct (_validate_reserve_values c) as [[]|e].
  - tauto.
  - split; [discriminate | intros [H _]; discriminate].
Qed.

Lemma reserve_not_negative (reserve : option Z) :
  (forall r, reserve = Some r -> 0 <= r) <->
  match reserve with Some r => r <? 0 | None => false end = false.
Proof.
  destruct reserve as [r|]; [|split; [reflexivity | discriminate]].
  split.
  - intros H. apply Z.ltb_ge. now apply H.
  - intros H r' [= <-]. now apply Z.ltb_ge.
Qed.

Lemma new_CLIConfig_returns (names : list string) (input_source : InputSource)
  (input_path : option string) (max_tokens reserve : option Z)
  (reserve_pct : PyFloat.float) (json_output : bool) (c : CLIConfig) :
  new_CLIConfig names input_source input_path max_tokens reserve reserve_pct json_output
  = Return c <->
  c = mkCLIConfig names input_source input_path max_tokens reserve reserve_pct json_output /\
  (forall r, reserve = Some r -> 0 <= r) /\
  PyFloat.leb PyFloat.zero reserve_pct = true /\
  PyFloat.leb reserve_pct (PyFloat.literal 1 1) = true /\
  Forall (fun m => valid_model m = true) names.
Proof.
  unfold new_CLIConfig, bind.
  set (c0 := mkCLIConfig names input_source input_path max_tokens reserve reserve_pct
               json_output).
  pose proof (post_init_returns c0) as Hinit.
  unfold reserve_values_ok in Hinit. cbn [cli.reserve cli.reserve_pct cli.models c0] in Hinit.
  rewrite (reserve_not_negative reserve).
  destruct (__post_init__ c0) as [[]|e].
  - destruct Hinit as [Hinit _]. destruct (Hinit eq_refl) as [Hok Hmodels].
    apply andb_prop in Hok as [Hres Hpct]. apply andb_prop in Hpct as [H0 H1].
    apply negb_true_iff in Hres.
    split; [intros [= <-]; repeat split; assumption | intros (-> & _); reflexivity].
  - split; [discriminate|]. intros (_ & Hres & H0 & H1 & Hmodels).
    destruct Hinit as [_ Hinit]. rewrite Hres, H0, H1 in Hinit.
    now specialize (Hinit (conj eq_refl Hmodels)).
Qed.

(** X12. A configuration is constructed exactly when its reserve is absent
    or not negative, its reserve fraction lies in [0.0, 1.0] (which NaN does
    not) and all its model names are known; the reserve is checked before
    the fraction, the fraction before the models, and the first unknown
    model is the one reported. *)
Theorem X12_config_validation (names : list string) (input_source : InputSource)
  (input_path : option string) (max_tokens reserve : option Z)
  (reserve_pct : PyFloat.float) (json_output : bool) :
  let c := mkCLIConfig names input_source input_path max_tokens reserve reserve_pct
             json_output in
  (new_CLIConfig names input_source input_path max_tokens reserve reserve_pct json_output
   = Return c <->
   (forall r, reserve = Some r -> 0 <= r) /\
   PyFloat.leb PyFloat.zero reserve_pct = true /\
   PyFloat.leb reserve_pct (PyFloat.literal 1 1) = true /\
   Forall (fun m => valid_model m = true) names) /\
  (forall c', new_CLIConfig names input_source input_path max_tokens reserve reserve_pct
                json_output = Return c' -> c' = c) /\
  (forall r, reserve = Some r -> r < 0 ->
   new_CLIConfig names input_source input_path max_tokens reserve reserve_pct json_output
   = Raise (mkExc ValueError "--reserve must be non-negative")) /\
  ((forall r, reserve = Some r -> 0 <= r) ->
   PyFloat.leb PyFloat.zero reserve_pct && PyFloat.leb reserve_pct (PyFloat.literal 1 1)
   = false ->
   new_CLIConfig names input_source input_path max_tokens reserve reserve_pct json_output
   = Raise (mkExc ValueError "--reserve-pct must be in range [0.0, 1.0]")) /\
  (forall good bad rest,
      (forall r, reserve = Some r -> 0 <= r) ->
      PyFloat.leb PyFloat.zero reserve_pct && PyFloat.leb reserve_pct (PyFloat.literal 1 1)
      = true ->
      names = good ++ bad :: rest ->
      Forall (fun m => valid_model m = true) good ->
      valid_model bad = false ->
      new_CLIConfig names input_source input_path max_tokens reserve reserve_pct json_output
      = Raise (mkExc ValueError
                 ("Unknown model: " ++ bad
                  ++ ". Valid models: claude-3-5-sonnet, gpt-4o")%string)).
Proof.
  intros c.
  pose proof (reserve_not_negative reserve) as Hneg.
  split; [|split; [|split; [|split]]].
  - rewrite new_CLIConfig_returns. fold c. tauto.
  - intros c' Hc'. apply new_CLIConfig_returns in Hc'. now destruct Hc' as [-> _].
  - intros r -> Hr. unfold new_CLIConfig, __post_init__, _validate_reserve_values, bind.
    cbn [cli.reserve]. apply Z.ltb_lt in Hr. now rewrite Hr.
  - intros Hres Hpct. apply Hneg in Hres.
    unfold new_CLIConfig, __post_init__, _validate_reserve_values, bind.
    cbn [cli.reserve cli.reserve_pct]. now rewrite Hres, Hpct.
  - intros good bad rest Hres Hpct -> Hgood Hbad. apply Hneg in Hres.
    unfold new_CLIConfig, __post_init__, _validate_reserve_values, _validate_models, bind.
    cbn [cli.reserve cli.reserve_pct cli.models]. rewrite Hres, Hpct. cbn [negb].
    now rewrite (validate_model_names_first_invalid good bad rest Hgood Hbad).
Qed.

(** X13. A configuration built from parsed arguments has a non-empty model
    list (the two registry models when none was given) whose names all
    resolve in the registry, a positive token override if any, a reserve
    that is not negative if any, and a reserve fraction in [0.0, 1.0]; its
    input is the messages file if one was given, else the text file if one
    was given, else standard input. *)
Theorem X13_built_config_is_well_formed (args : Namespace) (c : CLIConfig) :
  _build_config args = Return c ->
  models c <> [] /\
  (match arg_models args with
   | Some (m :: rest) => models c = m :: rest
   | _ => models c = ["gpt-4o"; "claude-3-5-sonnet"]
   end) /\
  Forall (fun n => exists m, get_model n = inr m /\ name m = n) (models c) /\
  max_tokens c = arg_max_tokens args /\
  (forall mt, max_tokens c = Some mt -> 0 < mt) /\
  cli.reserve c = arg_reserve args /\
  (forall r, cli.reserve c = Some r -> 0 <= r) /\
  reserve_pct c = arg_reserve_pct args /\
  reserve_values_ok c = true /\
  json_output c = arg_json args /\
  (match arg_messages args, arg_file args with
   | Some path, _ => input_source c = MESSAGES /\ input_path c = Some path
   | None, Some path => input_source c = FILE /\ input_path c = Some path
   | None, None => input_source c = STDIN /\ input_path c = None
   end).
Proof.
  unfold _build_config.
  set (src := match arg_messages args with
              | Some path => (MESSAGES, Some path)
              | None => match arg_file args with
                        | Some path => (FILE, Some path)
                        | None => (STDIN, None)
                        end
              end).
  destruct src as [input_source input_path] eqn:Hsrc.
  set (names := match arg_models args with
                | Some (m :: rest) => m :: rest
                | _ => ["gpt-4o"; "claude-3-5-sonnet"]
                end).
  destruct (match arg_max_tokens args with Some mt => mt <=? 0 | None => false end)
    eqn:Hmt; [discriminate|].
  intros Hnew.
  apply new_CLIConfig_returns in Hnew as (-> & Hres & H0 & H1 & Hmodels).
  cbn [cli.models cli.max_tokens cli.reserve cli.reserve_pct cli.json_output
         cli.input_source cli.input_path].
  repeat split; try reflexivity.
  - unfold names. destruct (arg_models args) as [[|m rest]|]; discriminate.
  - unfold names. destruct (arg_models args) as [[|m rest]|]; reflexivity.
  - eapply Forall_impl; [|exact Hmodels]. intros n Hn.
    now apply valid_model_resolves.
  - intros mt Hsome. rewrite Hsome in Hmt. now apply Z.leb_gt in Hmt.
  - exact Hres.
  - unfold reserve_values_ok. cbn [cli.reserve cli.reserve_pct]. rewrite H0, H1.
    destruct (arg_reserve args) as [r|]; [|reflexivity].
    specialize (Hres r eq_refl). apply Z.ltb_ge in Hres. now rewrite Hres.
  - unfold src in Hsrc.
    destruct (arg_messages args) as [p|]; [|destruct (arg_file args) as [p|]];
      injection Hsrc as <- <-; split; reflexivity.
Qed.

End RegistryAndConfig.

Section BuildConfigErrors.
Import models cli.

Lemma validate_model_names_raises (names : list string) (e : exception) :
  validate_model_names names = Raise e -> exc_class e = ValueError.
Proof.
  induction names as [|m names IH]; cbn [validate_model_names]; [discriminate|].
  destruct (valid_model m); cbn [negb]; [exact IH | now intros [= <-]].
Qed.

(** X14. An override of zero or less is rejected before anything else is
    looked at, a negative reserve next; and whatever [_build_config]
    raises is a [ValueError], the class its caller handles. *)
Theorem X14_build_config_rejections (args : Namespace) :
  (forall mt,
      arg_max_tokens args = Some mt -> mt <= 0 ->
      _build_config args = Raise (mkExc ValueError "--max-tokens must be positive")) /\
  (forall r,
      (forall mt, arg_max_tokens args = Some mt -> 0 < mt) ->
      arg_reserve args = Some r -> r < 0 ->
      _build_config args = Raise (mkExc ValueError "--reserve must be non-negative")) /\
  (forall e, _build_config args = Raise e -> exc_class e = ValueError).
Proof.
  unfold _build_config.
  destruct (match arg_messages args with
            | Some path => (MESSAGES, Some path)
            | None => match arg_file args with
                      | Some path => (FILE, Some path)
                      | None => (STDIN, None)
                      end
            end) as [input_source input_path].
  split; [|split].
  - intros mt -> Hmt. apply Z.leb_le in Hmt. now rewrite Hmt.
  - intros r Hmt Hres Hr.
    replace (match arg_max_tokens args with Some mt => mt <=? 0 | None => false end)
      with false.
    + unfold new_CLIConfig, __post_init__, _validate_reserve_values, bind.
      cbn [cli.reserve]. rewrite Hres. apply Z.ltb_lt in Hr. now rewrite Hr.
    + destruct (arg_max_tokens args) as [mt|]; [|reflexivity].
      symmetry. apply Z.leb_gt. now apply Hmt.
  - intros e.
    destruct (match arg_max_tokens args with Some mt => mt <=? 0 | None => false end);
      [now intros [= <-]|].
    unfold new_CLIConfig, __post_init__, _validate_reserve_values, _validate_models, bind.
    cbn [cli.reserve cli.reserve_pct cli.models].
    destruct (match arg_reserve args with Some r => r <? 0 | None => false end);
      [now intros [= <-]|].
    destruct (negb _); [now intros [= <-]|].
    destruct (validate_model_names _) as [[]|e'] eqn:Hnames; [discriminate|].
    intros [= <-]. now apply (validate_model_names_raises _ _ Hnames).
Qed.

End BuildConfigErrors.

(** * Counting followed by analysis *)

Section Pipeline.
Import models cli.

Variable encoding_for_model : string -> result counting.Encoding.

(** X15. A failed count always short-circuits the analysis: the error
    message of an outcome of [count_tokens] is never empty, and analysing
    that outcome returns the record with count 0, the model's context limit
    as effective limit, reserve 0, remaining 0, percentage 0.0, no warning,
    the counting error, and no approximation flag, whatever the
    configuration. *)
Theorem X15_failed_count_short_circuits (input_data : input.InputData)
  (m : ModelDefinition) (config : CLIConfig) (e : string) :
  counting.error (counting.count_tokens encoding_for_model input_data m) = Some e ->
  e <> EmptyString /\
  budget.analyze_budget (counting.count_tokens encoding_for_model input_data m) m config
  = Return (budget.mkBudgetResult (name m) 0 (context_limit m) (context_limit m)
              0 0 PyFloat.zero None (Some e) false).
Proof.
  intros He.
  assert (Hfacts : e <> EmptyString /\
                   counting.is_approximate
                     (counting.count_tokens encoding_for_model input_data m) = false).
  { revert He.
    unfold counting.count_tokens, counting._count_local_tokens,
      counting._count_provider_tokens, counting._count_gpt4o_tokens,
      counting._count_messages_approximate, try_except, bind.
    destruct (String.eqb (tokenizer_type m) "local").
    - destruct (String.eqb (name m) "gpt-4o").
      + destruct (encoding_for_model "gpt-4o") as [encoding|ex].
        * destruct (input.messages input_data) as [msgs|];
            destruct (counting.encode encoding _) as [tokens|ex];
            cbn [counting.error counting.is_approximate];
            try discriminate; intros [= <-]; (split; [discriminate | reflexivity]).
        * cbn [counting.error counting.is_approximate].
          intros [= <-]; split; [discriminate | reflexivity].
      + cbn [counting.error counting.is_approximate].
        intros [= <-]; split; [discriminate | reflexivity].
    - destruct (String.eqb (tokenizer_type m) "provider");
        cbn [counting.error counting.is_approximate];
        intros [= <-]; (split; [discriminate | reflexivity]). }
  destruct Hfacts as [Hne Happrox]. split; [exact Hne|].
  unfold budget.analyze_budget. rewrite He, Happrox.
  destruct e; [congruence | reflexivity].
Qed.

End Pipeline.

(** * Floats: exact cases and upper bounds of rounding *)

Section ExactRounding.
Import PyFloat.

(** A mantissa already at the exponent its size asks for is not touched. *)
Lemma binary_round_aux_canonical (s : bool) (m : positive) (e : Z) :
  fexp prec emax (Z.pos (digits2_pos m) + e) = e -> e <= 971 ->
  binary_round_aux prec emax s (Z.pos m) e loc_Exact = S754_finite s m e.
Proof.
  intros Hcanon He. unfold binary_round_aux, shr_fexp, Zdigits2.
  rewrite Hcanon, Z.sub_diag. cbn [shr shr_record_of_loc shr_m loc_of_shr_record
                                     round_nearest_even Zdigits2].
  rewrite Hcanon, Z.sub_diag. cbn [shr shr_record_of_loc shr_m].
  replace (e <=? emax - prec) with true; [reflexivity|].
  symmetry. apply Z.leb_le. unfold emax, prec. lia.
Qed.

Lemma Zpos_iter_xO (m d : positive) : Z.pos (Pos.iter xO m d) = Z.pos m * 2 ^ Z.pos d.
Proof.
  induction d as [|d IH] using Pos.peano_ind.
  - simpl. lia.
  - rewrite Pos.iter_succ, Pos2Z.inj_xO, IH, Pos2Z.inj_succ, Z.pow_succ_r by lia. lia.
Qed.

(** [float(n)] is exact below [2^53]: converting back gives [n]. *)
Lemma of_int_exact (n : Z) :
  Z.abs n < 2 ^ 53 ->
  exists f,
    of_int n = Return f /\ to_int f = Return n /\ valid_binary prec emax f = true /\
    sign_bit f = (n <? 0).
Proof.
  intros Hn. unfold of_int, binary_normalize.
  destruct n as [|p|p].
  - exists (S754_zero false). repeat split.
  - unfold binary_round.
    assert (Hd : Z.pos (digits2_pos p) <= 53).
    { change (Z.pos (digits2_pos p)) with (Zdigits2 (Z.pos p)).
      apply Zdigits2_le; simpl in Hn; lia. }
    destruct (shl_align_spec p 0 (fexp prec emax (Z.pos (digits2_pos p) + 0))) as [Hez Hdig].
    assert (Hval : Z.pos (fst (shl_align p 0 (fexp prec emax (Z.pos (digits2_pos p) + 0))))
                   = Z.pos p * 2 ^ (- snd (shl_align p 0 (fexp prec emax (Z.pos (digits2_pos p) + 0)))) /\
                   snd (shl_align p 0 (fexp prec emax (Z.pos (digits2_pos p) + 0)))
                   = Z.pos (digits2_pos p) - 53).
    { unfold shl_align, fexp, emin, prec, emax.
      destruct (Z.max (Z.pos (digits2_pos p) + 0 - 53) (3 - 1024 - 53) - 0) as [|d|d] eqn:Hsh;
        cbn [fst snd]; try lia.
      rewrite Zpos_iter_xO.
      split; [f_equal; f_equal; lia | lia]. }
    destruct (shl_align p 0 _) as [mz ez]. cbn [fst snd] in *.
    destruct Hval as [Hmz Hez'].
    assert (Hcanon : fexp prec emax (Z.pos (digits2_pos mz) + ez) = ez).
    { unfold fexp, emin, prec, emax. lia. }
    rewrite binary_round_aux_canonical by (assumption || lia).
    exists (S754_finite false mz ez). repeat split.
    + cbn [to_int cond_Zopp]. f_equal. rewrite Hmz.
      rewrite <- Z.shiftr_opp_r, Z.shiftr_div_pow2 by lia.
      apply Z.div_mul. apply Z.pow_nonzero; lia.
    + cbn [valid_binary]. unfold bounded, canonical_mantissa.
      rewrite Hcanon, Z.eqb_refl. apply Z.leb_le. unfold emax, prec. lia.
  - unfold binary_round.
    assert (Hd : Z.pos (digits2_pos p) <= 53).
    { change (Z.pos (digits2_pos p)) with (Zdigits2 (Z.pos p)).
      apply Zdigits2_le; simpl in Hn; lia. }
    destruct (shl_align_spec p 0 (fexp prec emax (Z.pos (digits2_pos p) + 0))) as [Hez Hdig].
    assert (Hval : Z.pos (fst (shl_align p 0 (fexp prec emax (Z.pos (digits2_pos p) + 0))))
                   = Z.pos p * 2 ^ (- snd (shl_align p 0 (fexp prec emax (Z.pos (digits2_pos p) + 0)))) /\
                   snd (shl_align p 0 (fexp prec emax (Z.pos (digits2_pos p) + 0)))
                   = Z.pos (digits2_pos p) - 53).
    { unfold shl_align, fexp, emin, prec, emax.
      destruct (Z.max (Z.pos (digits2_pos p) + 0 - 53) (3 - 1024 - 53) - 0) as [|d|d] eqn:Hsh;
        cbn [fst snd]; try lia.
      rewrite Zpos_iter_xO.
      split; [f_equal; f_equal; lia | lia]. }
    destruct (shl_align p 0 _) as [mz ez]. cbn [fst snd] in *.
    destruct Hval as [Hmz Hez'].
    assert (Hcanon : fexp prec emax (Z.pos (digits2_pos mz) + ez) = ez).
    { unfold fexp, emin, prec, emax. lia. }
    rewrite binary_round_aux_canonical by (assumption || lia).
    exists (S754_finite true mz ez). repeat split.
    + cbn [to_int cond_Zopp]. f_equal. rewrite Hmz.
      rewrite <- Z.shiftr_opp_r, Z.shiftr_div_pow2 by lia.
      rewrite Z.div_mul by (apply Z.pow_nonzero; lia). reflexivity.
    + cbn [valid_binary]. unfold bounded, canonical_mantissa.
      rewrite Hcanon, Z.eqb_refl. apply Z.leb_le. unfold emax, prec. lia.
Qed.

Lemma valid_finite_canonical (s : bool) (m : positive) (e : Z) :
  valid_binary prec emax (S754_finite s m e) = true ->
  fexp prec emax (Z.pos (digits2_pos m) + e) = e /\ e <= 971.
Proof.
  cbn [valid_binary]. unfold bounded, canonical_mantissa. intros H.
  apply andb_prop in H as [Hcanon Hbound].
  apply Z.eqb_eq in Hcanon. apply Z.leb_le in Hbound.
  unfold emax, prec in Hbound. split; [exact Hcanon | lia].
Qed.

(** Multiplying by 1.0 changes nothing. *)
Lemma mul_one (x : float) :
  valid_binary prec emax x = true -> is_finite x = true -> mul x (literal 1 1) = x.
Proof.
  intros Hvalid Hfin.
  change (literal 1 1) with (S754_finite false 4503599627370496 (-52)).
  destruct x as [s | s | | s m e]; try discriminate.
  - unfold mul, SFmul. now rewrite xorb_false_r.
  - destruct (valid_finite_canonical s m e Hvalid) as [Hcanon He].
    unfold mul, SFmul. rewrite xorb_false_r, Pos.mul_comm.
    assert (Hdig : Z.pos (digits2_pos (4503599627370496 * m)) = Z.pos (digits2_pos m) + 52).
    { change (4503599627370496 * m)%positive with (Pos.iter xO m 52).
      rewrite digits2_pos_iter_xO. lia. }
    assert (Hshift : iter_pos shr_1 52
                       (Build_shr_record (Z.pos (4503599627370496 * m)) false false)
                     = Build_shr_record (Z.pos m) false false) by reflexivity.
    unfold binary_round_aux, shr_fexp. cbn [Zdigits2 shr_record_of_loc].
    rewrite Hdig.
    replace (Z.pos (digits2_pos m) + 52 + (e + -52)) with (Z.pos (digits2_pos m) + e) by lia.
    rewrite Hcanon.
    replace (e - (e + -52)) with 52 by lia.
    cbn [shr]. rewrite Hshift.
    cbn [shr_m loc_of_shr_record round_nearest_even Zdigits2].
    replace (e + -52 + 52) with e by lia.
    rewrite Hcanon, Z.sub_diag. cbn [shr shr_record_of_loc shr_m].
    replace (e <=? emax - prec) with true; [reflexivity|].
    symmetry. apply Z.leb_le. unfold emax, prec. lia.
Qed.

End ExactRounding.

Section RoundingBelow.
Import PyFloat.

Lemma shr_fexp_m (m e : Z) (l : location) :
  0 <= m ->
  shr_m (fst (shr_fexp prec emax m e l))
  = m / 2 ^ (snd (shr_fexp prec emax m e l) - e) /\
  e <= snd (shr_fexp prec emax m e l).
Proof.
  intros Hm. unfold shr_fexp, shr.
  destruct (fexp prec emax (Zdigits2 m + e) - e) as [|n|n]; cbn [fst snd];
    rewrite ?shr_record_of_loc_m.
  - rewrite Z.sub_diag, Z.pow_0_r, Z.div_1_r. split; [reflexivity | lia].
  - rewrite iter_shr_1_m by (rewrite shr_record_of_loc_m; lia).
    rewrite shr_record_of_loc_m, Z.shiftr_div_pow2 by lia.
    split; [f_equal; f_equal; lia | lia].
  - rewrite Z.sub_diag, Z.pow_0_r, Z.div_1_r. split; [reflexivity | lia].
Qed.

(** A value strictly below [K * 2^e1], [e1] being the exponent it is
    rounded at, is not rounded above [K * 2^e1]. *)
Lemma binary_round_aux_below (s : bool) (m e : Z) (l : location) (K : Z) :
  0 <= m ->
  m < K * 2 ^ (Z.max e (fexp prec emax (Zdigits2 m + e)) - e) ->
  match binary_round_aux prec emax s m e l with
  | S754_finite _ m2 e2 =>
      Z.max e (fexp prec emax (Zdigits2 m + e)) <= e2 /\
      Z.pos m2 * 2 ^ (e2 - Z.max e (fexp prec emax (Zdigits2 m + e))) <= K
  | _ => True
  end.
Proof.
  intros Hm Hlt. unfold binary_round_aux.
  destruct (shr_fexp_spec m e l Hm) as (H1 & H2 & _).
  destruct (shr_fexp_m m e l Hm) as (H3 & H4).
  destruct (shr_fexp prec emax m e l) as [mrs' e1]. cbn [fst snd] in *.
  rewrite <- H2 in *.
  assert (Hpow : 0 < 2 ^ (e1 - e)) by (apply Z.pow_pos_nonneg; lia).
  assert (Hm' : shr_m mrs' < K).
  { rewrite H3. apply Z.div_lt_upper_bound; lia. }
  set (m1 := round_nearest_even (shr_m mrs') (loc_of_shr_record mrs')).
  assert (Hm1 : 0 <= m1 <= K).
  { unfold m1, round_nearest_even.
    destruct (loc_of_shr_record mrs') as [|[| |]]; try destruct (Z.even _); lia. }
  destruct (shr_fexp_m m1 e1 loc_Exact ltac:(lia)) as (H5 & H6).
  destruct (shr_fexp prec emax m1 e1 loc_Exact) as [mrs'' e2]. cbn [fst snd] in *.
  destruct (shr_m mrs'') as [|m2|m2] eqn:Hm2; try exact I.
  destruct (e2 <=? emax - prec); [|exact I].
  split; [exact H6|].
  assert (Hpow2 : 0 < 2 ^ (e2 - e1)) by (apply Z.pow_pos_nonneg; lia).
  pose proof (Z.mul_div_le m1 (2 ^ (e2 - e1)) Hpow2). rewrite <- H5 in *. lia.
Qed.

(** [Z.shiftl] compares like the values it truncates. *)
Lemma shiftl_le_scaled (m1 e1 m2 e2 b : Z) :
  0 <= m1 -> 0 <= m2 -> b <= e1 -> b <= e2 ->
  m1 * 2 ^ (e1 - b) <= m2 * 2 ^ (e2 - b) ->
  Z.shiftl m1 e1 <= Z.shiftl m2 e2.
Proof.
  intros H1 H2 Hb1 Hb2 Hle.
  assert (Hsplit : forall m e, 0 <= m -> b <= e ->
                     Z.shiftl m e = Z.shiftl (m * 2 ^ (e - b)) b).
  { intros m e _ Hbe. rewrite <- Z.shiftl_mul_pow2 by lia.
    rewrite Z.shiftl_shiftl by lia. f_equal; lia. }
  rewrite (Hsplit m1 e1), (Hsplit m2 e2) by assumption.
  destruct (Z_le_gt_dec 0 b) as [Hpos|Hneg].
  - rewrite !Z.shiftl_mul_pow2 by lia.
    apply Z.mul_le_mono_nonneg_r; [apply Z.pow_nonneg; lia | exact Hle].
  - rewrite <- !Z.shiftr_opp_r, !Z.shiftr_div_pow2 by lia.
    apply Z.div_le_mono; [apply Z.pow_pos_nonneg; lia | exact Hle].
Qed.

Lemma fexp_mono (x y : Z) : x <= y -> fexp prec emax x <= fexp prec emax y.
Proof.
  unfold fexp, emin. lia.
Qed.

(** A valid binary64 in [[0.0, 1.0]] other than 1.0 is a zero or a finite
    float below 1. *)
Lemma proper_fraction_cases (y : float) :
  valid_binary prec emax y = true ->
  leb zero y = true -> leb y (literal 1 1) = true -> y <> literal 1 1 ->
  (exists s, y = S754_zero s) \/
  (exists m e, y = S754_finite false m e /\ e <= -52 /\ Z.pos m < 2 ^ (- e) /\
               Z.pos (digits2_pos m) + e <= 0).
Proof.
  intros Hvalid H0 H1 Hne.
  destruct y as [s | s | | s m e]; try discriminate.
  - left. now exists s.
  - destruct s; [discriminate|]. vm_compute in H1. discriminate.
  - destruct s; [discriminate|]. right. exists m, e. split; [reflexivity|].
    change (literal 1 1) with (S754_finite false 4503599627370496 (-52)) in *.
    destruct (valid_finite_canonical false m e Hvalid) as [Hcanon _].
    unfold leb, SFleb, SFcompare in H1.
    pose proof (Zdigits2_bound (Z.pos m) ltac:(lia)) as Hbound. cbn [Zdigits2] in Hbound.
    unfold fexp, emin, prec, emax in Hcanon.
    assert (Hdig : Z.pos (digits2_pos m) + e <= 0).
    { destruct (Z.compare_spec e (-52)) as [He|He|He]; try discriminate.
      - subst e.
        rewrite Pos.compare_cont_spec in H1.
        destruct (Pos.compare_spec m 4503599627370496) as [Hcmp|Hcmp|Hcmp];
          try discriminate.
        + subst m. congruence.
        + assert (H : Z.pos m < 2 ^ 52)
            by (change (2 ^ 52) with (Z.pos 4503599627370496); exact Hcmp).
          clear Hcmp Hne H1.
          pose proof (Zdigits2_le (Z.pos m) 52 ltac:(lia) ltac:(lia) H).
          cbn [Zdigits2] in *. lia.
      - lia. }
    split; [|split; [|exact Hdig]].
    + destruct (Z.compare_spec e (-52)); try discriminate; lia.
    + apply Z.lt_le_trans with (2 ^ Z.pos (digits2_pos m)); [exact Hbound|].
      apply Z.pow_le_mono_r; lia.
Qed.

End RoundingBelow.

Section RoundedProducts.
Import PyFloat.

(** Truncating the product of a non-negative float with a fraction of
    [[0, 1]] gives at most the truncation of the float. *)
Lemma to_int_mul_fraction (mx : positive) (ex : Z) (y : float) :
  valid_binary prec emax (S754_finite false mx ex) = true ->
  valid_binary prec emax y = true ->
  leb zero y = true -> leb y (literal 1 1) = true ->
  is_finite (mul (S754_finite false mx ex) y) = true ->
  exists n,
    to_int (mul (S754_finite false mx ex) y) = Return n /\
    0 <= n <= Z.shiftl (Z.pos mx) ex.
Proof.
  intros Hvx Hvy H0 H1 Hfin.
  assert (Hnonneg : 0 <= Z.shiftl (Z.pos mx) ex) by (apply Z.shiftl_nonneg; lia).
  assert (Hdec : y = literal 1 1 \/ y <> literal 1 1).
  { change (literal 1 1) with (S754_finite false 4503599627370496 (-52)).
    destruct y as [s | s | | s m e]; try (right; discriminate).
    destruct s; [right; discriminate|].
    destruct (Pos.eq_dec m 4503599627370496) as [->|Hm]; [|right; congruence].
    destruct (Z.eq_dec e (-52)) as [->|He]; [left; reflexivity | right; congruence]. }
  destruct Hdec as [->|Hne].
  - rewrite mul_one by (assumption || reflexivity).
    exists (Z.shiftl (Z.pos mx) ex). split; [reflexivity | lia].
  - destruct (proper_fraction_cases y Hvy H0 H1 Hne)
      as [[sy ->]|(my & ey & -> & Hey & Hmy & Hdy)].
    + exists 0. split; [reflexivity | lia].
    + destruct (valid_finite_canonical false mx ex Hvx) as [Hcanon Hex].
      unfold mul, SFmul in *. cbn [xorb] in *.
      set (m := Z.pos (mx * my)) in *. set (e := ex + ey) in *.
      set (e1 := Z.max e (fexp prec emax (Zdigits2 m + e))).
      assert (He1 : e <= e1 <= ex).
      { unfold e1. split; [lia|]. apply Z.max_lub; [unfold e; lia|].
        apply Z.le_trans with (fexp prec emax (Z.pos (digits2_pos mx) + ex)); [|lia].
        apply fexp_mono.
        pose proof (Zdigits2_mul (Z.pos mx) (Z.pos my) ltac:(lia) ltac:(lia)) as Hmul.
        cbn [Zdigits2 Z.mul] in Hmul. unfold m, e. cbn [Zdigits2]. lia. }
      assert (Hlt : m < Z.pos mx * 2 ^ (ex - e1) * 2 ^ (e1 - e)).
      { rewrite <- Z.mul_assoc, <- Z.pow_add_r by lia.
        replace (ex - e1 + (e1 - e)) with (- ey) by (unfold e; lia).
        unfold m. rewrite Pos2Z.inj_mul. nia. }
      pose proof (binary_round_aux_below false m e loc_Exact (Z.pos mx * 2 ^ (ex - e1))
                    ltac:(unfold m; lia) Hlt) as Hbelow.
      destruct (binary_round_aux_sign false m e loc_Exact) as [Hsign|Hnan];
        [|rewrite Hnan in Hfin; discriminate].
      destruct (binary_round_aux prec emax false m e loc_Exact) as [s2|s2| |s2 m2 e2];
        try discriminate.
      * exists 0. split; [reflexivity | lia].
      * cbn [sign_bit] in Hsign. subst s2. fold e1 in Hbelow.
        destruct Hbelow as [He2 Hle].
        exists (Z.shiftl (Z.pos m2) e2). split; [reflexivity|].
        split; [apply Z.shiftl_nonneg; lia|].
        apply (shiftl_le_scaled _ _ _ _ e1); lia.
Qed.

End RoundedProducts.

Section RoundedQuotients.
Import PyFloat.

(** The quotient of [a] by [b], when below [N], is not rounded above [N]. *)
Lemma nearest_ratio_below (a b : positive) (N : Z) :
  1 <= N <= 2 ^ 53 -> Z.pos a < N * Z.pos b ->
  match nearest_ratio false a b with
  | S754_zero s => s = false
  | S754_finite s m2 e2 =>
      s = false /\
      (e2 < 0 -> Z.pos m2 <= N * 2 ^ (- e2)) /\
      (0 <= e2 -> Z.pos m2 * 2 ^ e2 <= N)
  | _ => False
  end.
Proof.
  intros HN Hlt. unfold nearest_ratio, SFdiv_core_binary.
  set (e' := Z.min _ _).
  assert (He' : e' <= 0) by (unfold e'; lia).
  set (m' := match 0 - 0 - e' with Z.pos _ => _ | 0 => _ | Z.neg _ => _ end).
  assert (Hm' : m' = Z.pos a * 2 ^ (- e')).
  { unfold m'. destruct (0 - 0 - e') as [|sh|sh] eqn:Hsh; try lia.
    - replace (- e') with 0 by lia. rewrite Z.pow_0_r. lia.
    - rewrite <- Hsh, Z.shiftl_mul_pow2 by lia. repeat f_equal; lia. }
  assert (Hpow : 0 < 2 ^ (- e')) by (apply Z.pow_pos_nonneg; lia).
  destruct (Z.div_eucl m' (Z.pos b)) as [q r] eqn:Hdiv.
  assert (Hq : q = m' / Z.pos b) by (unfold Z.div; now rewrite Hdiv).
  assert (Hq0 : 0 <= q) by (subst q; apply Z.div_pos; nia).
  assert (HqN : q < N * 2 ^ (- e')).
  { subst q. apply Z.div_lt_upper_bound; [lia|]. rewrite Hm'. nia. }
  assert (Hdq : Zdigits2 q + e' <= 53).
  { assert (Zdigits2 q <= 53 - e'); [|lia].
    apply Zdigits2_le; try lia.
    replace (53 - e') with (53 + - e') by lia. rewrite Z.pow_add_r by lia. nia. }
  pose proof (Zdigits2_nonneg q) as Hdq0.
  set (l := new_location (Z.pos b) r).
  set (e1 := Z.max e' (fexp prec emax (Zdigits2 q + e'))).
  assert (He1 : e' <= e1 <= 0).
  { unfold e1, fexp, emin, prec, emax. lia. }
  assert (Hbelow_hyp : q < N * 2 ^ (- e1) * 2 ^ (e1 - e')).
  { rewrite <- Z.mul_assoc, <- Z.pow_add_r by lia.
    now replace (- e1 + (e1 - e')) with (- e') by lia. }
  pose proof (binary_round_aux_below false q e' l (N * 2 ^ (- e1)) Hq0 Hbelow_hyp) as Hbelow.
  pose proof (binary_round_aux_finite false q e' l 53 Hq0 ltac:(lia) Hdq ltac:(lia)) as Hfin.
  fold e1 in Hbelow.
  destruct (binary_round_aux prec emax false q e' l) as [s2|s2| |s2 m2 e2];
    try contradiction; [exact Hfin|].
  destruct Hfin as (-> & _ & _). destruct Hbelow as [He2 Hle].
  split; [reflexivity|]. split.
  - intros Hneg.
    assert (Hp : 0 < 2 ^ (e2 - e1)) by (apply Z.pow_pos_nonneg; lia).
    assert (Hsplit : 2 ^ (- e1) = 2 ^ (- e2) * 2 ^ (e2 - e1)).
    { rewrite <- Z.pow_add_r by lia. f_equal; lia. }
    rewrite Hsplit in Hle. nia.
  - intros Hpos.
    assert (Hp : 0 < 2 ^ (- e1)) by (apply Z.pow_pos_nonneg; lia).
    assert (Hsplit : 2 ^ (e2 - e1) = 2 ^ e2 * 2 ^ (- e1)).
    { rewrite <- Z.pow_add_r by lia. f_equal; lia. }
    rewrite Hsplit in Hle. nia.
Qed.

Lemma div_half_even_bounds (n d B : Z) :
  0 < d -> 0 <= n -> n <= B * d -> 0 <= div_half_even n d <= B.
Proof.
  intros Hd Hn HB. unfold div_half_even.
  pose proof (Z.div_mod n d ltac:(lia)) as Hdm.
  pose proof (Z.mod_pos_bound n d Hd) as Hr.
  assert (0 <= n / d) by (apply Z.div_pos; lia).
  assert (n / d <= B) by (apply Z.div_le_upper_bound; lia).
  destruct (Z.compare_spec (2 * (n mod d)) d); try destruct (Z.even _); nia.
Qed.

(** Rounding to two decimals a float that is at most [N] gives a number of
    hundredths that is at most [100 N]. *)
Lemma round_hundredths (x : float) (N : Z) :
  1 <= N ->
  match x with
  | S754_zero s => s = false
  | S754_finite s m2 e2 =>
      s = false /\
      (e2 < 0 -> Z.pos m2 <= N * 2 ^ (- e2)) /\
      (0 <= e2 -> Z.pos m2 * 2 ^ e2 <= N)
  | _ => False
  end ->
  exists k, 0 <= k <= 100 * N /\ round x 2 = spec.hundredths k.
Proof.
  intros HN Hx. destruct x as [s|s| |s m2 e2]; try contradiction.
  - subst s. exists 0. split; [lia | reflexivity].
  - destruct Hx as (-> & Hneg & Hpos). unfold round.
    change (10 ^ Z.of_N 2) with 100. change (Z.to_pos 100) with 100%positive.
    destruct e2 as [|p|p].
    + exists (Z.pos m2 * 100 * 2 ^ 0). specialize (Hpos ltac:(lia)).
      split; [rewrite Z.pow_0_r in *; lia|].
      destruct (Z.pos m2 * 100 * 2 ^ 0) eqn:Hk; try reflexivity. lia.
    + exists (Z.pos m2 * 100 * 2 ^ Z.pos p). specialize (Hpos ltac:(lia)).
      assert (0 < 2 ^ Z.pos p) by (apply Z.pow_pos_nonneg; lia).
      split; [nia|].
      destruct (Z.pos m2 * 100 * 2 ^ Z.pos p) eqn:Hk; try reflexivity. nia.
    + specialize (Hneg ltac:(lia)). cbn [Z.opp] in Hneg.
      assert (Hd : 0 < 2 ^ Z.pos p) by (apply Z.pow_pos_nonneg; lia).
      pose proof (div_half_even_bounds (Z.pos m2 * 100) (2 ^ Z.pos p) (100 * N)
                    Hd ltac:(lia) ltac:(nia)) as Hk.
      exists (div_half_even (Z.pos m2 * 100) (2 ^ Z.pos p)). split; [exact Hk|].
      destruct (div_half_even (Z.pos m2 * 100) (2 ^ Z.pos p)); try reflexivity. lia.
Qed.

(** A number divided by itself is 1.0. *)
Lemma nearest_ratio_self (a : positive) : nearest_ratio false a a = literal 1 1.
Proof.
  unfold nearest_ratio, SFdiv_core_binary.
  replace (Zdigits2 (Z.pos a) + 0 - (Zdigits2 (Z.pos a) + 0)) with 0 by lia.
  change (Z.min (fexp prec emax 0) (0 - 0)) with (-53).
  change (0 - 0 - -53) with 53.
  cbv iota.
  assert (Hdiv : Z.div_eucl (Z.shiftl (Z.pos a) 53) (Z.pos a) = (2 ^ 53, 0)).
  { pose proof (Z.div_eucl_eq (Z.shiftl (Z.pos a) 53) (Z.pos a) ltac:(lia)) as Heq.
    pose proof (Z.mod_pos_bound (Z.shiftl (Z.pos a) 53) (Z.pos a) ltac:(lia)) as Hr.
    unfold Z.modulo in Hr.
    destruct (Z.div_eucl (Z.shiftl (Z.pos a) 53) (Z.pos a)) as [q r].
    rewrite Z.shiftl_mul_pow2 in Heq by lia.
    assert (q = 2 ^ 53) by nia. subst q. f_equal; lia. }
  rewrite Hdiv.
  replace (new_location (Z.pos a) 0) with loc_Exact
    by (unfold new_location, new_location_even, new_location_odd;
        destruct (Z.even (Z.pos a)); reflexivity).
  reflexivity.
Qed.

End RoundedQuotients.

(** * Further properties of the budget analyzer *)

Section BudgetRanges.
Import models cli budget.

Lemma all_from_spec (P : Z -> bool) (n : nat) :
  forall k, notions.all_from P k n = true ->
            forall j, k <= j < k + Z.of_nat n -> P j = true.
Proof.
  induction n as [|n IH]; intros k Hall j Hj; [lia|].
  cbn [notions.all_from] in Hall. apply andb_prop in Hall as [Hk Hrest].
  destruct (Z.eq_dec j k) as [->|Hne]; [exact Hk|].
  apply (IH (k + 1) Hrest). lia.
Qed.

Lemma hundredths_table : notions.all_from notions.hundredths_ok 0 1001 = true.
Proof.
  vm_compute. reflexivity.
Qed.

Lemma hundredths_facts (k : Z) :
  0 <= k <= 1000 ->
  output.format_2f (spec.hundredths k) = notions.decimal_2 k /\
  PyFloat.geb (spec.hundredths k) (PyFloat.literal 95 100) = (95 <=? k) /\
  PyFloat.geb (spec.hundredths k) (PyFloat.literal 80 100) = (80 <=? k).
Proof.
  intros Hk.
  pose proof (all_from_spec notions.hundredths_ok 1001 0 hundredths_table k ltac:(lia)) as H.
  unfold notions.hundredths_ok in H.
  apply andb_prop in H as [H H80]. apply andb_prop in H as [Hfmt H95].
  apply String.eqb_eq in Hfmt. apply Bool.eqb_prop in H95, H80.
  repeat split; assumption.
Qed.

(** The percentage of a count below [N] times the limit is a number of
    hundredths that is at most [100 N]. *)
Lemma pct_used_of_hundredths (tokens effective_limit N : Z) :
  0 <= tokens -> 0 < effective_limit -> 1 <= N <= 2 ^ 53 ->
  tokens < N * effective_limit ->
  exists k, 0 <= k <= 100 * N /\
            pct_used_of tokens effective_limit = Return (spec.hundredths k).
Proof.
  intros Ht He HN Hlt. unfold pct_used_of.
  destruct (Z.eqb_spec effective_limit 0) as [->|_]; [lia|].
  destruct effective_limit as [|b|b]; try lia.
  destruct tokens as [|a|a]; try lia.
  - exists 0. split; [lia | reflexivity].
  - unfold PyFloat.int_truediv, bind.
    change (xorb (Z.pos a <? 0) (Z.pos b <? 0)) with false.
    change (Z.to_pos (Z.abs (Z.pos a))) with a.
    change (Z.to_pos (Z.abs (Z.pos b))) with b.
    pose proof (nearest_ratio_below a b N HN Hlt) as Hbelow.
    destruct (round_hundredths (PyFloat.nearest_ratio false a b) N ltac:(lia) Hbelow)
      as (k & Hk & Hround).
    exists k. split; [exact Hk|].
    destruct (PyFloat.nearest_ratio false a b); try contradiction; now rewrite <- Hround.
Qed.

Lemma pct_used_of_within_limit (tokens effective_limit : Z) :
  0 <= tokens <= effective_limit -> 0 < effective_limit ->
  exists k, 0 <= k <= 100 /\
            pct_used_of tokens effective_limit = Return (spec.hundredths k).
Proof.
  intros Ht He.
  destruct (Z.eq_dec tokens effective_limit) as [->|Hne].
  - exists 100. split; [lia|]. unfold pct_used_of.
    destruct (Z.eqb_spec effective_limit 0) as [->|_]; [lia|].
    destruct effective_limit as [|b|b]; try lia.
    unfold PyFloat.int_truediv, bind.
    change (xorb (Z.pos b <? 0) (Z.pos b <? 0)) with false.
    change (Z.to_pos (Z.abs (Z.pos b))) with b.
    rewrite nearest_ratio_self. reflexivity.
  - destruct (pct_used_of_hundredths tokens effective_limit 1) as (k & Hk & Hpct);
      try lia.
    exists k. split; [lia | exact Hpct].
Qed.

(** [analyze_budget] raises nothing when the effective limit and the count
    are below [2^1000] and the configuration is valid. *)
Lemma analyze_budget_returns_in_range (cr : counting.CountingResult)
  (m : ModelDefinition) (config : CLIConfig) :
  Z.abs (_calculate_effective_limit m config) < 2 ^ 1000 ->
  Z.abs (counting.input_tokens cr) < 2 ^ 1000 ->
  valid_binary PyFloat.prec PyFloat.emax (reserve_pct config) = true ->
  reserve_values_ok config = true ->
  exists r, analyze_budget cr m config = Return r.
Proof.
  intros Heff Htokens Hvalid Hok.
  destruct (opt_str_truthy (counting.error cr)) eqn:Herr.
  { unfold analyze_budget. rewrite Herr. eexists; reflexivity. }
  assert (Hres : exists res,
             _calculate_reserve (_calculate_effective_limit m config) config = Return res).
  { unfold _calculate_reserve. destruct (cli.reserve config) as [res|]; [eexists; reflexivity|].
    unfold reserve_values_ok in Hok.
    apply andb_prop in Hok as [_ Hpct]. apply andb_prop in Hpct as [H0 H1].
    destruct (of_int_finite _ Heff) as (f & Hf & Hbelow).
    unfold PyFloat.int_mul. rewrite Hf. cbn [bind].
    pose proof (mul_unit_fraction_finite f (reserve_pct config) Hbelow Hvalid H0 H1) as Hfin.
    rewrite (to_int_trunc _ Hfin). eexists; reflexivity. }
  assert (Hpct : exists pct,
             pct_used_of (counting.input_tokens cr) (_calculate_effective_limit m config)
             = Return pct).
  { unfold pct_used_of.
    destruct (Z.eqb_spec (_calculate_effective_limit m config) 0) as [_|Hne];
      [eexists; reflexivity|].
    destruct (int_truediv_returns _ _ Htokens Hne) as (ratio & ->).
    eexists; reflexivity. }
  destruct Hres as (res & Hres). destruct Hpct as (pct & Hpct).
  exact (analyze_budget_returns cr m config res pct Herr Hres Hpct).
Qed.

(** The percentage reserve of a limit below [2^53]. *)
Lemma calculate_reserve_within (effective_limit : Z) (config : CLIConfig) :
  0 <= effective_limit < 2 ^ 53 ->
  cli.reserve config = None ->
  valid_binary PyFloat.prec PyFloat.emax (reserve_pct config) = true ->
  PyFloat.leb PyFloat.zero (reserve_pct config) = true ->
  PyFloat.leb (reserve_pct config) (PyFloat.literal 1 1) = true ->
  exists n, _calculate_reserve effective_limit config = Return n /\
            0 <= n <= effective_limit.
Proof.
  intros Heff Hnone Hvalid H0 H1.
  unfold _calculate_reserve, PyFloat.int_mul. rewrite Hnone.
  destruct (of_int_exact effective_limit ltac:(lia)) as (f & Hf & Hback & Hvf & Hsign).
  destruct (of_int_finite effective_limit ltac:(lia)) as (f' & Hf' & Hbelow).
  rewrite Hf in Hf'. injection Hf' as <-.
  rewrite Hf. cbn [bind].
  pose proof (mul_unit_fraction_finite f (reserve_pct config) Hbelow Hvalid H0 H1) as Hfin.
  replace (effective_limit <? 0) with false in Hsign by (symmetry; apply Z.ltb_ge; lia).
  destruct f as [s|s| |s mx ex]; try contradiction.
  - cbn [PyFloat.to_int] in Hback. injection Hback as <-.
    exists 0. split; [|lia].
    destruct (reserve_pct config) as [sy|sy| |sy my ey]; try discriminate; reflexivity.
  - cbn [PyFloat.sign_bit] in Hsign. subst s.
    destruct (to_int_mul_fraction mx ex (reserve_pct config) Hvf Hvalid H0 H1 Hfin)
      as (n & Hn & Hbound).
    cbn [PyFloat.to_int cond_Zopp] in Hback. injection Hback as Hback.
    exists n. split; [exact Hn | lia].
Qed.

End BudgetRanges.

Section BudgetExtras.
Import models cli budget.

(** X16. With no absolute reserve, a reserve fraction of 1.0 reserves the
    whole effective limit when its magnitude is below [2^53] (the integers a
    float holds exactly), and a fraction of 0.0 reserves nothing. *)
Theorem X16_reserve_fraction_extremes (effective_limit : Z) (config : CLIConfig) :
  cli.reserve config = None ->
  (reserve_pct config = PyFloat.literal 1 1 -> Z.abs effective_limit < 2 ^ 53 ->
   _calculate_reserve effective_limit config = Return effective_limit) /\
  (reserve_pct config = PyFloat.zero -> Z.abs effective_limit < 2 ^ 1000 ->
   _calculate_reserve effective_limit config = Return 0).
Proof.
  intros Hnone. unfold _calculate_reserve, PyFloat.int_mul. rewrite Hnone. split.
  - intros -> Heff.
    destruct (of_int_exact effective_limit Heff) as (f & Hf & Hback & Hvf & _).
    rewrite Hf. cbn [bind].
    assert (Hfin : PyFloat.is_finite f = true)
      by (destruct f; try discriminate; reflexivity).
    now rewrite (mul_one f Hvf Hfin).
  - intros -> Heff.
    destruct (of_int_finite effective_limit Heff) as (f & Hf & Hbelow).
    rewrite Hf. cbn [bind].
    destruct f; try contradiction; reflexivity.
Qed.

(** X17. When the reserve is a fraction of the effective limit (no absolute
    reserve) and that limit is between 0 and [2^53], the reserve of the
    returned record lies between 0 and the effective limit, so the remaining
    tokens lie between minus the count and the limit minus the count. *)
Theorem X17_percentage_reserve_within_limit (cr : counting.CountingResult)
  (m : ModelDefinition) (config : CLIConfig) (r : BudgetResult) :
  opt_str_truthy (counting.error cr) = false ->
  cli.reserve config = None ->
  0 <= _calculate_effective_limit m config < 2 ^ 53 ->
  valid_binary PyFloat.prec PyFloat.emax (reserve_pct config) = true ->
  reserve_values_ok config = true ->
  analyze_budget cr m config = Return r ->
  0 <= reserve r <= effective_limit r /\
  remaining_tokens r = effective_limit r - reserve r - input_tokens r /\
  - input_tokens r <= remaining_tokens r <= effective_limit r - input_tokens r.
Proof.
  intros Herr Hnone Heff Hvalid Hok Hret.
  destruct (analyze_budget_inv cr m config r Herr Hret) as (res & pct & Hres & _ & ->).
  cbn [reserve effective_limit remaining_tokens input_tokens].
  unfold reserve_values_ok in Hok.
  apply andb_prop in Hok as [_ Hpct]. apply andb_prop in Hpct as [H0 H1].
  destruct (calculate_reserve_within _ config Heff Hnone Hvalid H0 H1) as (n & Hn & Hbound).
  rewrite Hn in Hres. injection Hres as <-. lia.
Qed.

(** X18. For a positive effective limit and a count below ten times that
    limit, the usage ratio of the returned record is the float written
    [k / 100] for a whole number [k] of hundredths between 0 and 1000, and
    at most 100 when the count is within the limit.  The table shows it with
    exactly the digits of [k] (e.g. [0.85]); the record carries the error
    exactly when [k] is at least 95 or the remaining tokens are negative,
    and the warning exactly when [k] is between 80 and 94 and the remaining
    tokens are not negative. *)
Theorem X18_usage_ratio_has_two_decimals (cr : counting.CountingResult)
  (m : ModelDefinition) (config : CLIConfig) (r : BudgetResult) :
  opt_str_truthy (counting.error cr) = false ->
  0 < _calculate_effective_limit m config ->
  0 <= counting.input_tokens cr < 10 * _calculate_effective_limit m config ->
  analyze_budget cr m config = Return r ->
  exists k,
    0 <= k <= 1000 /\
    (counting.input_tokens cr <= _calculate_effective_limit m config -> k <= 100) /\
    pct_used r = spec.hundredths k /\
    output.format_2f (pct_used r) = notions.decimal_2 k /\
    (error r = Some "error: exceeds budget" <-> 95 <= k \/ remaining_tokens r < 0) /\
    (error r = None <-> k < 95 /\ 0 <= remaining_tokens r) /\
    (warning r = Some "warning: near limit" <->
     80 <= k < 95 /\ 0 <= remaining_tokens r) /\
    (warning r = None <-> k < 80 \/ 95 <= k \/ remaining_tokens r < 0).
Proof.
  intros Herr Heff Htokens Hret.
  destruct (analyze_budget_inv cr m config r Herr Hret) as (res & pct & _ & Hpct & ->).
  cbn [pct_used error warning remaining_tokens].
  set (rem := _calculate_effective_limit m config - res - counting.input_tokens cr).
  assert (Hk : exists k, 0 <= k <= 1000 /\
                 (counting.input_tokens cr <= _calculate_effective_limit m config
                  -> k <= 100) /\
                 pct = spec.hundredths k).
  { destruct (Z_le_gt_dec (counting.input_tokens cr) (_calculate_effective_limit m config))
      as [Hle|Hgt].
    - destruct (pct_used_of_within_limit (counting.input_tokens cr)
                  (_calculate_effective_limit m config) ltac:(lia) Heff)
        as (k & Hk & Hpct').
      rewrite Hpct in Hpct'. injection Hpct' as ->.
      exists k. repeat split; try lia.
    - destruct (pct_used_of_hundredths (counting.input_tokens cr)
                  (_calculate_effective_limit m config) 10 ltac:(lia) Heff ltac:(lia)
                  ltac:(lia))
        as (k & Hk & Hpct').
      rewrite Hpct in Hpct'. injection Hpct' as ->.
      exists k. repeat split; try lia. }
  destruct Hk as (k & Hk & Hwithin & ->).
  destruct (hundredths_facts k Hk) as (Hfmt & H95 & H80).
  exists k. split; [exact Hk|]. split; [exact Hwithin|]. split; [reflexivity|].
  split; [exact Hfmt|].
  unfold _check_thresholds. rewrite H95, H80.
  clearbody rem. clear - k rem.
  destruct (Z.leb_spec 95 k), (Z.ltb_spec rem 0), (Z.leb_spec 80 k);
    cbn [orb fst snd];
    (split; [|split; [|split]]); (split; intros ?);
      first [discriminate | reflexivity | lia | (exfalso; lia)].
Qed.

(** What [_build_config] has checked when it returns. *)
Lemma build_config_checked (args : Namespace) (c : CLIConfig) :
  _build_config args = Return c ->
  (forall mt, max_tokens c = Some mt -> 0 < mt) /\
  reserve_values_ok c = true /\
  reserve_pct c = arg_reserve_pct args.
Proof.
  unfold _build_config.
  destruct (match arg_messages args with
            | Some path => (MESSAGES, Some path)
            | None => match arg_file args with
                      | Some path => (FILE, Some path)
                      | None => (STDIN, None)
                      end
            end) as [input_source input_path].
  destruct (match arg_max_tokens args with Some mt => mt <=? 0 | None => false end)
    eqn:Hmt; [discriminate|].
  intros Hnew.
  apply new_CLIConfig_returns in Hnew as (-> & Hres & H0 & H1 & _).
  cbn [cli.max_tokens cli.reserve_pct]. repeat split.
  - intros mt Hsome. rewrite Hsome in Hmt. now apply Z.leb_gt in Hmt.
  - unfold reserve_values_ok. cbn [cli.reserve cli.reserve_pct]. rewrite H0, H1.
    destruct (arg_reserve args) as [r|]; [|reflexivity].
    specialize (Hres r eq_refl). apply Z.ltb_ge in Hres. now rewrite Hres.
Qed.

Lemma registry_limits (n : string) (m : ModelDefinition) :
  get_model n = inr m -> 128000 <= models.context_limit m <= 200000.
Proof.
  unfold get_model, _models. cbn [registry_lookup].
  destruct (String.eqb "gpt-4o" n); [intros [= <-]; cbn; lia|].
  destruct (String.eqb "claude-3-5-sonnet" n); [intros [= <-]; cbn; lia|].
  discriminate.
Qed.

(** X19. For a configuration built from parsed arguments and a model of the
    registry, the effective limit is at least 1 and at most the model's
    context limit, so the branch for a zero limit is never taken; the
    analysis of any outcome with a count below [2^1000] raises nothing, and
    for an outcome without error the record carries that effective limit and,
    as usage ratio, the quotient of the count by it rounded to two
    decimals. *)
Theorem X19_analysis_of_a_built_config (args : Namespace) (c : CLIConfig)
  (n : string) (m : ModelDefinition) (cr : counting.CountingResult) :
  _build_config args = Return c ->
  get_model n = inr m ->
  valid_binary PyFloat.prec PyFloat.emax (arg_reserve_pct args) = true ->
  0 <= counting.input_tokens cr < 2 ^ 1000 ->
  1 <= _calculate_effective_limit m c <= models.context_limit m /\
  exists r,
    analyze_budget cr m c = Return r /\
    (opt_str_truthy (counting.error cr) = false ->
     effective_limit r = _calculate_effective_limit m c /\
     exists ratio,
       PyFloat.int_truediv (counting.input_tokens cr) (effective_limit r) = Return ratio /\
       pct_used r = PyFloat.round ratio 2).
Proof.
  intros Hbuild Hmodel Hvalid Htokens.
  destruct (build_config_checked args c Hbuild) as (Hmt & Hok & Hpct).
  pose proof (registry_limits n m Hmodel) as Hlimit.
  assert (Heff : 1 <= _calculate_effective_limit m c <= models.context_limit m).
  { unfold _calculate_effective_limit.
    destruct (max_tokens c) as [mt|]; [|lia].
    specialize (Hmt mt eq_refl). rewrite py_min_spec. lia. }
  split; [exact Heff|].
  assert (Hbig : 200000 < 2 ^ 1000) by (vm_compute; reflexivity).
  rewrite <- Hpct in Hvalid.
  destruct (analyze_budget_returns_in_range cr m c ltac:(lia) ltac:(lia) Hvalid Hok)
    as (r & Hr).
  exists r. split; [exact Hr|]. intros Herr.
  destruct (analyze_budget_inv cr m c r Herr Hr) as (res & pct & _ & Hpct' & ->).
  cbn [effective_limit pct_used]. split; [reflexivity|].
  unfold pct_used_of in Hpct'.
  destruct (Z.eqb_spec (_calculate_effective_limit m c) 0) as [H0|_]; [lia|].
  destruct (PyFloat.int_truediv _ _) as [ratio|e]; [|discriminate].
  cbn [bind] in Hpct'. injection Hpct' as <-.
  exists ratio. split; reflexivity.
Qed.

End BudgetExtras.

(** * The table of the human-readable output *)

Section TableLayout.
Import budget output.

Lemma length_append (a b : string) :
  String.length (a ++ b) = (String.length a + String.length b)%nat.
Proof.
  induction a as [|c a IH]; cbn [String.append String.length]; [reflexivity|].
  now rewrite IH.
Qed.

Lemma length_spaces (n : nat) : String.length (spaces n) = n.
Proof.
  induction n as [|n IH]; cbn [spaces String.length]; [reflexivity | now rewrite IH].
Qed.

Lemma length_ljust (s : string) (width : nat) :
  String.length (ljust s width) = Nat.max (String.length s) width.
Proof.
  unfold ljust. rewrite length_append, length_spaces. lia.
Qed.

Lemma col_width_bounds (rows : list (list string)) (i : nat) (header : string) :
  (String.length header <= col_width rows i header)%nat /\
  forall row, In row rows ->
              (String.length (nth i row EmptyString) <= col_width rows i header)%nat.
Proof.
  unfold col_width. generalize (String.length header) as init.
  induction rows as [|row0 rows IH]; intros init; cbn [fold_left].
  - split; [lia | intros row []].
  - destruct (IH (Nat.max init (String.length (nth i row0 EmptyString)))) as [Hinit Hrows].
    split; [lia|]. intros row [<-|Hin]; [lia | now apply Hrows].
Qed.

Lemma format_cell_plain (widths : list nat) (result : BudgetResult) (j : nat)
  (cell : string) :
  format_cell false widths result j cell = ljust cell (nth j widths O).
Proof.
  unfold format_cell, _colorize. cbn [negb].
  destruct (_ && _); [|reflexivity].
  destruct (opt_str_truthy (error result)); [reflexivity|].
  destruct (opt_str_truthy (warning result)); reflexivity.
Qed.

(** The list [lines] of the table has one entry per result after the
    header; each column is as wide as its header or its longest cell,
    whichever is longer; and with colours off all entries have the same
    length. *)
Lemma table_lines_layout (colors_enabled : bool) (results : list BudgetResult) :
  List.length (table_lines colors_enabled results) = S (List.length results) /\
  List.length (col_widths (map make_row results)) = 6%nat /\
  (forall (i : nat) (row : list string),
     In row (map make_row results) ->
     (String.length (nth i headers EmptyString)
      <= nth i (col_widths (map make_row results)) O)%nat /\
     (i < 6 -> String.length (nth i row EmptyString)
               <= nth i (col_widths (map make_row results)) O)%nat) /\
  (forall line,
     In line (table_lines false results) ->
     String.length line = (list_sum (col_widths (map make_row results)) + 10)%nat).
Proof.
  set (rows := map make_row results).
  assert (Hw : col_widths rows =
               [ col_width rows 0 "model"; col_width rows 1 "input_tokens";
                 col_width rows 2 "context_limit"; col_width rows 3 "pct_used";
                 col_width rows 4 "remaining_tokens"; col_width rows 5 "warnings" ])
    by reflexivity.
  pose proof (col_width_bounds rows 0 "model") as [Hh0 Hc0].
  pose proof (col_width_bounds rows 1 "input_tokens") as [Hh1 Hc1].
  pose proof (col_width_bounds rows 2 "context_limit") as [Hh2 Hc2].
  pose proof (col_width_bounds rows 3 "pct_used") as [Hh3 Hc3].
  pose proof (col_width_bounds rows 4 "remaining_tokens") as [Hh4 Hc4].
  pose proof (col_width_bounds rows 5 "warnings") as [Hh5 Hc5].
  split; [|split; [|split]].
  - unfold table_lines. cbn [List.length]. now rewrite length_map.
  - now rewrite Hw.
  - intros i row Hrow. rewrite Hw.
    do 6 (destruct i as [|i]; [cbn [nth headers]; split; [assumption | intros _; auto]|]).
    split; [destruct i; cbn; lia | intros Hi; lia].
  - intros line Hline. unfold table_lines in Hline. fold rows in Hline.
    rewrite Hw in *.
    set (w0 := col_width rows 0 "model") in *.
    set (w1 := col_width rows 1 "input_tokens") in *.
    set (w2 := col_width rows 2 "context_limit") in *.
    set (w3 := col_width rows 3 "pct_used") in *.
    set (w4 := col_width rows 4 "remaining_tokens") in *.
    set (w5 := col_width rows 5 "warnings") in *.
    cbn [list_sum fold_right].
    destruct Hline as [<-|Hline].
    + unfold header_line. cbn [map_indexed headers nth join].
      rewrite !length_append, !length_ljust.
      cbn [String.length] in *. lia.
    + apply in_map_iff in Hline as (r & <- & Hr).
      assert (Hrow : In (make_row r) rows) by (now apply in_map).
      specialize (Hc0 _ Hrow). specialize (Hc1 _ Hrow). specialize (Hc2 _ Hrow).
      specialize (Hc3 _ Hrow). specialize (Hc4 _ Hrow). specialize (Hc5 _ Hrow).
      cbn [make_row nth] in Hc0, Hc1, Hc2, Hc3, Hc4, Hc5.
      unfold data_line. cbn [make_row map_indexed].
      rewrite !format_cell_plain. cbn [nth join].
      rewrite !length_append, !length_ljust.
      cbn [String.length]. lia.
Qed.

Lemma has_line_feed_append (a b : string) :
  notions.has_line_feed (a ++ b)
  = notions.has_line_feed a || notions.has_line_feed b.
Proof.
  induction a as [|c a IH]; cbn [String.append notions.has_line_feed]; [reflexivity|].
  now rewrite IH, orb_assoc.
Qed.

Lemma has_line_feed_spaces (n : nat) : notions.has_line_feed (spaces n) = false.
Proof.
  induction n as [|n IH]; cbn [spaces notions.has_line_feed]; [reflexivity | exact IH].
Qed.

Lemma has_line_feed_ljust (s : string) (width : nat) :
  notions.has_line_feed (ljust s width) = notions.has_line_feed s.
Proof.
  unfold ljust. rewrite has_line_feed_append, has_line_feed_spaces. apply orb_false_r.
Qed.

(** A decimal numeral holds no line feed. *)
Lemma has_line_feed_str_of_int (n : Z) : notions.has_line_feed (str_of_int n) = false.
Proof.
  assert (Huint : forall d, notions.has_line_feed (NilEmpty.string_of_uint d) = false).
  { induction d; cbn [NilEmpty.string_of_uint notions.has_line_feed];
      try reflexivity; exact IHd. }
  assert (Hzero : forall d, notions.has_line_feed (NilZero.string_of_uint d) = false).
  { intros d. unfold NilZero.string_of_uint. destruct d; try apply Huint. reflexivity. }
  unfold str_of_int, NilZero.string_of_int.
  destruct (Z.to_int n) as [d|d]; [apply Hzero|].
  cbn [notions.has_line_feed]. apply Hzero.
Qed.

Lemma has_line_feed_format_2f (x : PyFloat.float) :
  notions.has_line_feed (format_2f x) = false.
Proof.
  unfold format_2f, two_digits.
  destruct x as [s|s| |s m e]; [destruct s | destruct s | |]; try reflexivity.
  cbv zeta. rewrite !has_line_feed_append, !has_line_feed_str_of_int.
  destruct s; destruct (_ <? 10); reflexivity.
Qed.

Lemma has_line_feed_format_cell (colors_enabled : bool) (widths : list nat)
  (result : BudgetResult) (j : nat) (cell : string) :
  notions.has_line_feed cell = false ->
  notions.has_line_feed (format_cell colors_enabled widths result j cell) = false.
Proof.
  intros Hcell. unfold format_cell, _colorize.
  change (color_lookup color_codes "red") with (Some (esc ++ "[31m")%string).
  change (color_lookup color_codes "yellow") with (Some (esc ++ "[33m")%string).
  destruct colors_enabled; cbn [negb];
    destruct (_ && _);
    try destruct (opt_str_truthy (error result));
    try destruct (opt_str_truthy (warning result));
    rewrite ?has_line_feed_append, ?has_line_feed_ljust, ?Hcell; reflexivity.
Qed.

(** A string without line feed is one line, and a line before a line feed
    is the first line. *)
Lemma split_lines_one (s : string) :
  notions.has_line_feed s = false -> notions.split_lines s = [s].
Proof.
  induction s as [|c s IH]; cbn [notions.has_line_feed notions.split_lines];
    [reflexivity|].
  intros H. apply orb_false_elim in H as [Hc Hs]. rewrite Hc, (IH Hs). reflexivity.
Qed.

Lemma split_lines_append (s t : string) :
  notions.has_line_feed s = false ->
  notions.split_lines (s ++ line_feed ++ t) = s :: notions.split_lines t.
Proof.
  induction s as [|c s IH]; cbn [String.append notions.has_line_feed notions.split_lines].
  - intros _. unfold line_feed. cbn [String.append notions.split_lines].
    now rewrite Ascii.eqb_refl.
  - intros H. apply orb_false_elim in H as [Hc Hs]. rewrite Hc, (IH Hs). reflexivity.
Qed.

Lemma split_lines_join (parts : list string) :
  parts <> [] ->
  Forall (fun part => notions.has_line_feed part = false) parts ->
  notions.split_lines (join line_feed parts) = parts.
Proof.
  induction parts as [|s [|s' rest] IH]; intros Hne Hall; [congruence| |].
  - cbn [join]. apply split_lines_one. now inversion Hall.
  - change (join line_feed (s :: s' :: rest))
      with (s ++ line_feed ++ join line_feed (s' :: rest))%string.
    inversion Hall as [|? ? Hs Hrest]; subst.
    rewrite (split_lines_append _ _ Hs), IH; [reflexivity | discriminate | exact Hrest].
Qed.

(** The lines of the table hold no line feed when the model names and the
    messages hold none. *)
Lemma table_lines_no_line_feed (colors_enabled : bool) (results : list BudgetResult) :
  (forall r, In r results ->
             notions.has_line_feed (model r) = false /\
             notions.has_line_feed (warnings_str r) = false) ->
  Forall (fun line => notions.has_line_feed line = false)
    (table_lines colors_enabled results).
Proof.
  intros Hcells. unfold table_lines.
  set (widths := col_widths (map make_row results)).
  constructor.
  - unfold header_line. cbn [map_indexed headers join].
    rewrite !has_line_feed_append, !has_line_feed_ljust. reflexivity.
  - apply Forall_forall. intros line Hline.
    apply in_map_iff in Hline as (r & <- & Hr).
    destruct (Hcells r Hr) as [Hmodel Hmsg].
    unfold data_line. cbn [make_row map_indexed join].
    rewrite !has_line_feed_append.
    rewrite !has_line_feed_format_cell; try reflexivity; try assumption;
      try apply has_line_feed_str_of_int.
    rewrite has_line_feed_append, has_line_feed_format_2f. reflexivity.
Qed.

(** X20. For no result the output is empty.  Otherwise, when no model name
    and no message holds a line feed, the returned table has one line per
    result after the header line, and with colours off all its lines have
    the same length: the sum of the column widths plus the two spaces
    between neighbouring columns, each column being as wide as its header
    or its longest cell, whichever is longer. *)
Theorem X20_table_columns_line_up (results : list BudgetResult) :
  (forall colors_enabled, format_human_readable colors_enabled [] = EmptyString) /\
  (results <> [] ->
   (forall r, In r results ->
              notions.has_line_feed (model r) = false /\
              notions.has_line_feed (warnings_str r) = false) ->
   (forall colors_enabled,
       List.length (notions.split_lines (format_human_readable colors_enabled results))
       = S (List.length results)) /\
   (forall line,
       In line (notions.split_lines (format_human_readable false results)) ->
       String.length line = (list_sum (col_widths (map make_row results)) + 10)%nat)) /\
  List.length (col_widths (map make_row results)) = 6%nat /\
  (forall (i : nat) (row : list string),
      In row (map make_row results) ->
      (String.length (nth i headers EmptyString)
       <= nth i (col_widths (map make_row results)) O)%nat /\
      (i < 6 -> String.length (nth i row EmptyString)
                <= nth i (col_widths (map make_row results)) O)%nat).
Proof.
  destruct (table_lines_layout false results) as (_ & Hsix & Hwide & Hlen).
  split; [reflexivity|]. split; [|split; assumption].
  intros Hne Hcells.
  assert (Hout : forall colors_enabled,
             notions.split_lines (format_human_readable colors_enabled results)
             = table_lines colors_enabled results).
  { intros colors_enabled.
    replace (format_human_readable colors_enabled results)
      with (join line_feed (table_lines colors_enabled results))
      by (destruct results; [congruence | reflexivity]).
    apply split_lines_join; [discriminate|].
    now apply table_lines_no_line_feed. }
  split.
  - intros colors_enabled. rewrite Hout.
    unfold table_lines. cbn [List.length]. now rewrite length_map.
  - intros line Hline. rewrite Hout in Hline. now apply Hlen.
Qed.

End TableLayout.

Section TableColours.
Import budget output.

Lemma string_append_assoc (a b c : string) :
  ((a ++ b) ++ c = a ++ (b ++ c))%string.
Proof.
  induction a as [|x a IH]; cbn [String.append]; [reflexivity | now rewrite IH].
Qed.

(** The message of the warnings column is empty exactly when the record has
    neither a (non-empty) error nor a (non-empty) warning. *)
Lemma warnings_str_truthy (result : BudgetResult) :
  str_truthy (warnings_str result)
  = opt_str_truthy (error result) || opt_str_truthy (warning result).
Proof.
  unfold warnings_str.
  destruct (error result) as [[|c e]|]; cbn [opt_str_truthy str_truthy orb];
    try reflexivity;
    destruct (warning result) as [[|d w]|]; reflexivity.
Qed.

(** X21. Colours touch only the message of the warnings column.  A line of
    a record without error and warning is the same with colours on and off;
    otherwise the coloured line is the plain line with its padded last cell
    put between the colour code and the reset code: red when the record has
    an error, yellow when it has only a warning. *)
Theorem X21_colours_wrap_only_the_message (widths : list nat) (result : BudgetResult) :
  exists prefix : string,
    let cell := ljust (warnings_str result) (nth 5 widths O) in
    data_line false widths result = (prefix ++ cell)%string /\
    (opt_str_truthy (error result) = false ->
     opt_str_truthy (warning result) = false ->
     data_line true widths result = data_line false widths result) /\
    (opt_str_truthy (error result) = true ->
     data_line true widths result
     = (prefix ++ (esc ++ "[31m") ++ cell ++ esc ++ "[0m")%string) /\
    (opt_str_truthy (error result) = false ->
     opt_str_truthy (warning result) = true ->
     data_line true widths result
     = (prefix ++ (esc ++ "[33m") ++ cell ++ esc ++ "[0m")%string).
Proof.
  exists (ljust (model result) (nth 0 widths O) ++ "  "
          ++ ljust (str_of_int (input_tokens result)) (nth 1 widths O) ++ "  "
          ++ ljust (str_of_int (context_limit result)) (nth 2 widths O) ++ "  "
          ++ ljust (format_2f (pct_used result) ++ "%") (nth 3 widths O) ++ "  "
          ++ ljust (str_of_int (remaining_tokens result)) (nth 4 widths O) ++ "  ")%string.
  cbv zeta.
  assert (Hline : forall ce,
             data_line ce widths result
             = (ljust (model result) (nth 0 widths O) ++ "  "
                ++ ljust (str_of_int (input_tokens result)) (nth 1 widths O) ++ "  "
                ++ ljust (str_of_int (context_limit result)) (nth 2 widths O) ++ "  "
                ++ ljust (format_2f (pct_used result) ++ "%") (nth 3 widths O) ++ "  "
                ++ ljust (str_of_int (remaining_tokens result)) (nth 4 widths O) ++ "  "
                ++ format_cell ce widths result 5 (warnings_str result))%string)
    by (intros ce; reflexivity).
  rewrite !Hline, !string_append_assoc.
  unfold format_cell. cbn [headers List.length Nat.sub Nat.eqb andb].
  rewrite warnings_str_truthy.
  unfold _colorize. cbn [negb color_codes color_lookup].
  change (String.eqb "red" "red") with true.
  change (String.eqb "red" "yellow") with false.
  change (String.eqb "yellow" "yellow") with true.
  cbv iota.
  destruct (opt_str_truthy (error result)), (opt_str_truthy (warning result));
    cbn [orb]; repeat split; intros; try discriminate; reflexivity.
Qed.

End TableColours.

(** * The usage ratio, as it is rounded *)

Section UsageRatio.
Import models cli budget PyFloat.

(** Rounding a non-negative mantissa keeps the sign and gives no NaN. *)
Lemma binary_round_aux_signed (s : bool) (m e : Z) (l : location) :
  0 <= m ->
  match binary_round_aux prec emax s m e l with
  | S754_zero s' | S754_infinity s' | S754_finite s' _ _ => s' = s
  | S754_nan => False
  end.
Proof.
  intros Hm. unfold binary_round_aux.
  destruct (shr_fexp_spec m e l Hm) as (H1 & _ & _).
  destruct (shr_fexp prec emax m e l) as [mrs' e']. cbn [fst snd] in *.
  set (m1 := round_nearest_even (shr_m mrs') (loc_of_shr_record mrs')).
  assert (Hm1 : 0 <= m1).
  { unfold m1, round_nearest_even.
    destruct (loc_of_shr_record mrs') as [|[| |]]; try destruct (Z.even _); lia. }
  destruct (shr_fexp_spec m1 e' loc_Exact Hm1) as (H4 & _ & _).
  destruct (shr_fexp prec emax m1 e' loc_Exact) as [mrs'' e'']. cbn [fst snd] in *.
  destruct (shr_m mrs'') as [|m''|m'']; [reflexivity | | lia].
  destruct (e'' <=? emax - prec); reflexivity.
Qed.

Lemma nearest_ratio_signed (s : bool) (a b : positive) :
  match nearest_ratio s a b with
  | S754_zero s' | S754_infinity s' | S754_finite s' _ _ => s' = s
  | S754_nan => False
  end.
Proof.
  unfold nearest_ratio, SFdiv_core_binary.
  set (e' := Z.min _ _).
  set (m' := match 0 - 0 - e' with Z.pos _ => _ | 0 => _ | Z.neg _ => _ end).
  assert (Hm' : 0 <= m').
  { unfold m'. destruct (0 - 0 - e') as [|sh|sh]; try lia.
    apply Z.shiftl_nonneg; lia. }
  destruct (Z.div_eucl m' (Z.pos b)) as [q r] eqn:Hdiv.
  assert (Hq : q = m' / Z.pos b) by (unfold Z.div; now rewrite Hdiv).
  assert (Hq0 : 0 <= q) by (subst q; apply Z.div_pos; lia).
  exact (binary_round_aux_signed s q e' (new_location (Z.pos b) r) Hq0).
Qed.

(** [round(x, 2)] of a positive float: the float written [k / 100] for the
    integer [k] nearest to [100 x], the even one when [100 x] lies halfway
    between two integers. *)
Lemma round_2_nearest (m : positive) (e : Z) :
  exists k,
    0 <= k /\
    round (S754_finite false m e) 2 = spec.hundredths k /\
    (- (1 # 2) <= 100 * to_Q (S754_finite false m e) - inject_Z k <= 1 # 2)%Q /\
    ((100 * to_Q (S754_finite false m e) - inject_Z k == 1 # 2)%Q \/
     (100 * to_Q (S754_finite false m e) - inject_Z k == - (1 # 2))%Q ->
     Z.even k = true).
Proof.
  unfold round.
  change (10 ^ Z.of_N 2) with 100. change (Z.to_pos 100) with 100%positive.
  destruct e as [|p|p].
  - exists (Z.pos m * 100 * 2 ^ 0). rewrite Z.pow_0_r.
    split; [lia|]. split; [reflexivity|].
    unfold to_Q, Qle, Qeq, Qminus, Qplus, Qmult, Qopp, inject_Z.
    cbn [Qnum Qden cond_Zopp]. rewrite Z.pow_0_r.
    split; [lia | intros H; lia].
  - assert (Hd : 0 < 2 ^ Z.pos p) by (apply Z.pow_pos_nonneg; lia).
    exists (Z.pos m * 100 * 2 ^ Z.pos p).
    split; [nia|]. split.
    { destruct (Z.pos m * 100 * 2 ^ Z.pos p) eqn:Hk; try reflexivity. nia. }
    unfold to_Q, Qle, Qeq, Qminus, Qplus, Qmult, Qopp, inject_Z.
    cbn [Qnum Qden cond_Zopp].
    generalize dependent (2 ^ Z.pos p). intros d Hd.
    split; [lia | intros H; lia].
  - assert (Hd : 0 < 2 ^ Z.pos p) by (apply Z.pow_pos_nonneg; lia).
    pose proof (div_half_even_nearest (Z.pos m * 100) (2 ^ Z.pos p) Hd) as [Hnear Htie].
    pose proof (div_half_even_bounds (Z.pos m * 100) (2 ^ Z.pos p) (Z.pos m * 100)
                  Hd ltac:(lia) ltac:(nia)) as Hk.
    exists (div_half_even (Z.pos m * 100) (2 ^ Z.pos p)).
    split; [lia|]. split.
    { destruct (div_half_even (Z.pos m * 100) (2 ^ Z.pos p)); try reflexivity. lia. }
    unfold to_Q, Qle, Qeq, Qminus, Qplus, Qmult, Qopp, inject_Z.
    cbn [Qnum Qden cond_Zopp].
    rewrite !Pos.mul_1_l, !Pos.mul_1_r, !Z.mul_1_r, Pos2Z.inj_pow.
    change (Z.pos 2) with 2.
    generalize dependent (div_half_even (Z.pos m * 100) (2 ^ Z.pos p)).
    generalize dependent (2 ^ Z.pos p). intros d Hd k Hnear Htie Hk.
    split; [nia | intros H; apply Htie; nia].
Qed.

(** C1 (amended). For an outcome without error and an effective limit other
    than zero, the usage ratio of the returned record is Python's
    [round(count / limit, 2)]: the quotient as a float, rounded to two
    decimals on its exact binary value with ties to even.  For a count that
    is not negative and a positive limit it is the float written [k / 100],
    [k] being the integer nearest to 100 times the float quotient, the even
    one when that lies halfway.  So 100 of 800 (the float 0.125, a tie)
    give 0.12, 335 of 1000 give 0.34 and 5 of 1000 give 0.01 (the floats of
    0.335 and 0.005 lie above the ties). *)
Theorem C1_percent_used_rounding (cr : counting.CountingResult) (m : ModelDefinition)
  (config : CLIConfig) (r : BudgetResult) :
  opt_str_truthy (counting.error cr) = false ->
  _calculate_effective_limit m config <> 0 ->
  analyze_budget cr m config = Return r ->
  (exists ratio,
      int_truediv (counting.input_tokens cr) (effective_limit r) = Return ratio /\
      pct_used r = round ratio 2 /\
      (0 <= counting.input_tokens cr -> 0 < effective_limit r ->
       exists k,
         0 <= k /\
         pct_used r = spec.hundredths k /\
         (- (1 # 2) <= 100 * to_Q ratio - inject_Z k <= 1 # 2)%Q /\
         ((100 * to_Q ratio - inject_Z k == 1 # 2)%Q \/
          (100 * to_Q ratio - inject_Z k == - (1 # 2))%Q ->
          Z.even k = true))) /\
  pct_used_of 100 800 = Return (literal 12 100) /\
  pct_used_of 335 1000 = Return (literal 34 100) /\
  pct_used_of 5 1000 = Return (literal 1 100).
Proof.
  intros Herr Heff Hret.
  destruct (analyze_budget_inv cr m config r Herr Hret) as (res & pct & _ & Hpct & ->).
  cbn [pct_used effective_limit].
  split; [|repeat split; vm_compute; reflexivity].
  unfold pct_used_of in Hpct.
  destruct (Z.eqb_spec (_calculate_effective_limit m config) 0) as [H0|_];
    [contradiction|].
  destruct (int_truediv (counting.input_tokens cr) (_calculate_effective_limit m config))
    as [ratio|e] eqn:Hdiv; [|discriminate].
  cbn [bind] in Hpct. injection Hpct as <-.
  exists ratio. split; [reflexivity|]. split; [reflexivity|].
  intros Htok Hpos.
  assert (Hzero : forall s, s = false ->
            exists k, 0 <= k /\ round (S754_zero s) 2 = spec.hundredths k /\
              (- (1 # 2) <= 100 * to_Q (S754_zero s) - inject_Z k <= 1 # 2)%Q /\
              ((100 * to_Q (S754_zero s) - inject_Z k == 1 # 2)%Q \/
               (100 * to_Q (S754_zero s) - inject_Z k == - (1 # 2))%Q ->
               Z.even k = true)).
  { intros s ->. exists 0. split; [lia|]. split; [reflexivity|].
    split; [split; discriminate | intros _; reflexivity]. }
  unfold int_truediv in Hdiv.
  destruct (_calculate_effective_limit m config) as [|b|b]; try lia.
  destruct (counting.input_tokens cr) as [|a|a]; try lia.
  - injection Hdiv as <-. apply Hzero. reflexivity.
  - change (xorb (Z.pos a <? 0) (Z.pos b <? 0)) with false in Hdiv.
    change (Z.to_pos (Z.abs (Z.pos a))) with a in Hdiv.
    change (Z.to_pos (Z.abs (Z.pos b))) with b in Hdiv.
    pose proof (nearest_ratio_signed false a b) as Hsign.
    destruct (nearest_ratio false a b) as [s|s| |s mq eq]; try discriminate;
      try contradiction; injection Hdiv as <-.
    + now apply Hzero.
    + subst s. apply round_2_nearest.
Qed.

End UsageRatio.

(** * Instances of the further properties *)

Section FurtherInstances.
Import models input cli counting budget output examples.

Lemma C1_witness :
  exists ratio,
    PyFloat.int_truediv 100 800 = Return ratio /\
    pct_used overridden_record = PyFloat.round ratio 2.
Proof.
  assert (Hret : analyze_budget (counted 100) test_model
                   (config (Some 800) None (PyFloat.literal 2 10))
                 = Return overridden_record) by (vm_compute; reflexivity).
  destruct (C1_percent_used_rounding (counted 100) test_model
              (config (Some 800) None (PyFloat.literal 2 10)) overridden_record
              eq_refl) as ((ratio & Hdiv & Hround & _) & _).
  - vm_compute. discriminate.
  - exact Hret.
  - exists ratio. split; assumption.
Defined.

Lemma X1_witness :
  count_tokens char_tokenizer text_input gpt4o = mkCountingResult "gpt-4o" 13 None false.
Proof.
  exact (X1_plain_text_counted_exactly char_tokenizer text_input gpt4o char_encoding
           (map (fun a => Z.of_nat (nat_of_ascii a)) (list_ascii_of_string "Hello, world!"))
           eq_refl eq_refl eq_refl eq_refl eq_refl).
Defined.

Lemma X2_witness :
  count_tokens failing_tokenizer messages_input gpt4o
  = mkCountingResult "gpt-4o" 0 (Some "Failed to load tiktoken encoding: no network") false.
Proof.
  apply (X2_encoding_load_failure failing_tokenizer messages_input gpt4o
           (mkExc OtherError "no network")); reflexivity.
Defined.

Lemma X3_witness :
  count_tokens broken_tokenizer messages_input gpt4o
  = mkCountingResult "gpt-4o" 0 (Some "Token encoding failed: boom") false.
Proof.
  apply (X3_encoding_failure broken_tokenizer messages_input gpt4o failing_encoding
           (mkExc OtherError "boom")); reflexivity.
Defined.

Lemma X4_witness :
  counting.error (count_tokens char_tokenizer messages_input gpt4o) = None /\
  messages messages_input <> None.
Proof.
  destruct (X4_outcome_invariants char_tokenizer messages_input gpt4o) as (_ & _ & H & _).
  apply H. reflexivity.
Defined.

Lemma X5_witness :
  count_tokens char_tokenizer text_input gpt4o
  = count_tokens char_tokenizer (mkInputData "Hello, world!" None "stdin") gpt4o.
Proof.
  apply (X5_messages_are_authoritative char_tokenizer text_input
           (mkInputData "Hello, world!" None "stdin") gpt4o).
  - reflexivity.
  - intros _. reflexivity.
Defined.

Lemma X6_witness :
  approximate_full_text ([mkMessage "user" (PyStr "hi")] ++ [mkMessage "tool" (PyStr "ok")])
  = (approximate_full_text [mkMessage "user" (PyStr "hi")] ++ double_newline
     ++ approximate_full_text [mkMessage "tool" (PyStr "ok")])%string.
Proof.
  destruct (X6_message_lists_concatenate [mkMessage "user" (PyStr "hi")]
              [mkMessage "tool" (PyStr "ok")]) as (_ & H & _).
  apply H; discriminate.
Defined.

Lemma X9_witness :
  parse_messages repr_stub messages_json "test" = Return [mkMessage "user" (PyStr "hi")].
Proof.
  apply (X9_parse_messages_success repr_stub messages_json "test"
           [mkMessage "user" (PyStr "hi")]).
  exists [PyDict [("role", PyStr "user"); ("content", PyStr "hi")]].
  split; [reflexivity|]. split; [discriminate|].
  constructor; [|constructor].
  exists [("role", PyStr "user"); ("content", PyStr "hi")].
  repeat split; reflexivity.
Defined.

Lemma X10_witness :
  parse_messages repr_stub (PyStr "hi") "test"
  = Raise (mkExc ValueError
             ("Messages must be an array of objects in " ++ "test" ++ ", got "
              ++ type_name (PyStr "hi"))%string).
Proof.
  destruct (X10_parse_messages_errors repr_stub "test") as (H & _).
  apply H. intros items. discriminate.
Defined.

Lemma X11_witness : exists m, get_model "gpt-4o" = inr m.
Proof.
  destruct (X11_registry_matches_validation "gpt-4o") as ((H & _) & _).
  apply H. reflexivity.
Defined.

Lemma X12_witness :
  new_CLIConfig ["gpt-4o"] STDIN None None (Some 100) (PyFloat.literal 2 10) false
  = Return (mkCLIConfig ["gpt-4o"] STDIN None None (Some 100) (PyFloat.literal 2 10) false).
Proof.
  pose proof (X12_config_validation ["gpt-4o"] STDIN None None (Some 100)
                (PyFloat.literal 2 10) false) as H.
  cbv zeta in H. destruct H as ((_ & H) & _). apply H.
  split; [intros r [= <-]; lia|].
  split; [vm_compute; reflexivity|].
  split; [vm_compute; reflexivity|].
  constructor; [reflexivity | constructor].
Defined.

Lemma X13_witness : cli.models default_built_config <> [].
Proof.
  assert (Hret : _build_config default_args = Return default_built_config)
    by (vm_compute; reflexivity).
  destruct (X13_built_config_is_well_formed default_args default_built_config Hret)
    as (H & _).
  exact H.
Defined.

Lemma X14_witness :
  _build_config zero_override_args
  = Raise (mkExc ValueError "--max-tokens must be positive").
Proof.
  destruct (X14_build_config_rejections zero_override_args) as (H & _).
  apply (H 0); [reflexivity | lia].
Defined.

Lemma X15_witness :
  "Provider token counting not yet implemented" <> EmptyString /\
  analyze_budget (count_tokens char_tokenizer text_input claude) claude default_config
  = Return (mkBudgetResult "claude-3-5-sonnet" 0 200000 200000 0 0 PyFloat.zero None
              (Some "Provider token counting not yet implemented") false).
Proof.
  apply (X15_failed_count_short_circuits char_tokenizer text_input claude default_config
           "Provider token counting not yet implemented").
  reflexivity.
Defined.

Lemma X16_witness :
  _calculate_reserve 1000 (config None None (PyFloat.literal 1 1)) = Return 1000.
Proof.
  destruct (X16_reserve_fraction_extremes 1000 (config None None (PyFloat.literal 1 1))
              eq_refl) as (H & _).
  apply H; [reflexivity | vm_compute; reflexivity].
Defined.

Lemma X17_witness :
  0 <= reserve overridden_record <= effective_limit overridden_record /\
  remaining_tokens overridden_record
  = effective_limit overridden_record - reserve overridden_record
    - input_tokens overridden_record /\
  - input_tokens overridden_record <= remaining_tokens overridden_record
  <= effective_limit overridden_record - input_tokens overridden_record.
Proof.
  apply (X17_percentage_reserve_within_limit (counted 100) test_model
           (config (Some 800) None (PyFloat.literal 2 10)) overridden_record).
  - reflexivity.
  - reflexivity.
  - vm_compute. split; [discriminate | reflexivity].
  - vm_compute. reflexivity.
  - vm_compute. reflexivity.
  - vm_compute. reflexivity.
Defined.

Lemma X18_witness :
  exists k,
    0 <= k <= 1000 /\
    (counting.input_tokens (counted 800)
     <= _calculate_effective_limit test_model (config None None PyFloat.zero) ->
     k <= 100) /\
    pct_used near_limit_record = spec.hundredths k /\
    format_2f (pct_used near_limit_record) = notions.decimal_2 k /\
    (error near_limit_record = Some "error: exceeds budget" <->
     95 <= k \/ remaining_tokens near_limit_record < 0) /\
    (error near_limit_record = None <->
     k < 95 /\ 0 <= remaining_tokens near_limit_record) /\
    (warning near_limit_record = Some "warning: near limit" <->
     80 <= k < 95 /\ 0 <= remaining_tokens near_limit_record) /\
    (warning near_limit_record = None <->
     k < 80 \/ 95 <= k \/ remaining_tokens near_limit_record < 0).
Proof.
  apply (X18_usage_ratio_has_two_decimals (counted 800) test_model
           (config None None PyFloat.zero) near_limit_record).
  - reflexivity.
  - vm_compute. reflexivity.
  - vm_compute. split; [discriminate | reflexivity].
  - vm_compute. reflexivity.
Defined.

Lemma X19_witness :
  1 <= _calculate_effective_limit gpt4o default_built_config <= models.context_limit gpt4o.
Proof.
  assert (Hret : _build_config default_args = Return default_built_config)
    by (vm_compute; reflexivity).
  destruct (X19_analysis_of_a_built_config default_args default_built_config "gpt-4o"
              gpt4o (counted 100) Hret eq_refl) as (H & _).
  - vm_compute. reflexivity.
  - vm_compute. split; [discriminate | reflexivity].
  - exact H.
Defined.

Lemma X20_witness :
  List.length (notions.split_lines (format_human_readable true [near_limit_record]))
  = 2%nat.
Proof.
  destruct (X20_table_columns_line_up [near_limit_record]) as (_ & H & _).
  destruct H as (H & _).
  - discriminate.
  - intros r [<-|[]]. split; reflexivity.
  - exact (H true).
Defined.

Lemma X21_witness :
  exists prefix : string,
    data_line true [8; 12; 13; 8; 16; 19]%nat near_limit_record
    = (prefix ++ (esc ++ "[33m")
       ++ ljust (warnings_str near_limit_record) 19 ++ esc ++ "[0m")%string.
Proof.
  destruct (X21_colours_wrap_only_the_message [8; 12; 13; 8; 16; 19]%nat near_limit_record)
    as (prefix & H).
  cbv zeta in H. destruct H as (_ & _ & _ & H).
  exists prefix. apply H; reflexivity.
Defined.

End FurtherInstances.
